(** * Instaseis: seismogram extraction from an AxiSEM wavefield database

    A shallow embedding of [AxiSEMDB.get_seismogram] (axisem_db.py) and of
    the cached [info] property of [BaseInstaseisDB]
    (instaseis/base_instaseis_db.py), with the properties of the
    specification stated over it; then of the constructor and the
    finaliser of [AxiSEMDB], and of the sanity checks and the band code of
    [BaseInstaseisDB], with further properties of the code.

    Numbers are IEEE binary64 values ([np.float64]), integers that index
    arrays are [nat], Python exceptions are values of [exn], and every call
    that leaves [get_seismogram] (spatial index, element mapping, field
    store, strain derivation, interpolation, rotations) is recorded in a
    trace of events next to the outcome. *)

From Stdlib Require Import PrimFloat FloatAxioms SpecFloat ZArith Ascii String.
From stdpp Require Import gmap strings list.


(** ** Exceptions, outcomes and the trace monad *)

Inductive exn : Type :=
| ValueError (msg : string)
| NotImplementedError
| IndexError
| KeyError (key : string)
| AttributeError (name : string).

Inductive outcome (A : Type) : Type :=
| Ok (a : A)
| Raise (e : exn).
Arguments Ok {A} a.
Arguments Raise {A} e.

Definition matrix : Type := list (list float).
Definition points : Type := list float.

(** A symmetric tensor in Voigt packing: six components. *)
Record voigt : Type := Voigt {
  v0 : float; v1 : float; v2 : float; v3 : float; v4 : float; v5 : float }.

(** The three tensor rotations of the [rotations] module. *)
Inductive rotation : Type :=
| xyz_src_to_xyz_earth
| xyz_earth_to_xyz_src
| xyz_to_src.

(** Calls that leave [get_seismogram], in the order they are made. *)
Inductive event : Type :=
| Call_kdtree_query (k : nat)
| Call_inside_element (idx : nat)
| Read_snapshot (var : string) (node : nat)
| Call_strain (exc : string) (G GT : matrix) (col_points_xi col_points_eta : points)
    (axis : bool)
| Call_lagrange_interpol (col_points_xi col_points_eta : points) (i : nat)
| Call_rotate (r : rotation) (tensor : voigt) (angles : list float)
| Call_azim_factor (phi : float) (isim ikind : nat).

Definition M (A : Type) : Type := list event * outcome A.

Definition ret {A} (a : A) : M A := ([], Ok a).
Definition raise {A} (e : exn) : M A := ([], Raise e).
Definition emit (ev : event) : M unit := ([ev], Ok tt).

Definition bind {A B} (m : M A) (k : A -> M B) : M B :=
  match m with
  | (t, Raise e) => (t, Raise e)
  | (t, Ok a) => let '(t', r) := k a in (t ++ t', r)
  end.

Notation "'let*' x ':=' m 'in' k" := (bind m (fun x => k))
  (at level 10, x pattern, m at level 100, k at level 200).

(** Every event of a computation satisfies [P]. *)
Definition emits {A} (P : event -> Prop) (m : M A) : Prop := Forall P m.1.

(** [a[i]] on a sequence: [IndexError] out of range. *)
Definition index {A} (l : list A) (i : nat) : M A :=
  match l !! i with
  | Some a => ret a
  | None => raise IndexError
  end.

(** [for x in xs: s = body(x, s)] *)
Fixpoint for_ {A S} (xs : list A) (body : A -> S -> M S) (s : S) : M S :=
  match xs with
  | [] => ret s
  | x :: xs' => let* s' := body x s in for_ xs' body s'
  end.

Fixpoint traverse {A B} (f : A -> M B) (xs : list A) : M (list B) :=
  match xs with
  | [] => ret []
  | x :: xs' => let* b := f x in let* bs := traverse f xs' in ret (b :: bs)
  end.

Definition xrange (n : nat) : list nat := seq 0 n.

Definition enumerate {A} (l : list A) : list (nat * A) := zip (seq 0 (length l)) l.

(** ** Python's [str.strip()]

    The strings of the database (dump type, excitation type) are text.  A
    character of a [string] stands for the code point of its number, from 0
    to 255, and [isspace] holds of the code points below 256 that
    [str.isspace] accepts: the blank, the controls 9 to 13 and 28 to 31,
    NEL (133) and the no-break space (160). *)

Definition isspace (c : ascii) : bool :=
  bool_decide (c ∈ [" "%char; "009"%char; "010"%char; "011"%char; "012"%char;
                    "013"%char; "028"%char; "029"%char; "030"%char; "031"%char;
                    "133"%char; "160"%char]).

Fixpoint lstrip (s : string) : string :=
  match s with
  | EmptyString => EmptyString
  | String c s' => if isspace c then lstrip s' else s
  end.

Definition rstrip (s : string) : string := String.rev (lstrip (String.rev s)).

Definition strip (s : string) : string := rstrip (lstrip s).

(** ** Data model *)

Module Source.
Record t : Type := Build {
  x : float; y : float; z : float;
  tensor_voigt : voigt;
  longitude : float; colatitude : float }.
End Source.

Module Receiver.
Record t : Type := Build { longitude : float; colatitude : float }.
End Receiver.

(** The variables of the "Mesh" group of the PX file that the query reads:
    [var_eltype m] is [mesh.variables["eltype"]], and so on. *)
Record MeshGroup : Type := {
  var_fem_mesh : list (list nat);
  var_eltype : list Z;
  var_mesh_S : list float;
  var_mesh_Z : list float;
  var_sem_mesh : list (list (list nat));
  var_axis : list Z }.

(** A snapshot variable: one row of node values per time sample. *)
Definition snapshot_var : Type := list (list float).

(** The attributes of [mesh.Mesh] that the query reads.  [kdtree] stands
    for [kdtree.query(point, k)[1]], the candidate indices nearest first;
    [chunks] is the chunk shape of the two-dimensional snapshot variables. *)
Record Mesh : Type := {
  kdtree : float -> float -> nat -> list nat;
  dump_type : string;
  excitation_type : string;
  npol : nat;
  ndumps : nat;
  chunks : nat * nat;
  amplitude : float;
  G2 : matrix; G1T : matrix; G2T : matrix;
  glj_points : points; gll_points : points;
  Snapshots : gmap string snapshot_var }.

Record AxiSEMDB : Type := {
  files_px_Mesh : MeshGroup;
  meshes_px : Mesh }.

Definition corner_points_t : Type := list (float * float).
Definition arr3 : Type := list (list (list float)).
Definition arr4 : Type := list (list (list (list float))).
Definition strain_t : Type := list (list (list voigt)).

Definition strain_fn : Type :=
  arr4 -> matrix -> matrix -> points -> points -> nat -> nat ->
  corner_points_t -> Z -> bool -> strain_t.

(** The functions of the modules [rotations], [finite_elem_mapping],
    [sem_derivatives] and [spectral_basis] and of numpy that
    [get_seismogram] calls. *)
Record Modules : Type := {
  rotate_frame_rd : float -> float -> float -> float -> float -> float * float * float;
  inside_element :
    float -> float -> corner_points_t -> Z -> float -> bool * float * float;
  strain_monopole_td : strain_fn;
  strain_dipole_td : strain_fn;
  strain_quadpole_td : strain_fn;
  lagrange_interpol_2D_td : points -> points -> arr3 -> float -> float -> list float;
  rotate_symm_tensor_voigt_xyz_src_to_xyz_earth_1d : voigt -> float -> float -> voigt;
  rotate_symm_tensor_voigt_xyz_earth_to_xyz_src_1d : voigt -> float -> float -> voigt;
  rotate_symm_tensor_voigt_xyz_to_src_1d : voigt -> float -> voigt;
  azim_factor_bw : float -> list float -> nat -> nat -> float;
  deg2rad : float -> float }.

(** ** Array operations of numpy used by the query *)

Definition vget (i : nat) (v : voigt) : float :=
  match i with
  | 0 => v0 v | 1 => v1 v | 2 => v2 v | 3 => v3 v | 4 => v4 v | _ => v5 v
  end.

Definition vset (i : nat) (a : float) (v : voigt) : voigt :=
  match i with
  | 0 => Voigt a (v1 v) (v2 v) (v3 v) (v4 v) (v5 v)
  | 1 => Voigt (v0 v) a (v2 v) (v3 v) (v4 v) (v5 v)
  | 2 => Voigt (v0 v) (v1 v) a (v3 v) (v4 v) (v5 v)
  | 3 => Voigt (v0 v) (v1 v) (v2 v) a (v4 v) (v5 v)
  | 4 => Voigt (v0 v) (v1 v) (v2 v) (v3 v) a (v5 v)
  | 5 => Voigt (v0 v) (v1 v) (v2 v) (v3 v) (v4 v) a
  | _ => v
  end.

Definition vmap (f : float -> float) (v : voigt) : voigt :=
  Voigt (f (v0 v)) (f (v1 v)) (f (v2 v)) (f (v3 v)) (f (v4 v)) (f (v5 v)).

(** [np.zeros((n1, n2, n3, n4))] and [np.zeros(n)] *)
Definition np_zeros4 (n1 n2 n3 n4 : nat) : arr4 :=
  replicate n1 (replicate n2 (replicate n3 (replicate n4 0%float))).

Definition np_zeros (n : nat) : list float := replicate n 0%float.

(** [np.empty((n, 6))]: the contents are unspecified; every column is
    assigned before it is read. *)
Definition np_empty6 (n : nat) : list voigt :=
  replicate n (Voigt 0 0 0 0 0 0).

(** The right-hand side of an assignment to a slice of [n] entries is
    broadcast: it has [n] entries, or one entry that is repeated. *)
Definition broadcast_to (n : nat) (col : list float) : M (list float) :=
  if decide (length col = n) then ret col
  else match col with
       | [a] => ret (replicate n a)
       | _ => raise (ValueError "could not broadcast input array")
       end.

(** [utemp[:, j, i, c] = col] *)
Definition assign_utemp (utemp : arr4) (j i c : nat) (col : list float) : M arr4 :=
  let* col := broadcast_to (length utemp) col in
  ret (zip_with (fun a slab => alter (alter (<[c := a]>) i) j slab) col utemp).

(** [final_strain[:, i] = col] *)
Definition assign_component (final_strain : list voigt) (i : nat) (col : list float)
  : M (list voigt) :=
  let* col := broadcast_to (length final_strain) col in
  ret (zip_with (vset i) col final_strain).

(** [final_strain[:, i] *= a] *)
Definition imul_component (i : nat) (a : float) (final_strain : list voigt) : list voigt :=
  map (fun row => vset i (vget i row * a)%float row) final_strain.

(** [strain[:, :, :, i]] *)
Definition component_slice (i : nat) (strain : strain_t) : arr3 :=
  map (map (map (vget i))) strain.

(** [final += term] on arrays of one length. *)
Definition iadd (final term : list float) : list float :=
  zip_with PrimFloat.add final term.

(** [mesh_dict[var][:, node]] *)
Definition read_column (v : snapshot_var) (node : nat) : M (list float) :=
  traverse (fun row => index row node) v.

(** ** The query: [AxiSEMDB.get_seismogram] *)

(** [tolerance=1E-3], as the binary64 value nearest to it. *)
Definition tolerance : float := 0x1.0624dd2f1a9fcp-10.

Section get_seismogram.
Context (ext : Modules).

(** The element search, lines 52-72: the body of
    [for idx in nextpoints[1]: ... else: raise ValueError]. *)
Fixpoint find_element (mesh : MeshGroup) (rotmesh_s rotmesh_z : float)
    (nextpoints : list nat) : M (nat * corner_points_t * Z * float * float) :=
  match nextpoints with
  | [] => raise (ValueError "Element not found")
  | idx :: rest =>
      let fem_mesh := var_fem_mesh mesh in
      let* row := index fem_mesh idx in
      let corner_point_ids := take 4 row in
      let* eltype := index (var_eltype mesh) idx in
      let* corner_points :=
        traverse (fun i => let* s := index (var_mesh_S mesh) i in
                           let* z := index (var_mesh_Z mesh) i in
                           ret (s, z)) corner_point_ids in
      let* _ := emit (Call_inside_element idx) in
      let '(isin, xi, eta) :=
        inside_element ext rotmesh_s rotmesh_z corner_points eltype tolerance in
      if isin : bool then ret (idx, corner_points, eltype, xi, eta)
      else find_element mesh rotmesh_s rotmesh_z rest
  end.

(** Loading the displacement of all GLL points, lines 97-115.  The
    division of line 105 is the integer division of Python 2 on numpy
    integers, which yields 0 for a zero divisor and does not raise. *)
Definition load_displacement (mesh : Mesh) (gll_point_ids : list (list nat)) : M arr4 :=
  let utemp := np_zeros4 (ndumps mesh) (npol mesh + 1) (npol mesh + 1) 3 in
  let mesh_dict := Snapshots mesh in
  for_ (xrange (npol mesh + 1)) (fun ipol utemp =>
    for_ (xrange (npol mesh + 1)) (fun jpol utemp =>
      let* row := index gll_point_ids ipol in
      let* id := index row jpol in
      let start_chunk := id / (chunks mesh).2 * (chunks mesh).2 in
      let* row := index gll_point_ids ipol in
      let* id := index row jpol in
      let start_chunk := id in
      for_ (enumerate ["disp_s"; "disp_p"; "disp_z"]) (fun '(i, var) utemp =>
        match mesh_dict !! var with
        | None => ret utemp
        | Some v =>
            let* _ := emit (Read_snapshot var start_chunk) in
            let* col := read_column v start_chunk in
            assign_utemp utemp jpol ipol i col
        end) utemp) utemp) utemp.

(** The loader with the first assignment to [start_chunk] removed: the
    node id is the index into the field store. *)
Definition load_displacement_node_id (mesh : Mesh) (gll_point_ids : list (list nat))
  : M arr4 :=
  let utemp := np_zeros4 (ndumps mesh) (npol mesh + 1) (npol mesh + 1) 3 in
  let mesh_dict := Snapshots mesh in
  for_ (xrange (npol mesh + 1)) (fun ipol utemp =>
    for_ (xrange (npol mesh + 1)) (fun jpol utemp =>
      let* row := index gll_point_ids ipol in
      let* id := index row jpol in
      let start_chunk := id in
      for_ (enumerate ["disp_s"; "disp_p"; "disp_z"]) (fun '(i, var) utemp =>
        match mesh_dict !! var with
        | None => ret utemp
        | Some v =>
            let* _ := emit (Read_snapshot var start_chunk) in
            let* col := read_column v start_chunk in
            assign_utemp utemp jpol ipol i col
        end) utemp) utemp) utemp.

Definition strain_fct_map : gmap string strain_fn :=
  {[ "monopole" := strain_monopole_td ext;
     "dipole" := strain_dipole_td ext;
     "quadpole" := strain_quadpole_td ext ]}.

(** Interpolation of the six strain components, lines 126-130. *)
Definition interpolate_strain (col_points_xi col_points_eta : points)
    (strain : strain_t) (xi eta : float) : M (list voigt) :=
  let final_strain := np_empty6 (length strain) in
  for_ (xrange 6) (fun i final_strain =>
    let* _ := emit (Call_lagrange_interpol col_points_xi col_points_eta i) in
    assign_component final_strain i
      (lagrange_interpol_2D_td ext col_points_xi col_points_eta
         (component_slice i strain) xi eta)) final_strain.

(** The contraction of strain and moment tensor, lines 149-156. *)
Definition contract (final_strain : list voigt) (mij : voigt) (fac_1 fac_2 : float)
  : list float :=
  let final := np_zeros (length final_strain) in
  let final := iadd final (map (fun e => vget 0 e * vget 0 mij * 1 * fac_1)%float final_strain) in
  let final := iadd final (map (fun e => vget 1 e * vget 1 mij * 1 * fac_1)%float final_strain) in
  let final := iadd final (map (fun e => vget 2 e * vget 2 mij * 1 * fac_1)%float final_strain) in
  let final := iadd final (map (fun e => vget 3 e * vget 3 mij * 2 * fac_2)%float final_strain) in
  let final := iadd final (map (fun e => vget 4 e * vget 4 mij * 2 * fac_1)%float final_strain) in
  let final := iadd final (map (fun e => vget 5 e * vget 5 mij * 2 * fac_2)%float final_strain) in
  let final := map (fun a => a * -1)%float final in
  final.

(** The body of [if component == "N":], lines 79-158, with the loader
    of lines 97-115 as [load]; [mesh] is [self._meshes["px"]]. *)
Definition component_N (load : Mesh -> list (list nat) -> M arr4)
    (mesh : Mesh) (source : Source.t) (receiver : Receiver.t)
    (rotmesh_phi : float) (corner_points : corner_points_t) (eltype : Z)
    (xi eta : float) (gll_point_ids : list (list nat)) (axis : bool)
  : M (option (list float)) :=
  if decide (strip (dump_type mesh) ≠ "displ_only") then
    raise NotImplementedError
  else
    let '(G, GT, col_points_xi, col_points_eta) :=
      if axis
      then (G2 mesh, G1T mesh, glj_points mesh, gll_points mesh)
      else (G2 mesh, G2T mesh, gll_points mesh, gll_points mesh) in
    let* utemp := load mesh gll_point_ids in
    let* strain_fct :=
      match (strain_fct_map !! excitation_type mesh : option strain_fn) with
      | Some f => ret f
      | None => raise (KeyError (excitation_type mesh))
      end in
    let* _ := emit (Call_strain (excitation_type mesh) G GT
                      col_points_xi col_points_eta axis) in
    let strain :=
      strain_fct utemp G GT col_points_xi col_points_eta (npol mesh)
        (ndumps mesh) corner_points eltype axis in
    let* final_strain :=
      interpolate_strain col_points_xi col_points_eta strain xi eta in
    let final_strain := imul_component 3 (-1) final_strain in
    let final_strain := imul_component 5 (-1) final_strain in
    let* _ := emit (Call_rotate xyz_src_to_xyz_earth (Source.tensor_voigt source)
                      [deg2rad ext (Source.longitude source);
                       deg2rad ext (Source.colatitude source)]) in
    let mij :=
      rotate_symm_tensor_voigt_xyz_src_to_xyz_earth_1d ext
        (Source.tensor_voigt source) (deg2rad ext (Source.longitude source))
        (deg2rad ext (Source.colatitude source)) in
    let* _ := emit (Call_rotate xyz_earth_to_xyz_src mij
                      [deg2rad ext (Receiver.longitude receiver);
                       deg2rad ext (Receiver.colatitude receiver)]) in
    let mij :=
      rotate_symm_tensor_voigt_xyz_earth_to_xyz_src_1d ext
        mij (deg2rad ext (Receiver.longitude receiver))
        (deg2rad ext (Receiver.colatitude receiver)) in
    let* _ := emit (Call_rotate xyz_to_src mij [rotmesh_phi]) in
    let mij := rotate_symm_tensor_voigt_xyz_to_src_1d ext mij rotmesh_phi in
    let mij := vmap (fun m => m / amplitude mesh)%float mij in
    let* _ := emit (Call_azim_factor rotmesh_phi 2 1) in
    let fac_1 := azim_factor_bw ext rotmesh_phi [0; 1; 0]%float 2 1 in
    let* _ := emit (Call_azim_factor rotmesh_phi 2 2) in
    let fac_2 := azim_factor_bw ext rotmesh_phi [0; 1; 0]%float 2 2 in
    let final := contract final_strain mij fac_1 fac_2 in
    ret (Some final).

(** Lines 43-158, with the loader of lines 97-115 as [load]. *)
Definition get_seismogram_with (load : Mesh -> list (list nat) -> M arr4)
    (self : AxiSEMDB) (source : Source.t) (receiver : Receiver.t)
    (component : string) : M (option (list float)) :=
  let '(rotmesh_s, rotmesh_phi, rotmesh_z) :=
    rotate_frame_rd ext
      (Source.x source * 1000)%float (Source.y source * 1000)%float
      (Source.z source * 1000)%float
      (Receiver.longitude receiver) (Receiver.colatitude receiver) in
  let* _ := emit (Call_kdtree_query 6) in
  let nextpoints := kdtree (meshes_px self) rotmesh_s rotmesh_z 6 in
  let mesh := files_px_Mesh self in
  let* (id_elem, corner_points, eltype, xi, eta) :=
    find_element mesh rotmesh_s rotmesh_z nextpoints in
  let* gll_point_ids := index (var_sem_mesh mesh) id_elem in
  let* axis_flag := index (var_axis mesh) id_elem in
  let axis := negb (axis_flag =? 0)%Z in
  if decide (component = "N") then
    component_N load (meshes_px self) source receiver rotmesh_phi
      corner_points eltype xi eta gll_point_ids axis
  else ret None.

Definition get_seismogram : AxiSEMDB -> Source.t -> Receiver.t -> string ->
                            M (option (list float)) :=
  get_seismogram_with load_displacement.
End get_seismogram.

(** ** The contraction as the specification words it

    The sample at one time step is the sum over the six Voigt components of
    strain times moment times multiplicity times azimuth factor, the strain
    components 3 and 5 taken with the opposite sign, and the sum is negated. *)

Definition multiplicity : list float := [1; 1; 1; 2; 2; 2]%float.

(** The strain components that are multiplied by -1. *)
Definition sign_flipped : list nat := [3; 5].

Definition flipped (i : nat) (a : float) : float :=
  if bool_decide (i ∈ sign_flipped) then (a * -1)%float else a.

Definition azimuth_factor (fac_1 fac_2 : float) : list float :=
  [fac_1; fac_1; fac_1; fac_2; fac_1; fac_2].

Definition voigt_term (e mij : voigt) (fac_1 fac_2 : float) (i : nat) : float :=
  (flipped i (vget i e) * vget i mij * nth i multiplicity 1
   * nth i (azimuth_factor fac_1 fac_2) 1)%float.

Definition voigt_sum (e mij : voigt) (fac_1 fac_2 : float) : float :=
  foldl (fun acc i => (acc + voigt_term e mij fac_1 fac_2 i)%float) 0%float (seq 0 6).

Definition voigt_contraction (strain : list voigt) (mij : voigt) (fac_1 fac_2 : float)
  : list float :=
  map (fun e => (voigt_sum e mij fac_1 fac_2 * -1)%float) strain.

(** The moment tensor in the mesh frame: source to earth, earth to the
    receiver-source frame, then by [phi] to the azimuth of the mesh, and
    divided by the amplitude of the database. *)
Definition moment_in_mesh_frame (ext : Modules) (mesh : Mesh) (source : Source.t)
    (receiver : Receiver.t) (phi : float) : voigt :=
  let m1 :=
    rotate_symm_tensor_voigt_xyz_src_to_xyz_earth_1d ext (Source.tensor_voigt source)
      (deg2rad ext (Source.longitude source)) (deg2rad ext (Source.colatitude source)) in
  let m2 :=
    rotate_symm_tensor_voigt_xyz_earth_to_xyz_src_1d ext m1
      (deg2rad ext (Receiver.longitude receiver))
      (deg2rad ext (Receiver.colatitude receiver)) in
  let m3 := rotate_symm_tensor_voigt_xyz_to_src_1d ext m2 phi in
  vmap (fun m => m / amplitude mesh)%float m3.

(** The rotation calls of a query, in order. *)
Definition rotation_calls (ext : Modules) (source : Source.t) (receiver : Receiver.t)
    (phi : float) : list event :=
  let a1 := deg2rad ext (Source.longitude source) in
  let a2 := deg2rad ext (Source.colatitude source) in
  let b1 := deg2rad ext (Receiver.longitude receiver) in
  let b2 := deg2rad ext (Receiver.colatitude receiver) in
  let m1 :=
    rotate_symm_tensor_voigt_xyz_src_to_xyz_earth_1d ext (Source.tensor_voigt source) a1 a2 in
  let m2 := rotate_symm_tensor_voigt_xyz_earth_to_xyz_src_1d ext m1 b1 b2 in
  [Call_rotate xyz_src_to_xyz_earth (Source.tensor_voigt source) [a1; a2];
   Call_rotate xyz_earth_to_xyz_src m1 [b1; b2];
   Call_rotate xyz_to_src m2 [phi]].

(** The point sets and differentiation matrices for an element with the
    given axis flag: an element on the axis has the GLJ points along xi and
    the GLL points along eta, with the matrices G2 and G1T; any other
    element has the GLL points along both, with G2 and G2T. *)
Definition basis_G (mesh : Mesh) (axis : bool) : matrix := G2 mesh.
Definition basis_GT (mesh : Mesh) (axis : bool) : matrix :=
  if axis then G1T mesh else G2T mesh.
Definition basis_xi (mesh : Mesh) (axis : bool) : points :=
  if axis then glj_points mesh else gll_points mesh.
Definition basis_eta (mesh : Mesh) (axis : bool) : points := gll_points mesh.

(** The calls of the interpolation, in order. *)
Definition interpolation_calls (mesh : Mesh) (axis : bool) (n : nat) : list event :=
  Call_lagrange_interpol (basis_xi mesh axis) (basis_eta mesh axis) <$> seq 0 n.

(** The runs of [component_N]: where it can stop, with which trace and which
    outcome. *)
Section runs.
Context (ext : Modules) (load : Mesh -> list (list nat) -> M arr4).
Context (mesh : Mesh) (source : Source.t) (receiver : Receiver.t) (phi : float).
Context (corner_points : corner_points_t) (eltype : Z) (xi eta : float).
Context (gll_point_ids : list (list nat)) (axis : bool).

Definition strain_call : event :=
  Call_strain (excitation_type mesh) (basis_G mesh axis) (basis_GT mesh axis)
    (basis_xi mesh axis) (basis_eta mesh axis) axis.

Definition strain_of (strain_fct : strain_fn) (utemp : arr4) : strain_t :=
  strain_fct utemp (basis_G mesh axis) (basis_GT mesh axis) (basis_xi mesh axis)
    (basis_eta mesh axis) (npol mesh) (ndumps mesh) corner_points eltype axis.

Definition fac_1 : float := azim_factor_bw ext phi [0; 1; 0]%float 2 1.
Definition fac_2 : float := azim_factor_bw ext phi [0; 1; 0]%float 2 2.

Inductive component_N_run : list event -> outcome (option (list float)) -> Prop :=
| run_unsupported :
    strip (dump_type mesh) <> "displ_only" ->
    component_N_run [] (Raise NotImplementedError)
| run_load_failed tl e :
    strip (dump_type mesh) = "displ_only" ->
    load mesh gll_point_ids = (tl, Raise e) ->
    component_N_run tl (Raise e)
| run_unknown_excitation tl utemp :
    strip (dump_type mesh) = "displ_only" ->
    load mesh gll_point_ids = (tl, Ok utemp) ->
    strain_fct_map ext !! excitation_type mesh = None ->
    component_N_run tl (Raise (KeyError (excitation_type mesh)))
| run_interpolation_failed tl utemp strain_fct ti e :
    strip (dump_type mesh) = "displ_only" ->
    load mesh gll_point_ids = (tl, Ok utemp) ->
    strain_fct_map ext !! excitation_type mesh = Some strain_fct ->
    interpolate_strain ext (basis_xi mesh axis) (basis_eta mesh axis)
      (strain_of strain_fct utemp) xi eta = (ti, Raise e) ->
    component_N_run (tl ++ strain_call :: ti) (Raise e)
| run_seismogram tl utemp strain_fct ti final_strain :
    strip (dump_type mesh) = "displ_only" ->
    load mesh gll_point_ids = (tl, Ok utemp) ->
    strain_fct_map ext !! excitation_type mesh = Some strain_fct ->
    interpolate_strain ext (basis_xi mesh axis) (basis_eta mesh axis)
      (strain_of strain_fct utemp) xi eta = (ti, Ok final_strain) ->
    component_N_run
      (tl ++ strain_call :: ti ++ rotation_calls ext source receiver phi
          ++ [Call_azim_factor phi 2 1; Call_azim_factor phi 2 2])
      (Ok (Some (voigt_contraction final_strain
                   (moment_in_mesh_frame ext mesh source receiver phi) fac_1 fac_2))).
End runs.

(** Classes of events. *)
Definition is_inside_call (ev : event) : bool :=
  match ev with Call_inside_element _ => true | _ => false end.
Definition is_rotation (ev : event) : bool :=
  match ev with Call_rotate _ _ _ => true | _ => false end.
Definition is_read (ev : event) : bool :=
  match ev with Read_snapshot _ _ => true | _ => false end.
Definition is_strain_or_interpolation (ev : event) : bool :=
  match ev with
  | Call_strain _ _ _ _ _ _ | Call_lagrange_interpol _ _ _ => true
  | _ => false
  end.

(** The rotated query point and the candidates of the spatial index. *)
Definition query_point (ext : Modules) (source : Source.t) (receiver : Receiver.t)
  : float * float * float :=
  rotate_frame_rd ext
    (Source.x source * 1000)%float (Source.y source * 1000)%float
    (Source.z source * 1000)%float
    (Receiver.longitude receiver) (Receiver.colatitude receiver).

(** The corner points and the type of element [idx], when the mesh has them. *)
Definition element_geometry (mesh : MeshGroup) (idx : nat) : option (corner_points_t * Z) :=
  row ← var_fem_mesh mesh !! idx;
  eltype ← var_eltype mesh !! idx;
  corner_points ← mapM
    (fun i => s ← var_mesh_S mesh !! i; z ← var_mesh_Z mesh !! i; Some (s, z))
    (take 4 row);
  Some (corner_points, eltype).

(** What the inverse mapping reports for element [idx] at the point. *)
Definition locate (ext : Modules) (mesh : MeshGroup) (s z : float) (idx : nat)
  : option (bool * float * float) :=
  '(corner_points, eltype) ← element_geometry mesh idx;
  Some (inside_element ext s z corner_points eltype tolerance).

(** Element [idx] is in the mesh and the inverse mapping reports that the
    point is not in it. *)
Definition rejects (ext : Modules) (mesh : MeshGroup) (s z : float) (idx : nat) : bool :=
  match locate ext mesh s z idx with
  | Some (false, _, _) => true
  | _ => false
  end.

(** [final_strain] is the strain interpolated at the point of the query:
    the element search finds an element, its displacement is loaded, the
    strain is derived by the function of the excitation type, and its six
    components are interpolated at the reference coordinates. *)
Definition interpolated_strain (ext : Modules) (self : AxiSEMDB) (s z : float)
    (final_strain : list voigt) : Prop :=
  exists tf id_elem cp et xi eta gll flag tl utemp strain_fct ti,
    find_element ext (files_px_Mesh self) s z (kdtree (meshes_px self) s z 6)
    = (tf, Ok (id_elem, cp, et, xi, eta)) /\
    var_sem_mesh (files_px_Mesh self) !! id_elem = Some gll /\
    var_axis (files_px_Mesh self) !! id_elem = Some flag /\
    load_displacement (meshes_px self) gll = (tl, Ok utemp) /\
    strain_fct_map ext !! excitation_type (meshes_px self) = Some strain_fct /\
    let axis := negb (flag =? 0)%Z in
    interpolate_strain ext (basis_xi (meshes_px self) axis) (basis_eta (meshes_px self) axis)
      (strain_of (meshes_px self) cp et axis strain_fct utemp) xi eta
    = (ti, Ok final_strain).

(** ** The displacement buffer *)

(** The reads of the field store for one node, and for the grid of an
    element: the variables that are stored, at the node ids of the grid. *)
Definition reads_of_node (mesh : Mesh) (node : nat) : list event :=
  var ← ["disp_s"; "disp_p"; "disp_z"];
  if Snapshots mesh !! var is Some _ then [Read_snapshot var node] else [].

Definition snapshot_reads (mesh : Mesh) (gll_point_ids : list (list nat)) : list event :=
  ipol ← xrange (npol mesh + 1);
  jpol ← xrange (npol mesh + 1);
  if gll_point_ids !! ipol ≫= (.!! jpol) is Some node
  then reads_of_node mesh node else [].

(** A stored variable has [n] time samples and the column [node]. *)
Definition column_ok (n : nat) (v : snapshot_var) (node : nat) : bool :=
  bool_decide (length v = n) && forallb (fun row => bool_decide (node < length row)) v.

Definition node_ok (mesh : Mesh) (node : nat) : bool :=
  forallb (fun var =>
    if Snapshots mesh !! var is Some v then column_ok (ndumps mesh) v node else true)
    ["disp_s"; "disp_p"; "disp_z"].

(** The grid of the element has (npol+1) x (npol+1) node ids, and the
    variables that are stored have a column for each of them. *)
Definition grid_ok (mesh : Mesh) (gll_point_ids : list (list nat)) : bool :=
  forallb (fun ipol =>
    forallb (fun jpol =>
      if gll_point_ids !! ipol ≫= (.!! jpol) is Some node
      then node_ok mesh node else false)
      (xrange (npol mesh + 1)))
    (xrange (npol mesh + 1)).

(** Component [c] of the buffer is zero at every time sample and node. *)
Definition component_zero (c : nat) (utemp : arr4) : Prop :=
  Forall (Forall (Forall (fun cell : list float => cell !! c = Some 0%float))) utemp.

Definition has_shape (n1 n2 n3 n4 : nat) (utemp : arr4) : Prop :=
  length utemp = n1 /\
  Forall (fun slab => length slab = n2 /\
    Forall (fun row => length row = n3 /\
      Forall (fun cell : list float => length cell = n4) row) slab) utemp.

(** What holds of the buffer throughout the loops of the loader: its shape,
    and that the component of a variable that is not stored is zero. *)
Definition loader_invariant (mesh : Mesh) (utemp : arr4) : Prop :=
  has_shape (ndumps mesh) (npol mesh + 1) (npol mesh + 1) 3 utemp /\
  forall c var,
    ["disp_s"; "disp_p"; "disp_z"] !! c = Some var ->
    Snapshots mesh !! var = None -> component_zero c utemp.

(** [utemp[t, j, i, c]] and [v[t, node]] *)
Definition lookup4 (utemp : list (list (list (list float)))) (t j i c : nat)
  : option float :=
  slab ← utemp !! t; row ← slab !! j; cell ← row !! i; cell !! c.

Definition field_value (v : list (list float)) (t node : nat) : option float :=
  row ← v !! t; row !! node.

(** What the buffer holds after loading, at time sample [t], at the grid
    position ([ipol], [jpol]) and in component [c]: the value of the
    variable of the component at the node of the grid, and zero when the
    variable is not stored. *)
Definition displacement_value (mesh : Mesh) (gll_point_ids : list (list nat))
    (t ipol jpol c : nat) : option float :=
  var ← ["disp_s"; "disp_p"; "disp_z"] !! c;
  node ← gll_point_ids !! ipol ≫= (.!! jpol);
  if (Snapshots mesh !! var : option snapshot_var) is Some v
  then field_value v t node else Some 0%float.

(** The buffer during the loops: the invariant, and the cells that are
    [done] hold their value. *)
Definition loaded (done : nat -> nat -> nat -> Prop) (mesh : Mesh)
    (gll_point_ids : list (list nat)) (utemp : arr4) : Prop :=
  loader_invariant mesh utemp /\
  forall t ipol jpol c,
    t < ndumps mesh -> ipol < npol mesh + 1 -> jpol < npol mesh + 1 -> c < 3 ->
    done ipol jpol c ->
    lookup4 utemp t jpol ipol c = displacement_value mesh gll_point_ids t ipol jpol c.

(** ** The cached [info] property of [BaseInstaseisDB] *)

Module BaseInstaseisDB.
(** An identifier [__name] in the body of class [cls] names the attribute
    [_cls__name]; a string literal is left as it is. *)
Fixpoint strip_underscores (s : string) : string :=
  match s with
  | String "_" s' => strip_underscores s'
  | _ => s
  end.

Definition is_private (ident : string) : bool :=
  String.prefix "__" ident && negb (String.prefix "__" (String.rev ident)).

Definition mangle (cls ident : string) : string :=
  if is_private ident then "_" +:+ strip_underscores cls +:+ ident else ident.

Section info.
(** The dictionary that [get_info()] returns. *)
Context {Info : Type}.

(** An instance: its attributes, and how often [get_info()] has run. *)
Record instance : Type := {
  attributes : gmap string Info;
  get_info_calls : nat }.

(** [get_info n] is what the call number [n] of the abstract method
    returns. *)
Context (get_info : nat -> Info).

Definition hasattr (self : instance) (name : string) : bool :=
  bool_decide (is_Some (attributes self !! name)).

Definition setattr (self : instance) (name : string) (v : Info) : instance :=
  {| attributes := <[name := v]> (attributes self);
     get_info_calls := get_info_calls self |}.

Definition call_get_info (self : instance) : instance * Info :=
  ({| attributes := attributes self; get_info_calls := S (get_info_calls self) |},
   get_info (get_info_calls self)).

(** The property [info], lines 131-138. *)
Definition info (self : instance) : instance * outcome Info :=
  let self :=
    if negb (hasattr self "__cached_info") then
      let '(self, d) := call_get_info self in
      setattr self (mangle "BaseInstaseisDB" "__cached_info") d
    else self in
  match attributes self !! mangle "BaseInstaseisDB" "__cached_info" with
  | Some d => (self, Ok d)
  | None => (self, Raise (AttributeError (mangle "BaseInstaseisDB" "__cached_info")))
  end.

(** [n] accesses in a row: the state after them and what they returned. *)
Fixpoint access (n : nat) (self : instance) : instance * list (outcome Info) :=
  match n with
  | O => (self, [])
  | S n' =>
      let '(self, r) := info self in
      let '(self, rs) := access n' self in
      (self, r :: rs)
  end.
End info.

(** A new instance: nothing cached, [get_info()] never called. *)
Definition new {Info} : @instance Info := {| attributes := ∅; get_info_calls := 0 |}.
End BaseInstaseisDB.

(** ** A small database to run the query on

    Stand-ins for the numerical modules: an axis-parallel rectangle mapping,
    Lagrange interpolation through the collocation points, a nearest-first
    scan over the first corners of the elements, and simple tensor maps. *)

Module Demo.
Local Open Scope float_scope.

Definition frame_rd (x y z lon colat : float) : float * float * float :=
  (sqrt (x * x + y * y), lon, z).

(** Inverse mapping of a rectangle with corners 0 and 2 opposite. *)
Definition rectangle_inside (s z : float) (corner_points : corner_points_t)
    (eltype : Z) (tol : float) : bool * float * float :=
  match corner_points with
  | [(s0, z0); _; (s1, z1); _] =>
      let xi := (2 * s - s0 - s1) / (s1 - s0) in
      let eta := (2 * z - z0 - z1) / (z1 - z0) in
      (PrimFloat.leb (abs xi) (1 + tol) && PrimFloat.leb (abs eta) (1 + tol), xi, eta)
  | _ => (false, 0, 0)
  end.

Definition monopole : strain_fn :=
  fun utemp G GT col_xi col_eta npol ndumps corner_points eltype axis =>
    map (map (map (fun u =>
      match u with
      | [us; up; uz] => Voigt us up uz (us + up) (us + uz) (up + uz)
      | _ => Voigt 0 0 0 0 0 0
      end))) utemp.

Definition dipole : strain_fn :=
  fun utemp G GT col_xi col_eta npol ndumps corner_points eltype axis =>
    map (map (map (fun u =>
      match u with
      | [us; up; uz] => Voigt uz us up (us - up) (us - uz) (up - uz)
      | _ => Voigt 0 0 0 0 0 0
      end))) utemp.

Definition quadpole : strain_fn :=
  fun utemp G GT col_xi col_eta npol ndumps corner_points eltype axis =>
    map (map (map (fun u =>
      match u with
      | [us; up; uz] => Voigt up uz us (2 * us) (2 * up) (2 * uz)
      | _ => Voigt 0 0 0 0 0 0
      end))) utemp.

(** The Lagrange basis polynomial of node [i] of [pts], at [x]. *)
Definition lagrange_basis (pts : points) (i : nat) (x : float) : float :=
  match pts !! i with
  | None => 0
  | Some xi =>
      foldr (fun '(k, xk) acc => if decide (k = i) then acc else acc * ((x - xk) / (xi - xk)))
        1 (enumerate pts)
  end.

Definition lagrange_2D (points1 points2 : points) (coefficients : arr3)
    (x1 x2 : float) : list float :=
  map (fun grid =>
    foldr (fun '(j, row) acc =>
      foldr (fun '(i, c) acc => acc + c * lagrange_basis points1 i x1
                                        * lagrange_basis points2 j x2)
        acc (enumerate row))
      0 (enumerate grid)) coefficients.

Definition src_to_earth (m : voigt) (phi theta : float) : voigt :=
  Voigt (v1 m) (v0 m) (v2 m + phi) (v3 m) (v4 m * theta) (v5 m).
Definition earth_to_src (m : voigt) (phi theta : float) : voigt :=
  Voigt (v0 m * 2) (v1 m + theta) (v2 m) (v4 m) (v3 m) (v5 m - phi).
Definition to_src (m : voigt) (phi : float) : voigt :=
  Voigt (v0 m + phi) (v1 m) (v2 m * 3) (v3 m) (v4 m) (v5 m + 1).

Definition azim_factor (phi : float) (fi : list float) (isim ikind : nat) : float :=
  match ikind with
  | 1 => 1 - phi * phi / 2
  | _ => phi
  end.

Definition radians (x : float) : float := x * 0x1.1df46a2529d39p-6.

Definition modules : Modules := {|
  rotate_frame_rd := frame_rd;
  inside_element := rectangle_inside;
  strain_monopole_td := monopole;
  strain_dipole_td := dipole;
  strain_quadpole_td := quadpole;
  lagrange_interpol_2D_td := lagrange_2D;
  rotate_symm_tensor_voigt_xyz_src_to_xyz_earth_1d := src_to_earth;
  rotate_symm_tensor_voigt_xyz_earth_to_xyz_src_1d := earth_to_src;
  rotate_symm_tensor_voigt_xyz_to_src_1d := to_src;
  azim_factor_bw := azim_factor;
  deg2rad := radians |}.

(** Seven rectangles: element 0 is [0,10000] x [0,10000] and touches the
    axis; elements 1-6 are squares of side 250 to the right of it. *)
Definition rectangle (s0 z0 s1 z1 : float) : list (float * float) :=
  [(s0, z0); (s1, z0); (s1, z1); (s0, z1)].

Definition corners : list (float * float) :=
  rectangle 0 0 10000 10000 ++
  rectangle 10000 9500 10250 9750 ++
  rectangle 10000 9250 10250 9500 ++
  rectangle 10000 9750 10250 10000 ++
  rectangle 10000 9000 10250 9250 ++
  rectangle 10250 9500 10500 9750 ++
  rectangle 10250 9250 10500 9500.

Definition mesh_group : MeshGroup := {|
  var_fem_mesh := map (fun e => map (fun c => 4 * e + c)%nat (seq 0 4)) (seq 0 7);
  var_eltype := replicate 7 0%Z;
  var_mesh_S := map fst corners;
  var_mesh_Z := map snd corners;
  var_sem_mesh :=
    map (fun e => map (fun i => map (fun j => 9 * e + 3 * i + j)%nat (seq 0 3)) (seq 0 3))
      (seq 0 7);
  var_axis := [1; 0; 0; 0; 0; 0; 0]%Z |}.

(** Nearest first, by the distance of the first corner to the point. *)
Definition distance2 (g : MeshGroup) (s z : float) (row : list nat) : float :=
  match row with
  | i :: _ =>
      let ds := nth i (var_mesh_S g) 0 - s in
      let dz := nth i (var_mesh_Z g) 0 - z in
      ds * ds + dz * dz
  | [] => infinity
  end.

Fixpoint insert_by (d : float) (e : nat) (l : list (float * nat)) : list (float * nat) :=
  match l with
  | [] => [(d, e)]
  | (d', e') :: l' => if PrimFloat.ltb d d' then (d, e) :: l else (d', e') :: insert_by d e l'
  end.

Definition nearest (g : MeshGroup) (s z : float) (k : nat) : list nat :=
  take k (map snd
    (foldr (fun '(e, row) acc => insert_by (distance2 g s z row) e acc) []
       (enumerate (var_fem_mesh g)))).

Fixpoint of_nat (n : nat) : float :=
  match n with
  | O => 0
  | S n' => of_nat n' + 1
  end.

(** Two time samples at 63 nodes; "disp_p" is not stored. *)
Definition disp_s : snapshot_var :=
  map (fun t => map (fun n => of_nat n + of_nat t) (seq 0 63)) (seq 0 2).
Definition disp_z : snapshot_var :=
  map (fun t => map (fun n => 2 * of_nat n - of_nat t) (seq 0 63)) (seq 0 2).

Definition mesh_with (dump exc : string) : Mesh := {|
  kdtree := nearest mesh_group;
  dump_type := dump;
  excitation_type := exc;
  npol := 2;
  ndumps := 2;
  chunks := (2, 8)%nat;
  amplitude := 2;
  G2 := [[-1.5; 2; -0.5]; [-0.5; 0; 0.5]; [0.5; -2; 1.5]];
  G1T := [[-2; 2.5; -0.5]; [-0.5; 0; 0.5]; [0.5; -2.5; 2]];
  G2T := [[-1.5; -0.5; 0.5]; [2; 0; -2]; [-0.5; 0.5; 1.5]];
  glj_points := [-1; 0x1.999999999999ap-3; 1];
  gll_points := [-1; 0; 1];
  Snapshots := {[ "disp_s"%string := disp_s; "disp_z"%string := disp_z ]} |}.

Definition db_with (dump exc : string) : AxiSEMDB :=
  {| files_px_Mesh := mesh_group; meshes_px := mesh_with dump exc |}.

Definition db : AxiSEMDB := db_with "displ_only" "monopole".
(** A Fortran string: blank-padded. *)
Definition db_padded : AxiSEMDB := db_with "displ_only      " "monopole".
Definition db_fullfields : AxiSEMDB := db_with "fullfields" "monopole".

Definition source_at (x z : float) : Source.t :=
  Source.Build x 0 z (Voigt 1 2 3 4 5 6) 0.5 0.25.
Definition receiver : Receiver.t := Receiver.Build 0.5 0.75.

(** In element 1, whose first corner is the nearest. *)
Definition source_A : Source.t := source_at 10.0625 9.5625.
(** In element 2; the first corner of element 1 is nearer. *)
Definition source_B : Source.t := source_at 10.0625 9.4375.
(** In element 0, whose first corner is farther than those of elements 1-6. *)
Definition source_C : Source.t := source_at 7.5 7.5.
(** Outside of every element. *)
Definition source_D : Source.t := source_at 20 20.
(** In element 0, near its first corner. *)
Definition source_E : Source.t := source_at 2.5 5.

(** The query for component "N" at source A: its trace and the seismogram
    [-147.00923363354175; -148.51375827937062]. *)
Definition trace_A : list event :=
  Eval vm_compute in (get_seismogram modules db source_A receiver "N").1.
Definition seismogram_A : list float :=
  Eval vm_compute in
    match (get_seismogram modules db source_A receiver "N").2 with
    | Ok (Some final) => final
    | _ => []
    end.

(** The same at source E, in element 0, which touches the axis. *)
Definition trace_E : list event :=
  Eval vm_compute in (get_seismogram modules db source_E receiver "N").1.
Definition seismogram_E : list float :=
  Eval vm_compute in
    match (get_seismogram modules db source_E receiver "N").2 with
    | Ok (Some final) => final
    | _ => []
    end.
End Demo.

(** The displacement variables that the field store of a mesh holds. *)
Definition stored_variables (mesh : Mesh) : list string :=
  List.filter (fun var => bool_decide (is_Some (Snapshots mesh !! var)))
    ["disp_s"; "disp_p"; "disp_z"].

(** ** Opening and closing the files of a database

    [AxiSEMDB.__init__], [_find_and_open_files] and [__del__]
    (axisem_db.py, lines 13-41).  The file system, [netCDF4.Dataset] and
    [mesh.Mesh] are outside of the repository: [exists_] is
    [os.path.exists], and the two constructors return an object or raise.
    The calls that open a file, build a mesh or close a file are recorded in
    a trace, next to the attributes of the instance. *)

Module Files.

(** [os.path.join] of posixpath: a component that starts with the separator
    replaces what precedes it, and the separator is put between two
    components unless the left one is empty or ends with it. *)
Fixpoint endswith_sep (s : string) : bool :=
  match s with
  | EmptyString => false
  | String c EmptyString => bool_decide (c = "/"%char)
  | String _ s' => endswith_sep s'
  end.

Definition join2 (path b : string) : string :=
  if String.prefix "/" b then b
  else if bool_decide (path = EmptyString) || endswith_sep path then path +:+ b
  else path +:+ "/" +:+ b.

Definition join (a : string) (p : list string) : string := foldl join2 a p.

Section files.
Context {Dataset MeshT : Type}.

Inductive call : Type :=
| Open_dataset (path : string)
| Build_mesh (file : Dataset)
| Close_dataset (file : Dataset).

(** The attributes of an instance: [folder], [__files] and [_meshes]. *)
Record object : Type := {
  folder : string;
  files : gmap string Dataset;
  meshes : gmap string MeshT }.

(** A method: it may change the attributes, it makes calls, and it returns
    or raises. *)
Definition IO (A : Type) : Type := object -> object * list call * outcome A.

Definition io_ret {A} (a : A) : IO A := fun self => (self, [], Ok a).
Definition io_raise {A} (e : exn) : IO A := fun self => (self, [], Raise e).

Definition io_bind {A B} (m : IO A) (k : A -> IO B) : IO B := fun self =>
  match m self with
  | (self, t, Raise e) => (self, t, Raise e)
  | (self, t, Ok a) => let '(self, t', r) := k a self in (self, t ++ t', r)
  end.

Fixpoint io_for {A} (xs : list A) (body : A -> IO unit) : IO unit :=
  match xs with
  | [] => io_ret tt
  | x :: xs' => io_bind (body x) (fun _ => io_for xs' body)
  end.

(** [try: m except: pass] *)
Definition try_pass (m : IO unit) : IO unit := fun self =>
  let '(self, t, _) := m self in (self, t, Ok tt).

Context (exists_ : string -> bool).
Context (netCDF4_Dataset : string -> outcome Dataset).
Context (mesh_Mesh : Dataset -> outcome MeshT).

Definition open_dataset (path : string) : IO Dataset := fun self =>
  (self, [Open_dataset path], netCDF4_Dataset path).

Definition build_mesh (file : Dataset) : IO MeshT := fun self =>
  (self, [Build_mesh file], mesh_Mesh file).

(** [self.__files[key] = file] and [self._meshes[key] = m] *)
Definition set_file (key : string) (file : Dataset) : IO unit := fun self =>
  ({| folder := folder self; files := <[key := file]> (files self);
      meshes := meshes self |}, [], Ok tt).

Definition set_mesh (key : string) (m : MeshT) : IO unit := fun self =>
  ({| folder := folder self; files := files self;
      meshes := <[key := m]> (meshes self) |}, [], Ok tt).

(** [self.__files[key]] *)
Definition get_file (key : string) : IO Dataset := fun self =>
  match files self !! key with
  | Some file => (self, [], Ok file)
  | None => (self, [], Raise (KeyError key))
  end.

(** Lines 19-34. *)
Definition _find_and_open_files : IO unit := fun self =>
  let px := join (folder self) ["PX"] in
  let pz := join (folder self) ["PZ"] in
  if negb (exists_ px) || negb (exists_ pz) then
    io_raise (ValueError "Expecting the 'PX' and 'PZ' subfolders to be present.") self
  else
    let px_file := join px ["Data"; "ordered_output.nc4"] in
    let pz_file := join pz ["Data"; "ordered_output.nc4"] in
    if negb (exists_ px_file) || negb (exists_ pz_file) then
      io_raise (ValueError
        "ordered_output.nc4 files must exist in the PZ/Data and PX/Data subfolders") self
    else
      io_bind (open_dataset px_file) (fun file =>
      io_bind (set_file "px" file) (fun _ =>
      io_bind (open_dataset pz_file) (fun file =>
      io_bind (set_file "pz" file) (fun _ =>
      io_bind (get_file "px") (fun file =>
      io_bind (build_mesh file) (fun m =>
      io_bind (set_mesh "px" m) (fun _ =>
      io_bind (get_file "pz") (fun file =>
      io_bind (build_mesh file) (fun m =>
      set_mesh "pz" m))))))))) self.

(** Lines 13-17: the instance that the constructor leaves behind, with what
    it called and how it ended. *)
Definition __init__ (folder : string) : object * list call * outcome unit :=
  _find_and_open_files {| folder := folder; files := ∅; meshes := ∅ |}.

(** What the loop of [__del__] binds to [file_object]: an item of
    [dict.items()] is the tuple of a key and a file object. *)
Inductive value : Type :=
| File_object (file : Dataset)
| Item (key : string) (file : Dataset).

Definition items (d : gmap string Dataset) : list value :=
  (fun kv => Item kv.1 kv.2) <$> map_to_list d.

(** [file_object.close()]: a tuple has no attribute [close]. *)
Definition close (file_object : value) : IO unit :=
  match file_object with
  | File_object file => fun self => (self, [Close_dataset file], Ok tt)
  | Item _ _ => io_raise (AttributeError "close")
  end.

(** Lines 36-41. *)
Definition __del__ : IO unit := fun self =>
  io_for (items (files self)) (fun file_object => try_pass (close file_object)) self.

Definition is_close (c : call) : bool :=
  match c with
  | Close_dataset _ => true
  | _ => false
  end.

End files.

(** A database folder "db" with the two files, whose datasets and meshes
    are named by their paths. *)
Definition demo_paths : list string :=
  ["db/PX"; "db/PZ"; "db/PX/Data/ordered_output.nc4"; "db/PZ/Data/ordered_output.nc4"].

Definition demo_exists (present : list string) (path : string) : bool :=
  bool_decide (path ∈ present).

Definition demo_Dataset (path : string) : outcome string := Ok path.
Definition demo_Mesh (file : string) : outcome string := Ok ("Mesh of " +:+ file).
End Files.

(** ** The sanity checks of [BaseInstaseisDB]

    [_get_seismograms_sanity_checks] (instaseis/base_instaseis_db.py, lines
    70-109).  The classes of instaseis.source are outside of the
    repository: an argument is a [Source], a [ForceSource], a [Receiver] or
    something else, which [Source.parse] and [Receiver.parse] turn into a
    source and into a list of receivers, or raise; [depth_in_m] is [None] or
    a number.  The warnings are returned in the order in which they are
    issued, next to the instance, on which [self.info] is evaluated. *)

Module Checks.
Section sanity_checks.
Context {Src Frc Rcv Raw Info : Type}.
Context (Source_parse : Raw -> outcome Src).
Context (Receiver_parse : Raw -> outcome (list Rcv)).
Context (source_depth_in_m : Src -> option float).
Context (force_depth_in_m : Frc -> option float).
Context (receiver_depth_in_m : Rcv -> option float).
Context (is_reciprocal : Info -> bool).
Context (get_info : nat -> Info).

Inductive source_arg : Type :=
| Is_Source (s : Src)
| Is_ForceSource (f : Frc)
| Other_source (x : Raw).

Inductive receiver_arg : Type :=
| Is_Receiver (r : Rcv)
| Other_receiver (x : Raw).

Definition depth_in_m (source : Src + Frc) : option float :=
  match source with
  | inl s => source_depth_in_m s
  | inr f => force_depth_in_m f
  end.

Definition kinds : list string := ["displacement"; "velocity"; "acceleration"].

Definition multiple_stations : string :=
  "Receiver object/file contains multiple stations. Please parse outside the get_seismograms() function and call in a loop.".

Definition receiver_depth_warning : string :=
  "Receiver depth cannot be changed when reading from reciprocal DB. Using depth from the DB.".

Definition source_depth_warning : string :=
  "Source depth cannot be changed when reading from forward DB. Using depth from the DB.".

(** Lines 83-85. *)
Definition parse_source (source : source_arg) : outcome (Src + Frc) :=
  match source with
  | Is_Source s => Ok (inl s)
  | Is_ForceSource f => Ok (inr f)
  | Other_source x =>
      match Source_parse x with
      | Ok s => Ok (inl s)
      | Raise e => Raise e
      end
  end.

(** Lines 86-95. *)
Definition parse_receiver (receiver : receiver_arg) : outcome Rcv :=
  match receiver with
  | Is_Receiver r => Ok r
  | Other_receiver x =>
      match Receiver_parse x with
      | Raise e => Raise e
      | Ok rec =>
          if bool_decide (length rec ≠ 1) then Raise (ValueError multiple_stations)
          else match rec !! 0 with
               | Some r => Ok r
               | None => Raise IndexError
               end
      end
  end.

(** Lines 70-109: the instance afterwards, the warnings, and the pair that
    is returned. *)
Definition _get_seismograms_sanity_checks (self : @BaseInstaseisDB.instance Info)
    (source : source_arg) (receiver : receiver_arg) (kind : string)
  : BaseInstaseisDB.instance * list string * outcome ((Src + Frc) * Rcv) :=
  match parse_source source with
  | Raise e => (self, [], Raise e)
  | Ok source =>
      match parse_receiver receiver with
      | Raise e => (self, [], Raise e)
      | Ok receiver =>
          if bool_decide (kind ∉ kinds) then
            (self, [], Raise (ValueError ("unknown kind " +:+ kind)))
          else
            match BaseInstaseisDB.info get_info self with
            | (self, Raise e) => (self, [], Raise e)
            | (self, Ok info) =>
                let warnings :=
                  if is_reciprocal info then
                    if receiver_depth_in_m receiver is Some _
                    then [receiver_depth_warning] else []
                  else
                    if depth_in_m source is Some _
                    then [source_depth_warning] else [] in
                (self, warnings, Ok (source, receiver))
            end
      end
  end.
End sanity_checks.

(** Stand-ins to run the checks on: a source, a force source and a receiver
    are their depth, anything else is a list of depths, which parses as a
    source when it has one entry and as the list of its receivers; the
    database is reciprocal or forward. *)
Definition demo_Source_parse (x : list (option float)) : outcome (option float) :=
  match x with
  | [d] => Ok d
  | _ => Raise (ValueError "not a source")
  end.

Definition demo_Receiver_parse (x : list (option float)) : outcome (list (option float)) :=
  Ok x.

Definition demo_checks (reciprocal : bool) :=
  _get_seismograms_sanity_checks demo_Source_parse demo_Receiver_parse
    (fun d : option float => d) (fun d : option float => d) (fun d : option float => d)
    (fun info : bool => info) (fun _ => reciprocal).
End Checks.

(** ** The band code of a time step

    [BaseInstaseisDB._get_band_code] (lines 111-129) on a Python float:
    the division by zero raises ZeroDivisionError. *)

Module Band.
Local Open Scope float_scope.

Inductive result : Type :=
| Band_code (code : string)
| ZeroDivisionError.

(** Lines 117-128, on the sampling rate [sr]. *)
Definition of_sampling_rate (sr : float) : string :=
  if sr <=? 0x1.0624dd2f1a9fcp-10 then "F"
  else if sr <=? 0x1.0624dd2f1a9fcp-8 then "C"
  else if sr <=? 0x1.999999999999ap-7 then "H"
  else if sr <=? 0x1.999999999999ap-4 then "B"
  else if sr <? 1 then "M"
  else "L".

Definition _get_band_code (dt : float) : result :=
  if dt =? 0 then ZeroDivisionError
  else Band_code (of_sampling_rate (1 / dt)).

(** The place of a code in the order from the longest to the shortest
    period. *)
Definition rank (code : string) : nat :=
  if bool_decide (code = "F") then 0
  else if bool_decide (code = "C") then 1
  else if bool_decide (code = "H") then 2
  else if bool_decide (code = "B") then 3
  else if bool_decide (code = "M") then 4
  else 5.
End Band.


(** * Properties *)

(** ** The trace monad *)

Lemma bind_ret_l {A B} (a : A) (k : A -> M B) : bind (ret a) k = k a.
Proof. unfold bind, ret. by destruct (k a). Qed.

Lemma bind_Ok {A B} (m : M A) (k : A -> M B) t a :
  m = (t, Ok a) -> bind m k = (t ++ (k a).1, (k a).2).
Proof. intros ->. unfold bind. by destruct (k a). Qed.

Lemma bind_Raise {A B} (m : M A) (k : A -> M B) t e :
  m = (t, Raise e) -> bind m k = (t, Raise e).
Proof. by intros ->. Qed.

Lemma bind_emit {B} ev (k : unit -> M B) :
  bind (emit ev) k = (ev :: (k tt).1, (k tt).2).
Proof. unfold bind, emit. by destruct (k tt). Qed.

Lemma bind_Ok_inv {A B} (m : M A) (k : A -> M B) tr b :
  bind m k = (tr, Ok b) ->
  exists t1 a t2, m = (t1, Ok a) /\ k a = (t2, Ok b) /\ tr = t1 ++ t2.
Proof.
  destruct m as [t1 [a|e]]; simpl; [|done].
  destruct (k a) as [t2 r] eqn:Hk. intros [= <- ->]. by exists t1, a, t2.
Qed.

Lemma bind_ext {A B} (m : M A) (k1 k2 : A -> M B) :
  (forall a, k1 a = k2 a) -> bind m k1 = bind m k2.
Proof. intros H. destruct m as [t [a|e]]; simpl; [|done]. by rewrite H. Qed.

Lemma for_ext {A S} (xs : list A) (body1 body2 : A -> S -> M S) s :
  (forall x s', body1 x s' = body2 x s') -> for_ xs body1 s = for_ xs body2 s.
Proof.
  intros H. revert s. induction xs as [|x xs IH]; intros s; simpl; [done|].
  rewrite H. by apply bind_ext.
Qed.

Lemma index_Some {A} (l : list A) i a : l !! i = Some a -> index l i = ret a.
Proof. unfold index. by intros ->. Qed.

Lemma index_None {A} (l : list A) i : l !! i = None -> index l i = raise IndexError.
Proof. unfold index. by intros ->. Qed.

Lemma emits_ret {A} P (a : A) : emits P (ret a).
Proof. constructor. Qed.

Lemma emits_raise {A} P e : emits P (@raise A e).
Proof. constructor. Qed.

Lemma emits_emit P ev : P ev -> emits P (emit ev).
Proof. intros. by repeat constructor. Qed.

Lemma emits_index {A} P (l : list A) i : emits P (index l i).
Proof. unfold index. destruct (l !! i); constructor. Qed.

Lemma emits_bind {A B} P (m : M A) (k : A -> M B) :
  emits P m -> (forall a, emits P (k a)) -> emits P (bind m k).
Proof.
  unfold emits. destruct m as [t [a|e]]; simpl; [|done].
  intros Hm Hk. specialize (Hk a). destruct (k a) as [t' r]; simpl in *.
  by apply Forall_app.
Qed.

Lemma emits_for {A S} P (xs : list A) (body : A -> S -> M S) s :
  (forall x s', emits P (body x s')) -> emits P (for_ xs body s).
Proof.
  intros H. revert s. induction xs as [|x xs IH]; intros s; simpl.
  - apply emits_ret.
  - apply emits_bind; auto.
Qed.

Lemma emits_traverse {A B} P (f : A -> M B) xs :
  (forall x, emits P (f x)) -> emits P (traverse f xs).
Proof.
  intros H. induction xs as [|x xs IH]; simpl.
  - apply emits_ret.
  - apply emits_bind; [done|]. intros b. apply emits_bind; [done|].
    intros bs. apply emits_ret.
Qed.

Lemma emits_broadcast_to P n col : emits P (broadcast_to n col).
Proof.
  unfold broadcast_to. case_decide; [apply emits_ret|].
  destruct col as [|a [|b col]]; constructor.
Qed.

Lemma emits_read_column P v node : emits P (read_column v node).
Proof. apply emits_traverse. intros. apply emits_index. Qed.

Lemma emits_assign_utemp P u j i c col : emits P (assign_utemp u j i c col).
Proof.
  apply emits_bind; [apply emits_broadcast_to|]. intros. apply emits_ret.
Qed.

(** ** The element search *)

Section element_search.
Context (ext : Modules) (mesh : MeshGroup) (s z : float).

Lemma traverse_corner_points (ids : list nat) :
  traverse (fun i => let* s := index (var_mesh_S mesh) i in
                     let* z := index (var_mesh_Z mesh) i in
                     ret (s, z)) ids
  = match mapM (fun i => s ← var_mesh_S mesh !! i; z ← var_mesh_Z mesh !! i; Some (s, z)) ids with
    | Some cps => ret cps
    | None => raise IndexError
    end.
Proof.
  induction ids as [|i ids IH]; [done|].
  cbn [traverse mapM]. rewrite IH. unfold index.
  destruct (var_mesh_S mesh !! i) as [a|]; [|done].
  destruct (var_mesh_Z mesh !! i) as [b|]; [|done].
  cbn. by destruct (mapM _ ids).
Qed.

Lemma find_element_cons idx rest cp et :
  element_geometry mesh idx = Some (cp, et) ->
  find_element ext mesh s z (idx :: rest)
  = let '(isin, xi, eta) := inside_element ext s z cp et tolerance in
    if isin : bool then ([Call_inside_element idx], Ok (idx, cp, et, xi, eta))
    else (Call_inside_element idx :: (find_element ext mesh s z rest).1,
          (find_element ext mesh s z rest).2).
Proof.
  unfold element_geometry. cbn [find_element]. intros H.
  unfold index at 1.
  destruct (var_fem_mesh mesh !! idx) as [row|]; [|done]. cbn in H |- *.
  unfold index at 1.
  destruct (var_eltype mesh !! idx) as [et'|]; [|done]. cbn in H |- *.
  rewrite traverse_corner_points.
  destruct (mapM _ (take 4 row)) as [cps|]; [|done].
  cbn in H. injection H as -> ->. cbn.
  destruct (inside_element ext s z cp et tolerance) as [[isin xi] eta].
  destruct isin; [done|]. by destruct (find_element ext mesh s z rest).
Qed.

Lemma find_element_rejected idx rest :
  rejects ext mesh s z idx = true ->
  find_element ext mesh s z (idx :: rest)
  = (Call_inside_element idx :: (find_element ext mesh s z rest).1,
     (find_element ext mesh s z rest).2).
Proof.
  unfold rejects, locate. intros H.
  destruct (element_geometry mesh idx) as [[cp et]|] eqn:Hg; [|done].
  rewrite (find_element_cons _ _ _ _ Hg). cbn in H.
  destruct (inside_element ext s z cp et tolerance) as [[isin xi] eta].
  by destruct isin.
Qed.

(** The search tests the candidates in order and stops at the first one
    that the inverse mapping accepts. *)
Lemma find_element_first before idx after cp et xi eta :
  Forall (fun c => rejects ext mesh s z c = true) before ->
  element_geometry mesh idx = Some (cp, et) ->
  inside_element ext s z cp et tolerance = (true, xi, eta) ->
  find_element ext mesh s z (before ++ idx :: after)
  = (Call_inside_element <$> (before ++ [idx]), Ok (idx, cp, et, xi, eta)).
Proof.
  intros Hb Hg Hin. induction Hb as [|c before Hc _ IH].
  - cbn [app]. rewrite (find_element_cons _ _ _ _ Hg), Hin. done.
  - cbn [app]. rewrite (find_element_rejected _ _ Hc), IH. done.
Qed.

Lemma find_element_none nextpoints :
  Forall (fun c => rejects ext mesh s z c = true) nextpoints ->
  find_element ext mesh s z nextpoints
  = (Call_inside_element <$> nextpoints, Raise (ValueError "Element not found")).
Proof.
  induction 1 as [|c cs Hc _ IH]; [done|].
  rewrite (find_element_rejected _ _ Hc), IH. done.
Qed.

(** The search calls nothing but the inverse mapping. *)
Lemma find_element_emits nextpoints :
  emits (fun ev => is_inside_call ev = true) (find_element ext mesh s z nextpoints).
Proof.
  induction nextpoints as [|idx rest IH]; [apply emits_raise|].
  cbn [find_element].
  apply emits_bind; [apply emits_index|]; intros row.
  apply emits_bind; [apply emits_index|]; intros et.
  apply emits_bind.
  { apply emits_traverse. intros i.
    apply emits_bind; [apply emits_index|]; intros a.
    apply emits_bind; [apply emits_index|]; intros b. apply emits_ret. }
  intros cp. apply emits_bind; [by apply emits_emit|]. intros _.
  destruct (inside_element ext s z cp et tolerance) as [[isin xi] eta].
  destruct isin; [apply emits_ret|apply IH].
Qed.

(** An element that the search returns was accepted by the inverse mapping. *)
Lemma find_element_Ok nextpoints tr idx cp et xi eta :
  find_element ext mesh s z nextpoints = (tr, Ok (idx, cp, et, xi, eta)) ->
  idx ∈ nextpoints /\ element_geometry mesh idx = Some (cp, et) /\
  inside_element ext s z cp et tolerance = (true, xi, eta).
Proof.
  revert tr. induction nextpoints as [|c rest IH]; intros tr; [done|].
  destruct (element_geometry mesh c) as [[cp' et']|] eqn:Hg.
  - rewrite (find_element_cons _ _ _ _ Hg).
    destruct (inside_element ext s z cp' et' tolerance) as [[isin xi'] eta'] eqn:Hin.
    destruct isin.
    + intros [= <- <- <- <- <- <-]. split; [apply elem_of_cons; by left|by split].
    + destruct (find_element ext mesh s z rest) as [t r] eqn:Hf. cbn.
      intros [= <- ->]. destruct (IH _ eq_refl) as (? & ? & ?).
      split; [apply elem_of_cons; by right|done].
  - cbn [find_element]. unfold element_geometry in Hg. unfold index at 1.
    destruct (var_fem_mesh mesh !! c) as [row|]; [|done]. cbn in Hg |- *.
    unfold index at 1.
    destruct (var_eltype mesh !! c) as [et'|]; [|done]. cbn in Hg |- *.
    rewrite traverse_corner_points.
    destruct (mapM _ (take 4 row)) as [cps|]; done.
Qed.
End element_search.

(** ** Runs of the query *)

Section query.
Context (ext : Modules) (load : Mesh -> list (list nat) -> M arr4).
Context (self : AxiSEMDB) (source : Source.t) (receiver : Receiver.t).
Context (s phi z : float).
Context (Hq : query_point ext source receiver = (s, phi, z)).

Local Abbreviation mesh := (files_px_Mesh self).
Local Abbreviation nextpoints := (kdtree (meshes_px self) s z 6).

(** A failed search is the outcome of the query, whatever the component. *)
Lemma get_seismogram_search_failed component tf e :
  find_element ext mesh s z nextpoints = (tf, Raise e) ->
  get_seismogram_with ext load self source receiver component
  = (Call_kdtree_query 6 :: tf, Raise e).
Proof.
  intros Hf. unfold get_seismogram_with. unfold query_point in Hq. rewrite Hq.
  rewrite bind_emit. by rewrite (bind_Raise _ _ _ _ Hf).
Qed.

Section found.
Context (tf : list event) (id_elem : nat) (corner_points : corner_points_t).
Context (eltype : Z) (xi eta : float).
Context (Hf : find_element ext mesh s z nextpoints
              = (tf, Ok (id_elem, corner_points, eltype, xi, eta))).

Lemma get_seismogram_no_sem_mesh component :
  var_sem_mesh mesh !! id_elem = None ->
  get_seismogram_with ext load self source receiver component
  = (Call_kdtree_query 6 :: tf, Raise IndexError).
Proof.
  intros Hg. unfold get_seismogram_with. unfold query_point in Hq. rewrite Hq.
  rewrite bind_emit, (bind_Ok _ _ _ _ Hf). cbn [fst snd].
  rewrite (index_None _ _ Hg). cbn. by rewrite app_nil_r.
Qed.

Lemma get_seismogram_no_axis component gll_point_ids :
  var_sem_mesh mesh !! id_elem = Some gll_point_ids ->
  var_axis mesh !! id_elem = None ->
  get_seismogram_with ext load self source receiver component
  = (Call_kdtree_query 6 :: tf, Raise IndexError).
Proof.
  intros Hg Ha. unfold get_seismogram_with. unfold query_point in Hq. rewrite Hq.
  rewrite bind_emit, (bind_Ok _ _ _ _ Hf). cbn [fst snd].
  rewrite (index_Some _ _ _ Hg), bind_ret_l, (index_None _ _ Ha).
  cbn. by rewrite app_nil_r.
Qed.

Context (gll_point_ids : list (list nat)) (axis_flag : Z).
Context (Hg : var_sem_mesh mesh !! id_elem = Some gll_point_ids).
Context (Ha : var_axis mesh !! id_elem = Some axis_flag).

(** Any component but "N": the query returns [None]. *)
Lemma get_seismogram_other_component component :
  component <> "N" ->
  get_seismogram_with ext load self source receiver component
  = (Call_kdtree_query 6 :: tf, Ok None).
Proof.
  intros Hc. unfold get_seismogram_with. unfold query_point in Hq. rewrite Hq.
  rewrite bind_emit, (bind_Ok _ _ _ _ Hf). cbn [fst snd].
  rewrite (index_Some _ _ _ Hg), bind_ret_l, (index_Some _ _ _ Ha), bind_ret_l.
  rewrite decide_False by done. cbn. by rewrite app_nil_r.
Qed.

(** Component "N" of a database with another dump type. *)
Lemma get_seismogram_dump_type :
  strip (dump_type (meshes_px self)) <> "displ_only" ->
  get_seismogram_with ext load self source receiver "N"
  = (Call_kdtree_query 6 :: tf, Raise NotImplementedError).
Proof.
  intros Hd. unfold get_seismogram_with. unfold query_point in Hq. rewrite Hq.
  rewrite bind_emit, (bind_Ok _ _ _ _ Hf). cbn [fst snd].
  rewrite (index_Some _ _ _ Hg), bind_ret_l, (index_Some _ _ _ Ha), bind_ret_l.
  rewrite decide_True by done. unfold component_N. rewrite decide_True by done.
  cbn. by rewrite app_nil_r.
Qed.

(** Component "N": the query is the search followed by [component_N]. *)
Lemma get_seismogram_found_N :
  get_seismogram_with ext load self source receiver "N"
  = let run :=
      component_N ext load (meshes_px self) source receiver phi
        corner_points eltype xi eta gll_point_ids (negb (axis_flag =? 0)%Z) in
    (Call_kdtree_query 6 :: tf ++ run.1, run.2).
Proof.
  unfold get_seismogram_with. unfold query_point in Hq. rewrite Hq.
  rewrite bind_emit, (bind_Ok _ _ _ _ Hf). cbn [fst snd].
  rewrite (index_Some _ _ _ Hg), bind_ret_l, (index_Some _ _ _ Ha), bind_ret_l.
  rewrite decide_True by done.
  by destruct (component_N _ _ _ _ _ _ _ _ _ _ _ _).
Qed.
End found.
End query.

(** ** Contraction and interpolation *)

(** The six statements of lines 150-155 after the two sign flips of lines
    131-132, and the negation of line 156, are the Voigt sum of the
    specification at every time sample. *)
Lemma contract_voigt_contraction final_strain mij fac_1 fac_2 :
  contract (imul_component 5 (-1) (imul_component 3 (-1) final_strain)) mij fac_1 fac_2
  = voigt_contraction final_strain mij fac_1 fac_2.
Proof.
  unfold contract, voigt_contraction, imul_component, iadd, np_zeros.
  induction final_strain as [|e fs IH]; [done|].
  cbn [map length replicate zip_with]. apply (f_equal2 cons); [by destruct e|exact IH].
Qed.

Lemma voigt_contraction_length strain mij fac_1 fac_2 :
  length (voigt_contraction strain mij fac_1 fac_2) = length strain.
Proof. unfold voigt_contraction. by rewrite length_map. Qed.

Lemma broadcast_to_silent n col : (broadcast_to n col).1 = [].
Proof.
  unfold broadcast_to. case_decide; [done|]. by destruct col as [|a [|b col]].
Qed.

Lemma broadcast_to_Ok n col tr col' :
  broadcast_to n col = (tr, Ok col') -> length col' = n.
Proof.
  unfold broadcast_to. case_decide as Hn; [by intros [= _ <-]|].
  destruct col as [|a [|b col]]; [done| |done].
  intros [= _ <-]. apply length_replicate.
Qed.

Lemma assign_component_silent fs i col : (assign_component fs i col).1 = [].
Proof.
  unfold assign_component. pose proof (broadcast_to_silent (length fs) col) as H.
  destruct (broadcast_to (length fs) col) as [t [c|e]]; simpl in *; by subst.
Qed.

Lemma assign_component_Ok fs i col tr fs' :
  assign_component fs i col = (tr, Ok fs') -> length fs' = length fs.
Proof.
  unfold assign_component. intros H.
  apply bind_Ok_inv in H as (t1 & c & t2 & Hb & [= _ <-] & _).
  apply broadcast_to_Ok in Hb. rewrite length_zip_with. lia.
Qed.

(** A loop whose body makes one call and then computes silently: the trace
    is the calls of the iterations that were started. *)
Lemma for_emit_trace {St} (ev : nat -> event) (step : nat -> St -> M St) xs s ti r :
  (forall i s', (step i s').1 = []) ->
  for_ xs (fun i s' => let* _ := emit (ev i) in step i s') s = (ti, r) ->
  exists k, k <= length xs /\ ti = ev <$> take k xs /\
            forall s', r = Ok s' -> k = length xs.
Proof.
  intros Hsilent. revert s ti r. induction xs as [|x xs IH]; intros s ti r.
  - intros [= <- <-]. exists 0. by repeat split.
  - cbn [for_]. rewrite bind_emit. specialize (Hsilent x s).
    destruct (step x s) as [t [s1|e]]; simpl in Hsilent; subst t; cbn [fst snd bind].
    + destruct (for_ xs _ s1) as [t2 r2] eqn:Hrest. intros [= <- <-].
      destruct (IH _ _ _ Hrest) as (k & Hk & -> & Hlen).
      exists (S k). repeat split; [simpl; lia|]. intros s' ->. simpl. by rewrite (Hlen s').
    + intros [= <- <-]. exists 1. repeat split; [simpl; lia|done].
Qed.

Lemma interpolate_strain_trace ext px pe strain xi eta ti r :
  interpolate_strain ext px pe strain xi eta = (ti, r) ->
  exists k, k <= 6 /\ ti = Call_lagrange_interpol px pe <$> seq 0 k /\
            forall fs, r = Ok fs -> k = 6.
Proof.
  unfold interpolate_strain. intros H.
  apply (for_emit_trace (Call_lagrange_interpol px pe)
           (fun i fs => assign_component fs i
              (lagrange_interpol_2D_td ext px pe (component_slice i strain) xi eta))) in H
    as (k & Hk & -> & Hlen); [|intros; apply assign_component_silent].
  exists k. unfold xrange in *. rewrite length_seq in Hk, Hlen.
  repeat split; [done| |done]. rewrite take_seq. f_equal. f_equal. lia.
Qed.

Lemma for_length {A} (xs : list A) (body : A -> list voigt -> M (list voigt)) s t s' :
  (forall x fs tr fs', body x fs = (tr, Ok fs') -> length fs' = length fs) ->
  for_ xs body s = (t, Ok s') -> length s' = length s.
Proof.
  intros Hbody. revert s t. induction xs as [|x xs IH]; intros s t.
  - by intros [= _ <-].
  - cbn [for_]. intros H.
    apply bind_Ok_inv in H as (t1 & s1 & t2 & H1 & H2 & _).
    rewrite (IH _ _ H2). eauto.
Qed.

(** The interpolated strain has one row per time sample of the strain. *)
Lemma interpolate_strain_length ext px pe strain xi eta ti fs :
  interpolate_strain ext px pe strain xi eta = (ti, Ok fs) ->
  length fs = length strain.
Proof.
  unfold interpolate_strain. intros H. apply for_length in H.
  - rewrite H. apply length_replicate.
  - intros i fs0 tr fs' Hi. apply bind_Ok_inv in Hi as (t1 & [] & t2 & _ & Ha & _).
    by apply assign_component_Ok in Ha.
Qed.

Lemma vget_vset_eq i a v : i < 6 -> vget i (vset i a v) = a.
Proof. intros Hi. do 6 (destruct i as [|i]; [done|]). lia. Qed.

Lemma vget_vset_ne i j a v : i < 6 -> j < 6 -> i <> j -> vget i (vset j a v) = vget i v.
Proof.
  intros Hi Hj Hne.
  do 6 (destruct i as [|i]; [do 6 (destruct j as [|j]; [done|]); lia|]). lia.
Qed.

Lemma fmap_vget_assign i j col fs :
  length col = length fs -> i < 6 -> j < 6 ->
  vget i <$> zip_with (vset j) col fs = if decide (i = j) then col else vget i <$> fs.
Proof.
  intros Hlen Hi Hj. revert fs Hlen.
  induction col as [|a col IH]; intros [|v fs] Hlen; try discriminate Hlen.
  { by case_decide. }
  cbn [zip_with fmap list_fmap]. injection Hlen as Hlen. specialize (IH fs Hlen).
  case_decide as Hij.
  - subst j. by rewrite vget_vset_eq, IH.
  - by rewrite vget_vset_ne, IH.
Qed.

(** A loop that ends normally keeps an invariant that its body keeps, from
    the elements done so far to the next. *)
Lemma for_invariant {A St} (I : list A -> St -> Prop) xs (body : A -> St -> M St) s t s' :
  I [] s ->
  (forall pre x post s0 tr s1,
      xs = pre ++ x :: post -> I pre s0 -> body x s0 = (tr, Ok s1) -> I (pre ++ [x]) s1) ->
  for_ xs body s = (t, Ok s') -> I xs s'.
Proof.
  intros Hs Hbody.
  cut (forall over rest s0 t0,
          xs = over ++ rest -> I over s0 -> for_ rest body s0 = (t0, Ok s') -> I xs s').
  { intros H. by apply (H [] xs s t). }
  intros over rest. revert over. induction rest as [|x rest IH]; intros over s0 t0 Hxs Hover.
  - intros [= _ <-]. rewrite app_nil_r in Hxs. by subst.
  - cbn [for_]. intros H. apply bind_Ok_inv in H as (t1 & s1 & t2 & H1 & H2 & _).
    apply (IH (over ++ [x]) s1 t2); [by rewrite <- app_assoc| |done]. eauto.
Qed.

(** When the interpolation succeeds, each component of the interpolated
    strain is what the interpolation function returned for this component
    of the strain field, broadcast over the time samples. *)
Lemma interpolate_strain_columns ext px pe strain xi eta ti fs :
  interpolate_strain ext px pe strain xi eta = (ti, Ok fs) ->
  forall i, i < 6 ->
    broadcast_to (length strain)
      (lagrange_interpol_2D_td ext px pe (component_slice i strain) xi eta)
    = ([], Ok (vget i <$> fs)).
Proof.
  intros H. unfold interpolate_strain in H.
  apply (for_invariant (fun done fs =>
           length fs = length strain /\
           forall i, i ∈ done -> i < 6 ->
             broadcast_to (length strain)
               (lagrange_interpol_2D_td ext px pe (component_slice i strain) xi eta)
             = ([], Ok (vget i <$> fs)))) in H.
  - intros i Hi. apply H; [|done]. apply elem_of_seq. cbn. lia.
  - split; [apply length_replicate|]. intros i Hin. by apply elem_of_nil in Hin.
  - intros pre j post fs0 tr fs1 Hxs [Hlen0 Hdone] Hstep.
    assert (j < 6) as Hj.
    { assert (j ∈ xrange 6) as Hin
        by (rewrite Hxs; apply elem_of_app; right; apply elem_of_cons; by left).
      apply elem_of_seq in Hin. cbn in Hin. lia. }
    rewrite bind_emit in Hstep. unfold assign_component in Hstep.
    pose proof (broadcast_to_silent (length fs0)
                  (lagrange_interpol_2D_td ext px pe (component_slice j strain) xi eta))
      as Hsilent.
    destruct (broadcast_to (length fs0) _) as [tb [col|e]] eqn:Hb; [|done].
    cbn in Hsilent. subst tb. pose proof (broadcast_to_Ok _ _ _ _ Hb) as Hcol.
    cbn in Hstep. injection Hstep as _ <-.
    split; [rewrite length_zip_with; lia|].
    intros i Hin Hi. rewrite fmap_vget_assign by done.
    case_decide as Hij.
    + subst i. by rewrite <- Hlen0.
    + apply Hdone; [|done]. apply elem_of_app in Hin as [Hin|Hin]; [done|].
      by apply list_elem_of_singleton in Hin.
Qed.

(** ** The runs of component "N" *)

Section component_N_runs.
Context (ext : Modules) (load : Mesh -> list (list nat) -> M arr4).
Context (mesh : Mesh) (source : Source.t) (receiver : Receiver.t) (phi : float).
Context (corner_points : corner_points_t) (eltype : Z) (xi eta : float).
Context (gll_point_ids : list (list nat)) (axis : bool).

Local Abbreviation run_of :=
  (component_N ext load mesh source receiver phi corner_points eltype xi eta
     gll_point_ids axis).
Local Abbreviation runs :=
  (component_N_run ext load mesh source receiver phi corner_points eltype xi eta
     gll_point_ids axis).

(** The choice of lines 83-92 is [basis_G], [basis_GT], [basis_xi] and
    [basis_eta]. *)
Lemma component_N_basis :
  (if axis
   then (G2 mesh, G1T mesh, glj_points mesh, gll_points mesh)
   else (G2 mesh, G2T mesh, gll_points mesh, gll_points mesh))
  = (basis_G mesh axis, basis_GT mesh axis, basis_xi mesh axis, basis_eta mesh axis).
Proof. by destruct axis. Qed.

Lemma component_N_runs tr r : run_of = (tr, r) -> runs tr r.
Proof.
  unfold component_N. case_decide as Hd.
  { intros [= <- <-]. by constructor. }
  assert (strip (dump_type mesh) = "displ_only") as Hd'.
  { by destruct (decide (strip (dump_type mesh) = "displ_only")). }
  rewrite component_N_basis.
  destruct (load mesh gll_point_ids) as [tl [utemp|e]] eqn:Hl; cbn [bind].
  2:{ intros [= <- <-]. by eapply run_load_failed. }
  destruct (strain_fct_map ext !! excitation_type mesh) as [f|] eqn:Hm; cbn [bind ret raise].
  2:{ intros [= <- <-]. rewrite app_nil_r. by eapply run_unknown_excitation. }
  rewrite bind_emit.
  destruct (interpolate_strain ext (basis_xi mesh axis) (basis_eta mesh axis)
              (f utemp (basis_G mesh axis) (basis_GT mesh axis) (basis_xi mesh axis)
                 (basis_eta mesh axis) (npol mesh) (ndumps mesh) corner_points eltype axis)
              xi eta) as [ti [fs|e]] eqn:Hi; cbn [bind fst snd app].
  2:{ intros [= <- <-]. by eapply run_interpolation_failed. }
  rewrite contract_voigt_contraction. cbn.
  intros [= <- <-].
  by apply (run_seismogram ext load mesh source receiver phi corner_points eltype
              xi eta gll_point_ids axis tl utemp f ti fs).
Qed.

Lemma runs_component_N tr r : runs tr r -> run_of = (tr, r).
Proof.
  intros H. unfold component_N.
  destruct H as [Hd|tl e Hd Hl|tl utemp Hd Hl Hm|tl utemp f ti e Hd Hl Hm Hi
                |tl utemp f ti fs Hd Hl Hm Hi].
  - by rewrite decide_True.
  - rewrite decide_False by (by intros ?). rewrite component_N_basis, Hl. done.
  - rewrite decide_False by (by intros ?).
    rewrite component_N_basis, (bind_Ok _ _ _ _ Hl). cbn beta. rewrite Hm.
    cbn. by rewrite app_nil_r.
  - rewrite decide_False by (by intros ?).
    rewrite component_N_basis, (bind_Ok _ _ _ _ Hl). cbn beta. rewrite Hm.
    rewrite bind_ret_l, bind_emit. unfold strain_of in Hi. rewrite Hi. done.
  - rewrite decide_False by (by intros ?).
    rewrite component_N_basis, (bind_Ok _ _ _ _ Hl). cbn beta. rewrite Hm.
    rewrite bind_ret_l, bind_emit. unfold strain_of in Hi. rewrite Hi.
    cbn [bind]. rewrite contract_voigt_contraction. done.
Qed.
End component_N_runs.

(** ** The loader of the displacement buffer *)

(** The first assignment to [start_chunk] has no effect on the loader. *)
Lemma load_displacement_node_id_eq mesh gll_point_ids :
  load_displacement mesh gll_point_ids = load_displacement_node_id mesh gll_point_ids.
Proof.
  unfold load_displacement, load_displacement_node_id.
  apply for_ext; intros ipol u. apply for_ext; intros jpol u'.
  destruct (gll_point_ids !! ipol) as [row|] eqn:Hr.
  - rewrite (index_Some _ _ _ Hr), !bind_ret_l.
    destruct (row !! jpol) as [node|] eqn:Hi.
    + by rewrite (index_Some _ _ _ Hi), !bind_ret_l.
    + by rewrite (index_None _ _ Hi).
  - by rewrite (index_None _ _ Hr).
Qed.

Lemma get_seismogram_with_ext ext load1 load2 self source receiver component :
  (forall mesh gll_point_ids, load1 mesh gll_point_ids = load2 mesh gll_point_ids) ->
  get_seismogram_with ext load1 self source receiver component
  = get_seismogram_with ext load2 self source receiver component.
Proof.
  intros Hload. unfold get_seismogram_with.
  destruct (rotate_frame_rd ext _ _ _ _ _) as [[s phi] z].
  apply bind_ext; intros _. apply bind_ext; intros [[[[id_elem cp] et] xi] eta].
  apply bind_ext; intros gll. apply bind_ext; intros flag.
  case_decide; [|done]. unfold component_N. case_decide; [done|].
  destruct (negb (flag =? 0)%Z); by rewrite Hload.
Qed.

(** A loop whose iterations all succeed, with their traces and an invariant. *)
Lemma for_total {A St} (I : St -> Prop) (tr_of : A -> list event) xs
    (body : A -> St -> M St) s :
  I s ->
  (forall x s0, x ∈ xs -> I s0 -> exists s1, body x s0 = (tr_of x, Ok s1) /\ I s1) ->
  exists s', for_ xs body s = (xs ≫= tr_of, Ok s') /\ I s'.
Proof.
  revert s. induction xs as [|x xs IH]; intros s Hs Hbody.
  - by exists s.
  - destruct (Hbody x s) as (s1 & Hx & Hs1); [apply elem_of_cons; by left|done|].
    destruct (IH s1) as (s' & Hrest & Hs'); [done| |].
    { intros y s0 Hy. apply Hbody, elem_of_cons. by right. }
    exists s'. split; [|done]. cbn [for_]. rewrite (bind_Ok _ _ _ _ Hx), Hrest. done.
Qed.

Lemma read_column_Ok v node :
  forallb (fun row => bool_decide (node < length row)) v = true ->
  exists col, read_column v node = ([], Ok col) /\ length col = length v.
Proof.
  unfold read_column. induction v as [|row v IH]; intros H.
  - by exists [].
  - cbn [forallb] in H. apply andb_true_iff in H as [Hrow Hv].
    apply bool_decide_eq_true in Hrow. apply lookup_lt_is_Some_2 in Hrow as [a Ha].
    destruct (IH Hv) as (col & Hcol & Hlen).
    exists (a :: col). cbn [traverse]. rewrite (index_Some _ _ _ Ha), bind_ret_l, Hcol.
    split; [done|]. simpl. by rewrite Hlen.
Qed.

Lemma assign_utemp_Ok utemp j i c col :
  length col = length utemp ->
  assign_utemp utemp j i c col
  = ([], Ok (zip_with (fun a slab => alter (alter (<[c := a]>) i) j slab) col utemp)).
Proof. intros H. unfold assign_utemp, broadcast_to. by rewrite decide_True. Qed.

Lemma assign_has_shape n1 n2 n3 n4 utemp j i c col :
  has_shape n1 n2 n3 n4 utemp -> length col = n1 ->
  has_shape n1 n2 n3 n4
    (zip_with (fun a slab => alter (alter (<[c := a]>) i) j slab) col utemp).
Proof.
  intros [Hlen Hall] Hcol. split.
  - rewrite length_zip_with. lia.
  - eapply Forall_zip_with_snd; [|exact Hall].
    apply Forall_forall. intros a _ slab [Hslab Hrows]. split.
    + by rewrite length_alter.
    + apply Forall_alter; [done|]. intros row _ [Hrow Hcells]. split.
      * by rewrite length_alter.
      * apply Forall_alter; [done|]. intros cell _ Hcell. by rewrite length_insert.
Qed.

Lemma assign_component_zero c c' utemp j i col :
  c <> c' -> component_zero c utemp ->
  component_zero c
    (zip_with (fun a slab => alter (alter (<[c' := a]>) i) j slab) col utemp).
Proof.
  intros Hc Hall. unfold component_zero.
  eapply Forall_zip_with_snd; [|exact Hall].
  apply Forall_forall. intros a _ slab Hslab.
  apply Forall_alter; [done|]. intros row _ Hrow.
  apply Forall_alter; [done|]. intros cell _ Hcell.
  by rewrite list_lookup_insert_ne.
Qed.

Lemma np_zeros4_has_shape n1 n2 n3 n4 : has_shape n1 n2 n3 n4 (np_zeros4 n1 n2 n3 n4).
Proof.
  unfold np_zeros4. split; [apply length_replicate|].
  apply Forall_replicate. split; [apply length_replicate|].
  apply Forall_replicate. split; [apply length_replicate|].
  apply Forall_replicate, length_replicate.
Qed.

Lemma np_zeros4_component_zero n1 n2 n3 n4 c :
  c < n4 -> component_zero c (np_zeros4 n1 n2 n3 n4).
Proof.
  intros Hc. unfold np_zeros4, component_zero.
  do 3 apply Forall_replicate. by apply lookup_replicate_2.
Qed.

(** ** Cells of the buffer *)

Lemma lookup4_component_zero n1 n2 n3 n4 c utemp t j i :
  has_shape n1 n2 n3 n4 utemp -> component_zero c utemp ->
  t < n1 -> j < n2 -> i < n3 ->
  lookup4 utemp t j i c = Some 0%float.
Proof.
  intros [Hlen Hshape] Hzero Ht Hj Hi. unfold lookup4.
  destruct (lookup_lt_is_Some_2 utemp t) as [slab Hslab]; [lia|].
  rewrite Hslab. cbn.
  pose proof (proj1 (Forall_lookup _ _) Hshape _ _ Hslab) as [Hlen2 Hshape2].
  pose proof (proj1 (Forall_lookup _ _) Hzero _ _ Hslab) as Hzero2.
  destruct (lookup_lt_is_Some_2 slab j) as [row Hrow]; [lia|].
  rewrite Hrow. cbn.
  pose proof (proj1 (Forall_lookup _ _) Hshape2 _ _ Hrow) as [Hlen3 _].
  pose proof (proj1 (Forall_lookup _ _) Hzero2 _ _ Hrow) as Hzero3.
  destruct (lookup_lt_is_Some_2 row i) as [cell Hcell]; [lia|].
  rewrite Hcell. cbn.
  exact (proj1 (Forall_lookup _ _) Hzero3 _ _ Hcell).
Qed.

(** An assignment [utemp[:, j, i, c] = col] leaves the other cells. *)
Lemma lookup4_assign_ne utemp col j i c t j' i' c' :
  length col = length utemp ->
  (j', i', c') <> (j, i, c) ->
  lookup4 (zip_with (fun a slab => alter (alter (<[c := a]>) i) j slab) col utemp) t j' i' c'
  = lookup4 utemp t j' i' c'.
Proof.
  intros Hlen Hne. unfold lookup4. rewrite lookup_zip_with.
  destruct (utemp !! t) as [slab|] eqn:Hslab.
  2:{ by destruct (col !! t). }
  destruct (lookup_lt_is_Some_2 col t) as [a Ha].
  { rewrite Hlen. by eapply lookup_lt_Some. }
  rewrite Ha. cbn.
  destruct (decide (j = j')) as [<-|Hj]; [|by rewrite list_lookup_alter_ne].
  rewrite list_lookup_alter_eq. destruct (slab !! j) as [row|]; [|done]. cbn.
  destruct (decide (i = i')) as [<-|Hi]; [|by rewrite list_lookup_alter_ne].
  rewrite list_lookup_alter_eq. destruct (row !! i) as [cell|]; [|done]. cbn.
  apply list_lookup_insert_ne. congruence.
Qed.

(** The cell that is assigned holds the entry of the column. *)
Lemma lookup4_assign_eq n1 n2 n3 n4 utemp col j i c t :
  has_shape n1 n2 n3 n4 utemp -> length col = length utemp ->
  t < n1 -> j < n2 -> i < n3 -> c < n4 ->
  lookup4 (zip_with (fun a slab => alter (alter (<[c := a]>) i) j slab) col utemp) t j i c
  = col !! t.
Proof.
  intros [Hlen Hshape] Hcol Ht Hj Hi Hc. unfold lookup4. rewrite lookup_zip_with.
  destruct (lookup_lt_is_Some_2 utemp t) as [slab Hslab]; [lia|].
  destruct (lookup_lt_is_Some_2 col t) as [a Ha]; [lia|].
  rewrite Ha, Hslab. cbn.
  pose proof (proj1 (Forall_lookup _ _) Hshape _ _ Hslab) as [Hlen2 Hshape2].
  destruct (lookup_lt_is_Some_2 slab j) as [row Hrow]; [lia|].
  rewrite list_lookup_alter_eq, Hrow. cbn.
  pose proof (proj1 (Forall_lookup _ _) Hshape2 _ _ Hrow) as [Hlen3 Hshape3].
  destruct (lookup_lt_is_Some_2 row i) as [cell Hcell]; [lia|].
  rewrite list_lookup_alter_eq, Hcell. cbn.
  pose proof (proj1 (Forall_lookup _ _) Hshape3 _ _ Hcell) as Hlen4. cbn beta in Hlen4.
  apply list_lookup_insert_eq. lia.
Qed.

(** The column that is read holds the values of the variable at the node. *)
Lemma read_column_lookup v node tr col :
  read_column v node = (tr, Ok col) -> forall t, col !! t = field_value v t node.
Proof.
  unfold read_column, field_value. revert tr col.
  induction v as [|row v IH]; intros tr col.
  - intros [= _ <-] t. done.
  - cbn [traverse]. intros H.
    apply bind_Ok_inv in H as (t1 & a & t2 & Ha & H & _).
    apply bind_Ok_inv in H as (t3 & col' & t4 & Hcol & [= _ <-] & _).
    unfold index in Ha. destruct (row !! node) as [a'|] eqn:Hrow; [|done].
    injection Ha as _ <-.
    intros [|t]; cbn; [done|]. by eapply IH.
Qed.

(** A loop whose iterations all succeed, with an invariant that depends on
    the iterations that are over. *)
Lemma for_total_prefix {A St} (I : list A -> St -> Prop) (tr_of : A -> list event) xs
    (body : A -> St -> M St) s :
  I [] s ->
  (forall pre x post s0,
      xs = pre ++ x :: post -> I pre s0 ->
      exists s1, body x s0 = (tr_of x, Ok s1) /\ I (pre ++ [x]) s1) ->
  exists s', for_ xs body s = (xs ≫= tr_of, Ok s') /\ I xs s'.
Proof.
  intros Hs Hbody.
  cut (forall over rest s0,
          xs = over ++ rest -> I over s0 ->
          exists s', for_ rest body s0 = (rest ≫= tr_of, Ok s') /\ I xs s').
  { intros H. by apply (H [] xs s). }
  intros over rest. revert over. induction rest as [|x rest IH]; intros over s0 Hxs Hover.
  - exists s0. rewrite app_nil_r in Hxs. by subst.
  - destruct (Hbody over x rest s0 Hxs Hover) as (s1 & Hx & Hs1).
    destruct (IH (over ++ [x]) s1) as (s' & Hrest & Hs'); [by rewrite <- app_assoc|done|].
    exists s'. split; [|done]. cbn [for_]. rewrite (bind_Ok _ _ _ _ Hx), Hrest. done.
Qed.

Section loader.
Context (mesh : Mesh) (gll_point_ids : list (list nat)).

Lemma loader_invariant_zeros :
  loader_invariant mesh (np_zeros4 (ndumps mesh) (npol mesh + 1) (npol mesh + 1) 3).
Proof.
  split; [apply np_zeros4_has_shape|]. intros c var Hc _.
  apply np_zeros4_component_zero. by apply lookup_lt_Some in Hc.
Qed.

Lemma loaded_impl (done done' : nat -> nat -> nat -> Prop) utemp :
  (forall ipol jpol c,
      ipol < npol mesh + 1 -> jpol < npol mesh + 1 -> c < 3 ->
      done' ipol jpol c -> done ipol jpol c) ->
  loaded done mesh gll_point_ids utemp -> loaded done' mesh gll_point_ids utemp.
Proof. intros Himpl [Hinv Hcells]. split; [done|]. eauto. Qed.

(** One variable at one node: skipped when it is not stored, else read
    and assigned. *)
Lemma load_variable done c var node jpol ipol utemp :
  ["disp_s"; "disp_p"; "disp_z"] !! c = Some var ->
  gll_point_ids !! ipol ≫= (.!! jpol) = Some node ->
  ipol < npol mesh + 1 -> jpol < npol mesh + 1 ->
  node_ok mesh node = true ->
  loaded done mesh gll_point_ids utemp ->
  exists utemp',
    match Snapshots mesh !! var with
    | None => ret utemp
    | Some v =>
        let* _ := emit (Read_snapshot var node) in
        let* col := read_column v node in
        assign_utemp utemp jpol ipol c col
    end
    = (if Snapshots mesh !! var is Some _ then [Read_snapshot var node] else [],
       Ok utemp')
    /\ loaded (fun i j c' => done i j c' \/ (i = ipol /\ j = jpol /\ c' = c))
         mesh gll_point_ids utemp'.
Proof.
  intros Hc Hgll Hipol Hjpol Hnode [[Hshape Hzero] Hcells].
  assert (forall t, displacement_value mesh gll_point_ids t ipol jpol c
                    = if Snapshots mesh !! var is Some v then field_value v t node
                      else Some 0%float) as Hvalue.
  { intros t. unfold displacement_value. rewrite Hc, Hgll. done. }
  destruct (Snapshots mesh !! var) as [v|] eqn:Hv.
  2:{ exists utemp. split; [done|]. split; [done|].
      intros t i j c' Ht Hi Hj Hc' [Hdone|(-> & -> & ->)]; [by apply Hcells|].
      rewrite Hvalue.
      eapply lookup4_component_zero; [exact Hshape|by eapply Hzero|done..]. }
  assert (column_ok (ndumps mesh) v node = true) as Hcol.
  { unfold node_ok in Hnode. rewrite forallb_forall in Hnode.
    specialize (Hnode var). unfold snapshot_var in *. rewrite Hv in Hnode. apply Hnode.
    apply list_elem_of_In, list_elem_of_lookup. by exists c. }
  apply andb_true_iff in Hcol as [Hlen Hrows]. apply bool_decide_eq_true in Hlen.
  destruct (read_column_Ok _ _ Hrows) as (col & Hread & Hlen').
  assert (length col = length utemp) as Hsame.
  { destruct Hshape as [-> _]. congruence. }
  eexists. split.
  { rewrite bind_emit, (bind_Ok _ _ _ _ Hread), (assign_utemp_Ok _ _ _ _ _ Hsame). done. }
  split.
  - split.
    + apply assign_has_shape; [done|congruence].
    + intros c0 var' Hc0 Hnone. apply assign_component_zero; [|by eapply Hzero].
      intros ->. unfold snapshot_var in *. congruence.
  - intros t i j c' Ht Hi Hj Hc' Hdone.
    destruct (decide ((j, i, c') = (jpol, ipol, c))) as [[= -> -> ->]|Hne].
    + rewrite (lookup4_assign_eq _ _ _ _ _ _ _ _ _ _ Hshape Hsame Ht Hj Hi Hc').
      rewrite Hvalue. by eapply read_column_lookup.
    + rewrite lookup4_assign_ne by done.
      destruct Hdone as [Hdone|(-> & -> & ->)]; [by apply Hcells|done].
Qed.

Lemma load_node done node jpol ipol utemp :
  gll_point_ids !! ipol ≫= (.!! jpol) = Some node ->
  ipol < npol mesh + 1 -> jpol < npol mesh + 1 ->
  node_ok mesh node = true ->
  loaded done mesh gll_point_ids utemp ->
  exists utemp',
    for_ (enumerate ["disp_s"; "disp_p"; "disp_z"]) (fun '(i, var) utemp =>
      match Snapshots mesh !! var with
      | None => ret utemp
      | Some v =>
          let* _ := emit (Read_snapshot var node) in
          let* col := read_column v node in
          assign_utemp utemp jpol ipol i col
      end) utemp
    = (reads_of_node mesh node, Ok utemp')
    /\ loaded (fun i j c => done i j c \/ (i = ipol /\ j = jpol)) mesh gll_point_ids utemp'.
Proof.
  intros Hgll Hipol Hjpol Hnode Hinv.
  change (reads_of_node mesh node)
    with (enumerate ["disp_s"; "disp_p"; "disp_z"] ≫=
            (fun '(i, var) =>
               if Snapshots mesh !! var is Some _ then [Read_snapshot var node] else [])).
  destruct (for_total_prefix
              (fun pre utemp =>
                 loaded (fun i j c =>
                           done i j c \/ (i = ipol /\ j = jpol /\ exists var, (c, var) ∈ pre))
                   mesh gll_point_ids utemp)
              (fun '(i, var) =>
                 if Snapshots mesh !! var is Some _ then [Read_snapshot var node] else [])
              (enumerate ["disp_s"; "disp_p"; "disp_z"])
              (fun '(i, var) utemp =>
                 match Snapshots mesh !! var with
                 | None => ret utemp
                 | Some v =>
                     let* _ := emit (Read_snapshot var node) in
                     let* col := read_column v node in
                     assign_utemp utemp jpol ipol i col
                 end) utemp) as (utemp' & Hrun & Hloaded).
  - eapply loaded_impl; [|exact Hinv].
    intros i j c _ _ _ [?|(_ & _ & var & Hin)]; [done|]. by apply elem_of_nil in Hin.
  - intros pre [c var] post u Hxs Hu.
    assert (["disp_s"; "disp_p"; "disp_z"] !! c = Some var) as Hc.
    { assert ((c, var) ∈ enumerate ["disp_s"; "disp_p"; "disp_z"]) as Hin.
      { rewrite Hxs. apply elem_of_app. right. apply elem_of_cons. by left. }
      apply list_elem_of_In in Hin. cbn in Hin.
      destruct Hin as [[= <- <-]|[[= <- <-]|[[= <- <-]|[]]]]; done. }
    destruct (load_variable _ c var node jpol ipol u Hc Hgll Hipol Hjpol Hnode Hu)
      as (u' & Hstep & Hu').
    exists u'. split; [done|]. eapply loaded_impl; [|exact Hu'].
    intros i j c' _ _ _ [?|(-> & -> & var' & Hin)]; [by left; left|].
    apply elem_of_app in Hin as [Hin|Hin].
    + left. right. eauto.
    + apply list_elem_of_singleton in Hin as [= -> ->]. by right.
  - exists utemp'. split; [done|]. eapply loaded_impl; [|exact Hloaded].
    intros i j c _ _ Hc [?|[-> ->]]; [by left|]. right. repeat split.
    destruct c as [|[|[|c]]]; [..|lia].
    + exists "disp_s". apply list_elem_of_In. cbn. tauto.
    + exists "disp_p". apply list_elem_of_In. cbn. tauto.
    + exists "disp_z". apply list_elem_of_In. cbn. tauto.
Qed.

(** The loader succeeds on a grid whose stored variables have the columns
    of its nodes: it reads the stored variables at the node ids of the
    grid; the buffer holds, for every time sample, grid position and
    component, the value of the variable at the node, and zero for a
    variable that is not stored. *)
Lemma load_displacement_total :
  grid_ok mesh gll_point_ids = true ->
  exists utemp,
    load_displacement mesh gll_point_ids = (snapshot_reads mesh gll_point_ids, Ok utemp)
    /\ loader_invariant mesh utemp
    /\ forall t ipol jpol c,
        t < ndumps mesh -> ipol < npol mesh + 1 -> jpol < npol mesh + 1 -> c < 3 ->
        lookup4 utemp t jpol ipol c = displacement_value mesh gll_point_ids t ipol jpol c.
Proof.
  intros Hgrid. unfold load_displacement, snapshot_reads.
  unfold grid_ok in Hgrid. rewrite forallb_forall in Hgrid.
  destruct (for_total_prefix
              (fun pre utemp => loaded (fun i j c => i ∈ pre) mesh gll_point_ids utemp)
              (fun ipol =>
                 xrange (npol mesh + 1) ≫= fun jpol =>
                   if gll_point_ids !! ipol ≫= (.!! jpol) is Some node
                   then reads_of_node mesh node else [])
              (xrange (npol mesh + 1))
              (fun ipol utemp =>
                 for_ (xrange (npol mesh + 1)) (fun jpol utemp =>
                   let* row := index gll_point_ids ipol in
                   let* id := index row jpol in
                   let start_chunk := id / (chunks mesh).2 * (chunks mesh).2 in
                   let* row := index gll_point_ids ipol in
                   let* id := index row jpol in
                   let start_chunk := id in
                   for_ (enumerate ["disp_s"; "disp_p"; "disp_z"]) (fun '(i, var) utemp =>
                     match Snapshots mesh !! var with
                     | None => ret utemp
                     | Some v =>
                         let* _ := emit (Read_snapshot var start_chunk) in
                         let* col := read_column v start_chunk in
                         assign_utemp utemp jpol ipol i col
                     end) utemp) utemp)
              (np_zeros4 (ndumps mesh) (npol mesh + 1) (npol mesh + 1) 3))
    as (utemp & Hrun & [Hinv Hcells]).
  - split; [apply loader_invariant_zeros|]. intros ???????? Hin. by apply elem_of_nil in Hin.
  - intros pre_i ipol post_i u Hxs Hu.
    assert (ipol ∈ xrange (npol mesh + 1)) as Hipol.
    { rewrite Hxs. apply elem_of_app. right. apply elem_of_cons. by left. }
    pose proof Hipol as Hrow. apply list_elem_of_In, Hgrid in Hrow.
    rewrite forallb_forall in Hrow.
    apply elem_of_seq in Hipol as [_ Hipol]. cbn in Hipol.
    destruct (for_total_prefix
                (fun pre utemp =>
                   loaded (fun i j c => i ∈ pre_i \/ (i = ipol /\ j ∈ pre))
                     mesh gll_point_ids utemp)
                (fun jpol =>
                   if gll_point_ids !! ipol ≫= (.!! jpol) is Some node
                   then reads_of_node mesh node else [])
                (xrange (npol mesh + 1))
                (fun jpol utemp =>
                   let* row := index gll_point_ids ipol in
                   let* id := index row jpol in
                   let start_chunk := id / (chunks mesh).2 * (chunks mesh).2 in
                   let* row := index gll_point_ids ipol in
                   let* id := index row jpol in
                   let start_chunk := id in
                   for_ (enumerate ["disp_s"; "disp_p"; "disp_z"]) (fun '(i, var) utemp =>
                     match Snapshots mesh !! var with
                     | None => ret utemp
                     | Some v =>
                         let* _ := emit (Read_snapshot var start_chunk) in
                         let* col := read_column v start_chunk in
                         assign_utemp utemp jpol ipol i col
                     end) utemp) u) as (u' & Hrun' & Hu').
    + eapply loaded_impl; [|exact Hu].
      intros i j c _ _ _ [?|[_ Hin]]; [done|]. by apply elem_of_nil in Hin.
    + intros pre_j jpol post_j u0 Hxs' Hu0.
      assert (jpol ∈ xrange (npol mesh + 1)) as Hjpol.
      { rewrite Hxs'. apply elem_of_app. right. apply elem_of_cons. by left. }
      pose proof Hjpol as Hnode. apply list_elem_of_In, Hrow in Hnode.
      apply elem_of_seq in Hjpol as [_ Hjpol]. cbn in Hjpol.
      destruct (gll_point_ids !! ipol ≫= (.!! jpol)) as [node|] eqn:Hgll; [|done].
      destruct (gll_point_ids !! ipol) as [row|] eqn:Hr; [|done]. cbn in Hgll.
      rewrite (index_Some _ _ _ Hr), !bind_ret_l, (index_Some _ _ _ Hgll), !bind_ret_l.
      destruct (load_node (fun i j c => i ∈ pre_i \/ (i = ipol /\ j ∈ pre_j))
                  node jpol ipol u0) as (u1 & Hstep & Hu1); try done.
      { by rewrite Hr. }
      exists u1. split; [done|]. eapply loaded_impl; [|exact Hu1].
      intros i j c _ _ _ [?|[-> Hin]]; [by left; left|].
      apply elem_of_app in Hin as [Hin|Hin]; [left; right; done|].
      apply list_elem_of_singleton in Hin as ->. by right.
    + exists u'. split; [done|]. eapply loaded_impl; [|exact Hu'].
      intros i j c _ Hj _ Hin. apply elem_of_app in Hin as [Hin|Hin]; [by left|].
      apply list_elem_of_singleton in Hin as ->. right. split; [done|].
      apply elem_of_seq. cbn. lia.
  - exists utemp. split; [done|]. split; [done|].
    intros t ipol jpol c Ht Hi Hj Hc. apply Hcells; try done.
    apply elem_of_seq. cbn. lia.
Qed.

(** A variable that is not stored is not read. *)
Lemma snapshot_reads_stored var node :
  Read_snapshot var node ∈ snapshot_reads mesh gll_point_ids ->
  is_Some (Snapshots mesh !! var) /\
  exists ipol jpol row,
    gll_point_ids !! ipol = Some row /\ row !! jpol = Some node.
Proof.
  unfold snapshot_reads. intros H.
  apply list_elem_of_bind in H as (ipol & H & _).
  apply list_elem_of_bind in H as (jpol & H & _).
  destruct (gll_point_ids !! ipol) as [row|] eqn:Hrow; [|by apply elem_of_nil in H].
  cbn in H. destruct (row !! jpol) as [node'|] eqn:Hnode; [|by apply elem_of_nil in H].
  rewrite !elem_of_app in H.
  destruct H as [H|[H|[H|H]]]; [..|by apply elem_of_nil in H];
    (match type of H with
     | context [Snapshots mesh !! ?v] => destruct (Snapshots mesh !! v) eqn:Hv
     end; [|by apply elem_of_nil in H]);
    apply list_elem_of_singleton in H as [= -> ->];
    (split; [by rewrite Hv|by exists ipol, jpol, row]).
Qed.

(** The loader calls nothing but the field store, at node ids of the grid,
    whatever its outcome. *)
Lemma load_displacement_emits :
  emits (fun ev => exists var node ipol jpol row,
           ev = Read_snapshot var node /\ is_Some (Snapshots mesh !! var) /\
           gll_point_ids !! ipol = Some row /\ row !! jpol = Some node)
    (load_displacement mesh gll_point_ids).
Proof.
  unfold load_displacement.
  apply emits_for; intros ipol u. apply emits_for; intros jpol u'.
  destruct (gll_point_ids !! ipol) as [row|] eqn:Hrow.
  2:{ rewrite (index_None _ _ Hrow). apply emits_raise. }
  rewrite (index_Some _ _ _ Hrow), !bind_ret_l.
  destruct (row !! jpol) as [node|] eqn:Hnode.
  2:{ rewrite (index_None _ _ Hnode). apply emits_raise. }
  rewrite (index_Some _ _ _ Hnode), !bind_ret_l.
  apply emits_for. intros [i var] u''.
  destruct (Snapshots mesh !! var) as [v|] eqn:Hv; [|apply emits_ret].
  apply emits_bind.
  { apply emits_emit. exists var, node, ipol, jpol, row. by rewrite Hv. }
  intros _. apply emits_bind; [apply emits_read_column|].
  intros col. apply emits_assign_utemp.
Qed.
End loader.

(** ** The shape of the trace of a query *)

Lemma Forall_interpolation_calls (P : event -> Prop) mesh axis k :
  (forall i, P (Call_lagrange_interpol (basis_xi mesh axis) (basis_eta mesh axis) i)) ->
  Forall P (interpolation_calls mesh axis k).
Proof.
  intros H. unfold interpolation_calls. apply Forall_fmap, Forall_forall.
  intros i _. apply H.
Qed.

Section component_N_trace.
Context (ext : Modules).
Context (mesh : Mesh) (source : Source.t) (receiver : Receiver.t) (phi : float).
Context (corner_points : corner_points_t) (eltype : Z) (xi eta : float).
Context (gll_point_ids : list (list nat)) (axis : bool).

(** Where a run of component "N" can stop: before the strain derivation,
    in the interpolation, or at the end. *)
Lemma component_N_trace tr r :
  component_N ext load_displacement mesh source receiver phi corner_points eltype
    xi eta gll_point_ids axis = (tr, r) ->
  exists tl rest,
    tr = tl ++ rest /\ Forall (fun ev => is_read ev = true) tl /\
    ((rest = [] /\ exists e, r = Raise e) \/
     (exists k, k <= 6 /\
        rest = strain_call mesh axis :: interpolation_calls mesh axis k /\
        exists e, r = Raise e) \/
     (rest = strain_call mesh axis :: interpolation_calls mesh axis 6
               ++ rotation_calls ext source receiver phi
               ++ [Call_azim_factor phi 2 1; Call_azim_factor phi 2 2] /\
      exists final, r = Ok (Some final))).
Proof.
  intros H. apply component_N_runs in H.
  assert (forall tl o, load_displacement mesh gll_point_ids = (tl, o) ->
                       Forall (fun ev => is_read ev = true) tl) as Hreads.
  { intros tl o Hl. pose proof (load_displacement_emits mesh gll_point_ids) as He.
    unfold emits in He. rewrite Hl in He. eapply Forall_impl; [exact He|].
    by intros ev (? & ? & ? & ? & ? & -> & _). }
  destruct H as [Hd|tl e Hd Hl|tl utemp Hd Hl Hm|tl utemp f ti e Hd Hl Hm Hi
                |tl utemp f ti fs Hd Hl Hm Hi].
  - exists [], []. repeat split; [constructor|]. left. eauto.
  - exists tl, []. rewrite app_nil_r. repeat split; [eauto|]. left. eauto.
  - exists tl, []. rewrite app_nil_r. repeat split; [eauto|]. left. eauto.
  - apply interpolate_strain_trace in Hi as (k & Hk & -> & _).
    exists tl, (strain_call mesh axis :: interpolation_calls mesh axis k).
    repeat split; [eauto|]. right. left. exists k. eauto.
  - apply interpolate_strain_trace in Hi as (k & Hk & -> & Hlen).
    rewrite (Hlen fs eq_refl).
    eexists tl, _. repeat split; [eauto|]. right. right. eauto.
Qed.
End component_N_trace.

Section query_trace.
Context (ext : Modules).
Context (self : AxiSEMDB) (source : Source.t) (receiver : Receiver.t).
Context (s phi z : float).
Context (Hq : query_point ext source receiver = (s, phi, z)).

(** A query is the index query, the element search, and then nothing
    else, or a run of component "N" on the element that was found. *)
Lemma get_seismogram_trace component tr r :
  get_seismogram ext self source receiver component = (tr, r) ->
  exists tf rest,
    (find_element ext (files_px_Mesh self) s z (kdtree (meshes_px self) s z 6)).1 = tf /\
    tr = Call_kdtree_query 6 :: tf ++ rest /\
    ((rest = [] /\ (r = Ok None \/ exists e, r = Raise e)) \/
     exists id_elem cp et xi eta gll flag,
       find_element ext (files_px_Mesh self) s z (kdtree (meshes_px self) s z 6)
       = (tf, Ok (id_elem, cp, et, xi, eta)) /\
       var_sem_mesh (files_px_Mesh self) !! id_elem = Some gll /\
       var_axis (files_px_Mesh self) !! id_elem = Some flag /\
       component = "N" /\
       component_N ext load_displacement (meshes_px self) source receiver phi
         cp et xi eta gll (negb (flag =? 0)%Z) = (rest, r)).
Proof.
  unfold get_seismogram.
  destruct (find_element ext (files_px_Mesh self) s z (kdtree (meshes_px self) s z 6))
    as [tf [[[[[id_elem cp] et] xi] eta]|e]] eqn:Hf.
  2:{ rewrite (get_seismogram_search_failed _ _ _ _ _ _ _ _ Hq _ _ _ Hf).
      intros [= <- <-]. exists tf, []. rewrite app_nil_r. eauto 10. }
  destruct (var_sem_mesh (files_px_Mesh self) !! id_elem) as [gll|] eqn:Hg.
  2:{ rewrite (get_seismogram_no_sem_mesh _ _ _ _ _ _ _ _ Hq _ _ _ _ _ _ Hf _ Hg).
      intros [= <- <-]. exists tf, []. rewrite app_nil_r. eauto 10. }
  destruct (var_axis (files_px_Mesh self) !! id_elem) as [flag|] eqn:Ha.
  2:{ rewrite (get_seismogram_no_axis _ _ _ _ _ _ _ _ Hq _ _ _ _ _ _ Hf _ _ Hg Ha).
      intros [= <- <-]. exists tf, []. rewrite app_nil_r. eauto 10. }
  destruct (decide (component = "N")) as [->|Hc].
  - rewrite (get_seismogram_found_N _ _ _ _ _ _ _ _ Hq _ _ _ _ _ _ Hf _ _ Hg Ha).
    cbn zeta. intros [= <- <-]. exists tf. eexists. repeat split. right.
    exists id_elem, cp, et, xi, eta, gll, flag. repeat split; try done.
    by destruct (component_N _ _ _ _ _ _ _ _ _ _ _ _).
  - rewrite (get_seismogram_other_component _ _ _ _ _ _ _ _ Hq _ _ _ _ _ _ Hf _ _ Hg Ha _ Hc).
    intros [= <- <-]. exists tf, []. rewrite app_nil_r. eauto 10.
Qed.
End query_trace.

(** A property of the events of the field store, of the strain derivation,
    of the interpolation, of the rotations and of the azimuth factors holds
    of every event of a run of component "N". *)
Lemma component_N_Forall (P : event -> Prop) ext mesh source receiver phi cp et xi eta
    gll axis tr r :
  (forall ev, is_read ev = true -> P ev) ->
  P (strain_call mesh axis) ->
  (forall i, P (Call_lagrange_interpol (basis_xi mesh axis) (basis_eta mesh axis) i)) ->
  Forall P (rotation_calls ext source receiver phi) ->
  (forall ikind, P (Call_azim_factor phi 2 ikind)) ->
  component_N ext load_displacement mesh source receiver phi cp et xi eta gll axis
  = (tr, r) ->
  Forall P tr.
Proof.
  intros Hread Hstrain Hinterp Hrot Haz H.
  apply component_N_trace in H as (tl & rest & -> & Htl & Hrest).
  apply Forall_app. split; [eapply Forall_impl; [exact Htl|done]|].
  destruct Hrest as [[-> _]|[(k & _ & -> & _)|[-> _]]].
  - constructor.
  - constructor; [done|]. by apply Forall_interpolation_calls.
  - constructor; [done|]. rewrite !Forall_app. split; [by apply Forall_interpolation_calls|].
    split; [done|]. repeat constructor; apply Haz.
Qed.

(** After the element search, a query calls the inverse mapping and the
    spatial index no more. *)
Lemma component_N_after_search ext mesh source receiver phi cp et xi eta gll axis tr r :
  component_N ext load_displacement mesh source receiver phi cp et xi eta gll axis
  = (tr, r) ->
  Forall (fun ev => is_inside_call ev = false) tr.
Proof.
  apply component_N_Forall; try done.
  - by intros [].
  - unfold rotation_calls. by repeat constructor.
Qed.

(** ** The claims about the element search *)

(** C1: for every query, the element search tests the candidates of the
    spatial index in the order in which the index returns them, nearest
    first, and selects the first one that the inverse mapping, called with
    the tolerance 1E-3, reports to contain the rotated point; the query
    calls the inverse mapping on no other element.  If the mapping rejects
    every candidate, [get_seismogram] fails with the ValueError
    "Element not found", for every component, and returns nothing. *)
Theorem element_search_nearest_first ext self source receiver component s phi z :
  query_point ext source receiver = (s, phi, z) ->
  (forall before idx after cp et xi eta,
      kdtree (meshes_px self) s z 6 = before ++ idx :: after ->
      Forall (fun c => rejects ext (files_px_Mesh self) s z c = true) before ->
      element_geometry (files_px_Mesh self) idx = Some (cp, et) ->
      inside_element ext s z cp et tolerance = (true, xi, eta) ->
      find_element ext (files_px_Mesh self) s z (kdtree (meshes_px self) s z 6)
      = (Call_inside_element <$> (before ++ [idx]), Ok (idx, cp, et, xi, eta)) /\
      exists rest r,
        get_seismogram ext self source receiver component
        = (Call_kdtree_query 6 :: (Call_inside_element <$> (before ++ [idx])) ++ rest, r) /\
        Forall (fun ev => is_inside_call ev = false) rest) /\
  (Forall (fun c => rejects ext (files_px_Mesh self) s z c = true)
     (kdtree (meshes_px self) s z 6) ->
   get_seismogram ext self source receiver component
   = (Call_kdtree_query 6 :: (Call_inside_element <$> kdtree (meshes_px self) s z 6),
      Raise (ValueError "Element not found"))).
Proof.
  intros Hq. split.
  - intros before idx after cp et xi eta Hk Hbefore Hg Hin.
    pose proof (find_element_first ext (files_px_Mesh self) s z before idx after
                  cp et xi eta Hbefore Hg Hin) as Hf.
    rewrite <- Hk in Hf. split; [done|].
    destruct (get_seismogram ext self source receiver component) as [tr r] eqn:Hrun.
    apply (get_seismogram_trace ext self source receiver s phi z Hq) in Hrun
      as (tf & rest & Htf & -> & Hrest).
    rewrite Hf in Htf. cbn in Htf. subst tf. exists rest, r. split; [done|].
    destruct Hrest as [[-> _]|(? & ? & ? & ? & ? & ? & ? & _ & _ & _ & _ & Hn)]; [constructor|].
    by eapply component_N_after_search.
  - intros Hall. unfold get_seismogram.
    apply (get_seismogram_search_failed _ _ _ _ _ _ _ _ Hq).
    by apply find_element_none.
Qed.

(** In the demonstration mesh the point of source B lies in element 2; the
    first corners of elements 1 and 5 are nearer, they are tested first and
    rejected.  The point of source D lies in no element. *)
Lemma element_search_nearest_first_witness :
  find_element Demo.modules Demo.mesh_group 10062.5 9437.5
    (Demo.nearest Demo.mesh_group 10062.5 9437.5 6)
  = ([Call_inside_element 1; Call_inside_element 5; Call_inside_element 2],
     Ok (2, Demo.rectangle 10000 9250 10250 9500, 0%Z, (-0.5)%float, 0.5%float)) /\
  get_seismogram Demo.modules Demo.db Demo.source_D Demo.receiver "N"
  = ([Call_kdtree_query 6; Call_inside_element 3; Call_inside_element 5;
      Call_inside_element 1; Call_inside_element 6; Call_inside_element 2;
      Call_inside_element 4],
     Raise (ValueError "Element not found")).
Proof.
  split.
  - assert (query_point Demo.modules Demo.source_B Demo.receiver
            = (10062.5, 0.5, 9437.5)%float) as Hq by (vm_compute; reflexivity).
    destruct (element_search_nearest_first Demo.modules Demo.db Demo.source_B
                Demo.receiver "N" _ _ _ Hq) as [H _].
    apply (H [1; 5] 2 [6; 3; 4]).
    + vm_compute. reflexivity.
    + repeat constructor.
    + vm_compute. reflexivity.
    + vm_compute. reflexivity.
  - assert (query_point Demo.modules Demo.source_D Demo.receiver
            = (20000, 0.5, 20000)%float) as Hq by (vm_compute; reflexivity).
    destruct (element_search_nearest_first Demo.modules Demo.db Demo.source_D
                Demo.receiver "N" _ _ _ Hq) as [_ H].
    apply H. vm_compute. repeat constructor.
Defined.

(** C10: the spatial index is queried with k = 6, whatever the caller
    passes, and the element search considers the six candidates it returns
    and no other element: when the inverse mapping rejects these six, the
    query fails with "Element not found" although an element of the mesh,
    which is then not among the six, contains the point. *)
Theorem six_nearest_candidates_only ext self source receiver component s phi z
    idx cp et xi eta :
  query_point ext source receiver = (s, phi, z) ->
  length (kdtree (meshes_px self) s z 6) = 6 ->
  Forall (fun c => rejects ext (files_px_Mesh self) s z c = true)
    (kdtree (meshes_px self) s z 6) ->
  element_geometry (files_px_Mesh self) idx = Some (cp, et) ->
  inside_element ext s z cp et tolerance = (true, xi, eta) ->
  (idx ∉ kdtree (meshes_px self) s z 6) /\
  exists c1 c2 c3 c4 c5 c6,
    kdtree (meshes_px self) s z 6 = [c1; c2; c3; c4; c5; c6] /\
    get_seismogram ext self source receiver component
    = ([Call_kdtree_query 6; Call_inside_element c1; Call_inside_element c2;
        Call_inside_element c3; Call_inside_element c4; Call_inside_element c5;
        Call_inside_element c6],
       Raise (ValueError "Element not found")).
Proof.
  intros Hq Hlen Hall Hg Hin. split.
  - intros Hidx. rewrite Forall_forall in Hall. specialize (Hall idx Hidx).
    unfold rejects, locate in Hall. rewrite Hg in Hall. cbn in Hall.
    by rewrite Hin in Hall.
  - pose proof (find_element_none ext (files_px_Mesh self) s z _ Hall) as Hf.
    pose proof (get_seismogram_search_failed ext load_displacement self source receiver
                  s phi z Hq component _ _ Hf) as Hrun.
    destruct (kdtree (meshes_px self) s z 6) as [|c1 [|c2 [|c3 [|c4 [|c5 [|c6 [|c7 l]]]]]]];
      try discriminate Hlen.
    by exists c1, c2, c3, c4, c5, c6.
Qed.

(** In the demonstration mesh the point of source C lies in element 0, a
    large element whose first corner is farther from the point than the
    first corners of the six small elements. *)
Lemma six_nearest_candidates_only_witness :
  Demo.rectangle_inside 7500 7500 (Demo.rectangle 0 0 10000 10000) 0 tolerance
  = (true, 0.5%float, 0.5%float) /\
  (0 ∉ Demo.nearest Demo.mesh_group 7500 7500 6) /\
  exists c1 c2 c3 c4 c5 c6,
    Demo.nearest Demo.mesh_group 7500 7500 6 = [c1; c2; c3; c4; c5; c6] /\
    get_seismogram Demo.modules Demo.db Demo.source_C Demo.receiver "N"
    = ([Call_kdtree_query 6; Call_inside_element c1; Call_inside_element c2;
        Call_inside_element c3; Call_inside_element c4; Call_inside_element c5;
        Call_inside_element c6],
       Raise (ValueError "Element not found")).
Proof.
  assert (Demo.rectangle_inside 7500 7500 (Demo.rectangle 0 0 10000 10000) 0 tolerance
          = (true, 0.5%float, 0.5%float)) as Hin by (vm_compute; reflexivity).
  split; [exact Hin|].
  apply (six_nearest_candidates_only Demo.modules Demo.db Demo.source_C Demo.receiver "N"
           7500 0.5 7500 0 (Demo.rectangle 0 0 10000 10000) 0%Z 0.5 0.5).
  - vm_compute. reflexivity.
  - vm_compute. reflexivity.
  - vm_compute. repeat constructor.
  - vm_compute. reflexivity.
  - exact Hin.
Defined.

(** ** The claims about the outcome of a query *)

(** C3: the specification says that a query returns a complete time series
    or raises an error, and never a null result.  The code computes a time
    series for component "N" only: for any other component, once the element
    is located, [get_seismogram] falls off the end of the function and
    returns [None], without raising anything. *)
Theorem other_components_return_None ext self source receiver component s phi z
    tf id_elem cp et xi eta gll flag :
  query_point ext source receiver = (s, phi, z) ->
  find_element ext (files_px_Mesh self) s z (kdtree (meshes_px self) s z 6)
  = (tf, Ok (id_elem, cp, et, xi, eta)) ->
  var_sem_mesh (files_px_Mesh self) !! id_elem = Some gll ->
  var_axis (files_px_Mesh self) !! id_elem = Some flag ->
  component <> "N" ->
  get_seismogram ext self source receiver component = (Call_kdtree_query 6 :: tf, Ok None).
Proof.
  intros Hq Hf Hg Ha Hc. unfold get_seismogram.
  by eapply get_seismogram_other_component.
Qed.

(** Component "Z" at source A of the demonstration database. *)
Lemma other_components_return_None_witness :
  get_seismogram Demo.modules Demo.db Demo.source_A Demo.receiver "Z"
  = ([Call_kdtree_query 6; Call_inside_element 1], Ok None).
Proof.
  apply (other_components_return_None Demo.modules Demo.db Demo.source_A Demo.receiver "Z"
           10062.5 0.5 9562.5 [Call_inside_element 1] 1
           (Demo.rectangle 10000 9500 10250 9750) 0%Z (-0.5) (-0.5)
           [[9; 10; 11]; [12; 13; 14]; [15; 16; 17]] 0%Z).
  - vm_compute. reflexivity.
  - vm_compute. reflexivity.
  - vm_compute. reflexivity.
  - vm_compute. reflexivity.
  - discriminate.
Defined.

(** C4, as the code has it: the dump type is compared after [strip()], and
    only once the element is located.  For component "N" of a database
    whose stripped dump type is not "displ_only", a query whose element
    search fails, fails with the error of the search; a query whose search
    finds an element of the mesh fails with NotImplementedError, which is not
    the ValueError of the search.  Either way the query fails, and it reads
    no displacement, derives no strain, interpolates and rotates nothing. *)
Theorem unsupported_dump_type ext self source receiver s phi z tr r :
  query_point ext source receiver = (s, phi, z) ->
  strip (dump_type (meshes_px self)) <> "displ_only" ->
  get_seismogram ext self source receiver "N" = (tr, r) ->
  (exists e, r = Raise e) /\
  Forall (fun ev => is_read ev = false /\ is_strain_or_interpolation ev = false /\
                    is_rotation ev = false) tr /\
  (forall tf e,
      find_element ext (files_px_Mesh self) s z (kdtree (meshes_px self) s z 6)
      = (tf, Raise e) -> r = Raise e) /\
  (forall tf id_elem cp et xi eta,
      find_element ext (files_px_Mesh self) s z (kdtree (meshes_px self) s z 6)
      = (tf, Ok (id_elem, cp, et, xi, eta)) ->
      is_Some (var_sem_mesh (files_px_Mesh self) !! id_elem) ->
      is_Some (var_axis (files_px_Mesh self) !! id_elem) ->
      r = Raise NotImplementedError) /\
  NotImplementedError <> ValueError "Element not found".
Proof.
  intros Hq Hd Hrun. unfold get_seismogram in Hrun.
  pose proof (find_element_emits ext (files_px_Mesh self) s z
                (kdtree (meshes_px self) s z 6)) as Hsearch.
  unfold emits in Hsearch.
  assert (forall tf, Forall (fun ev => is_inside_call ev = true) tf ->
            Forall (fun ev => is_read ev = false /\ is_strain_or_interpolation ev = false /\
                              is_rotation ev = false) (Call_kdtree_query 6 :: tf)) as Hcalls.
  { intros tf Htf. constructor; [done|]. eapply Forall_impl; [exact Htf|]. by intros []. }
  destruct (find_element ext (files_px_Mesh self) s z (kdtree (meshes_px self) s z 6))
    as [tf [[[[[id_elem cp] et] xi] eta]|e]] eqn:Hf; cbn in Hsearch.
  2:{ rewrite (get_seismogram_search_failed _ _ _ _ _ _ _ _ Hq _ _ _ Hf) in Hrun.
      injection Hrun as <- <-. repeat split; eauto; [by intros ?? [= _ <-]|done]. }
  destruct (var_sem_mesh (files_px_Mesh self) !! id_elem) as [gll|] eqn:Hg.
  2:{ rewrite (get_seismogram_no_sem_mesh _ _ _ _ _ _ _ _ Hq _ _ _ _ _ _ Hf _ Hg) in Hrun.
      injection Hrun as <- <-. repeat split; eauto; [done|].
      intros ?????? [= _ <- _ _ _ _] [? Hs]. by rewrite Hg in Hs. }
  destruct (var_axis (files_px_Mesh self) !! id_elem) as [flag|] eqn:Ha.
  2:{ rewrite (get_seismogram_no_axis _ _ _ _ _ _ _ _ Hq _ _ _ _ _ _ Hf _ _ Hg Ha) in Hrun.
      injection Hrun as <- <-. repeat split; eauto; [done|].
      intros ?????? [= _ <- _ _ _ _] _ [? Hs]. by rewrite Ha in Hs. }
  rewrite (get_seismogram_dump_type _ _ _ _ _ _ _ _ Hq _ _ _ _ _ _ Hf _ _ Hg Ha Hd) in Hrun.
  injection Hrun as <- <-. repeat split; eauto; done.
Qed.

(** Source A and the database with the dump type "fullfields". *)
Lemma unsupported_dump_type_witness :
  get_seismogram Demo.modules Demo.db_fullfields Demo.source_A Demo.receiver "N"
  = ([Call_kdtree_query 6; Call_inside_element 1], Raise NotImplementedError) /\
  exists e, Raise (A := option (list float)) NotImplementedError = Raise e.
Proof.
  assert (get_seismogram Demo.modules Demo.db_fullfields Demo.source_A Demo.receiver "N"
          = ([Call_kdtree_query 6; Call_inside_element 1], Raise NotImplementedError))
    as Hrun by (vm_compute; reflexivity).
  split; [exact Hrun|].
  refine (proj1 (unsupported_dump_type Demo.modules Demo.db_fullfields Demo.source_A
                   Demo.receiver 10062.5 0.5 9562.5 _ _ _ _ Hrun)).
  - vm_compute. reflexivity.
  - vm_compute. discriminate.
Defined.

(** C4 as stated fails twice.  The database with the dump type "fullfields"
    and a point outside of the mesh: the query fails with "Element not
    found", not with NotImplementedError.  The database whose dump type is
    "displ_only" padded with blanks, which is another string: the query
    derives the strain, interpolates and returns a seismogram. *)
Lemma dump_type_guard_counterexample :
  (bool_decide (dump_type (meshes_px Demo.db_fullfields) = "displ_only") = false /\
   (get_seismogram Demo.modules Demo.db_fullfields Demo.source_D Demo.receiver "N").2
   = Raise (ValueError "Element not found")) /\
  (bool_decide (dump_type (meshes_px Demo.db_padded) = "displ_only") = false /\
   (get_seismogram Demo.modules Demo.db_padded Demo.source_A Demo.receiver "N").2
   = Ok (Some Demo.seismogram_A) /\
   existsb is_strain_or_interpolation
     (get_seismogram Demo.modules Demo.db_padded Demo.source_A Demo.receiver "N").1 = true).
Proof. vm_compute. repeat split; reflexivity. Qed.

(** The white space that [strip()] removes is that of text: a dump type
    "displ_only" followed by the unit separator (code point 31), by NEL (133)
    or by the no-break space (160) is supported, and the query returns its
    seismogram. *)
Lemma dump_type_text_white_space :
  strip ("displ_only" +:+ String "031" (String "133" (String "160" EmptyString)))
  = "displ_only" /\
  get_seismogram Demo.modules
    (Demo.db_with ("displ_only" +:+ String "031" EmptyString) "monopole")
    Demo.source_A Demo.receiver "N"
  = (Demo.trace_A, Ok (Some Demo.seismogram_A)).
Proof. split; vm_compute; reflexivity. Qed.

(** ** Successful queries *)

Lemma filter_none (f : event -> bool) l :
  Forall (fun ev => f ev = false) l -> List.filter f l = [].
Proof. induction 1 as [|ev l Hev _ IH]; [done|]. simpl. by rewrite Hev. Qed.

Lemma filter_all (f : event -> bool) l :
  Forall (fun ev => f ev = true) l -> List.filter f l = l.
Proof. induction 1 as [|ev l Hev _ IH]; [done|]. simpl. by rewrite Hev, IH. Qed.

(** A query that returns a time series: component "N", a supported dump
    type, the trace of the whole pipeline, and the contraction of the
    interpolated strain with the moment tensor in the mesh frame. *)
Lemma get_seismogram_Some ext self source receiver component s phi z tr final :
  query_point ext source receiver = (s, phi, z) ->
  get_seismogram ext self source receiver component = (tr, Ok (Some final)) ->
  component = "N" /\
  strip (dump_type (meshes_px self)) = "displ_only" /\
  List.filter is_rotation tr = rotation_calls ext source receiver phi /\
  exists final_strain,
    interpolated_strain ext self s z final_strain /\
    final = voigt_contraction final_strain
              (moment_in_mesh_frame ext (meshes_px self) source receiver phi)
              (fac_1 ext phi) (fac_2 ext phi).
Proof.
  intros Hq Hrun.
  apply (get_seismogram_trace ext self source receiver s phi z Hq) in Hrun
    as (tf & rest & Htf & -> & Hrest).
  destruct Hrest as [[_ [?|[? ?]]]|(id_elem & cp & et & xi & eta & gll & flag
                                      & Hf & Hg & Ha & -> & Hn)]; [done..|].
  pose proof (find_element_emits ext (files_px_Mesh self) s z
                (kdtree (meshes_px self) s z 6)) as Hsearch.
  unfold emits in Hsearch. rewrite Hf in Hsearch. cbn [fst] in Hsearch. clear Htf.
  pose proof (load_displacement_emits (meshes_px self) gll) as Hload. unfold emits in Hload.
  apply component_N_runs in Hn.
  inversion Hn as [| | | |tl utemp f ti fs Hd Hl Hm Hi Htr Hr]; subst.
  split; [done|]. split; [done|]. split.
  - apply interpolate_strain_trace in Hi as (k & _ & -> & _).
    rewrite Hl in Hload. cbn [fst] in Hload.
    cbn [List.filter is_rotation]. rewrite !List.filter_app. cbn [List.filter is_rotation].
    rewrite !List.filter_app.
    rewrite (filter_none _ tf), (filter_none _ tl), (filter_none _ (_ <$> _)).
    + reflexivity.
    + apply Forall_fmap, Forall_forall. by intros.
    + eapply Forall_impl; [exact Hload|]. by intros ev (? & ? & ? & ? & ? & -> & _).
    + eapply Forall_impl; [exact Hsearch|]. by intros [].
  - exists fs. split; [|done].
    by exists tf, id_elem, cp, et, xi, eta, gll, flag, tl, utemp, f, ti.
Qed.

(** A seismogram has one value for each time sample of the strain field
    that was derived for the element. *)
Lemma get_seismogram_complete ext self source receiver component s phi z tr final :
  query_point ext source receiver = (s, phi, z) ->
  get_seismogram ext self source receiver component = (tr, Ok (Some final)) ->
  exists tf id_elem cp et xi eta gll flag tl utemp strain_fct,
    find_element ext (files_px_Mesh self) s z (kdtree (meshes_px self) s z 6)
    = (tf, Ok (id_elem, cp, et, xi, eta)) /\
    var_sem_mesh (files_px_Mesh self) !! id_elem = Some gll /\
    var_axis (files_px_Mesh self) !! id_elem = Some flag /\
    load_displacement (meshes_px self) gll = (tl, Ok utemp) /\
    strain_fct_map ext !! excitation_type (meshes_px self) = Some strain_fct /\
    length final
    = length (strain_of (meshes_px self) cp et (negb (flag =? 0)%Z) strain_fct utemp).
Proof.
  intros Hq Hrun.
  destruct (get_seismogram_Some _ _ _ _ _ _ _ _ _ _ Hq Hrun) as (_ & _ & _ & fs & Hfs & ->).
  destruct Hfs as (tf & id_elem & cp & et & xi & eta & gll & flag & tl & utemp & f & ti
                   & Hf & Hg & Ha & Hl & Hm & Hi).
  exists tf, id_elem, cp, et, xi, eta, gll, flag, tl, utemp, f.
  repeat (split; [done|]).
  rewrite voigt_contraction_length. by eapply interpolate_strain_length.
Qed.

(** A query for component "N" raises an error or returns a time series. *)
Lemma get_seismogram_N_outcome ext self source receiver s phi z tr r :
  query_point ext source receiver = (s, phi, z) ->
  get_seismogram ext self source receiver "N" = (tr, r) ->
  (exists e, r = Raise e) \/ (exists final, r = Ok (Some final)).
Proof.
  intros Hq Hrun. unfold get_seismogram in Hrun.
  destruct (find_element ext (files_px_Mesh self) s z (kdtree (meshes_px self) s z 6))
    as [tf [[[[[id_elem cp] et] xi] eta]|e]] eqn:Hf.
  2:{ rewrite (get_seismogram_search_failed _ _ _ _ _ _ _ _ Hq _ _ _ Hf) in Hrun.
      injection Hrun as _ <-. eauto. }
  destruct (var_sem_mesh (files_px_Mesh self) !! id_elem) as [gll|] eqn:Hg.
  2:{ rewrite (get_seismogram_no_sem_mesh _ _ _ _ _ _ _ _ Hq _ _ _ _ _ _ Hf _ Hg) in Hrun.
      injection Hrun as _ <-. eauto. }
  destruct (var_axis (files_px_Mesh self) !! id_elem) as [flag|] eqn:Ha.
  2:{ rewrite (get_seismogram_no_axis _ _ _ _ _ _ _ _ Hq _ _ _ _ _ _ Hf _ _ Hg Ha) in Hrun.
      injection Hrun as _ <-. eauto. }
  rewrite (get_seismogram_found_N _ _ _ _ _ _ _ _ Hq _ _ _ _ _ _ Hf _ _ Hg Ha) in Hrun.
  cbn zeta in Hrun.
  destruct (component_N ext load_displacement (meshes_px self) source receiver phi cp et
              xi eta gll (negb (flag =? 0)%Z)) as [tn rn] eqn:Hn.
  injection Hrun as _ <-.
  apply component_N_trace in Hn as (_ & _ & _ & _ & [[_ ?]|[(_ & _ & _ & ?)|[_ ?]]]); eauto.
Qed.

(** ** The claims about contraction, rotation and basis *)

(** C2: the seismogram that a query returns is, at every time sample, the
    sum over the six Voigt components of the interpolated strain times the
    rotated moment times the multiplicity (1, 1, 1, 2, 2, 2) times the
    azimuth factor, where the strain components 3 and 5, and no other, are
    first multiplied by -1, and the sum is multiplied by -1 at the end. *)
Theorem seismogram_is_voigt_contraction ext self source receiver component s phi z
    tr final :
  query_point ext source receiver = (s, phi, z) ->
  get_seismogram ext self source receiver component = (tr, Ok (Some final)) ->
  exists final_strain,
    interpolated_strain ext self s z final_strain /\
    let mij := moment_in_mesh_frame ext (meshes_px self) source receiver phi in
    let fac_1 := azim_factor_bw ext phi [0; 1; 0]%float 2 1 in
    let fac_2 := azim_factor_bw ext phi [0; 1; 0]%float 2 2 in
    final = voigt_contraction final_strain mij fac_1 fac_2 /\
    multiplicity = [1; 1; 1; 2; 2; 2]%float /\
    sign_flipped = [3; 5] /\
    forall t e, final_strain !! t = Some e ->
      final !! t
      = Some ((0 + v0 e * v0 mij * 1 * fac_1
                 + v1 e * v1 mij * 1 * fac_1
                 + v2 e * v2 mij * 1 * fac_1
                 + v3 e * -1 * v3 mij * 2 * fac_2
                 + v4 e * v4 mij * 2 * fac_1
                 + v5 e * -1 * v5 mij * 2 * fac_2) * -1)%float.
Proof.
  intros Hq Hrun.
  destruct (get_seismogram_Some _ _ _ _ _ _ _ _ _ _ Hq Hrun) as (_ & _ & _ & fs & Hfs & ->).
  exists fs. split; [done|]. cbn zeta. repeat split.
  intros t e He. unfold voigt_contraction.
  rewrite list_lookup_fmap_Some. hnf. exists e. split; [|done]. by destruct e.
Qed.

(** Source A of the demonstration database. *)
Lemma seismogram_is_voigt_contraction_witness :
  exists final_strain,
    interpolated_strain Demo.modules Demo.db 10062.5 9562.5 final_strain /\
    Demo.seismogram_A
    = voigt_contraction final_strain
        (moment_in_mesh_frame Demo.modules (meshes_px Demo.db) Demo.source_A
           Demo.receiver 0.5)
        (fac_1 Demo.modules 0.5) (fac_2 Demo.modules 0.5).
Proof.
  assert (query_point Demo.modules Demo.source_A Demo.receiver
          = (10062.5, 0.5, 9562.5)%float) as Hq by (vm_compute; reflexivity).
  assert (get_seismogram Demo.modules Demo.db Demo.source_A Demo.receiver "N"
          = (Demo.trace_A, Ok (Some Demo.seismogram_A))) as Hrun
    by (vm_compute; reflexivity).
  destruct (seismogram_is_voigt_contraction Demo.modules Demo.db Demo.source_A
              Demo.receiver "N" _ _ _ _ _ Hq Hrun) as (fs & Hfs & Hfinal & _).
  exists fs. split; [exact Hfs|exact Hfinal].
Defined.

(** C5: a query rotates the moment tensor exactly three times, or not at
    all when it fails before: from the source frame to the earth frame by
    the longitude and colatitude of the source in radians, then from the
    earth frame to the receiver-source frame by those of the receiver, then
    to the azimuth of the mesh by the angle phi of the coordinate rotation,
    each rotation applied to the result of the one before.  A query that
    returns a seismogram has made the three rotations, and contracts the
    strain with the result of the third divided by the amplitude of the
    database. *)
Theorem moment_rotated_three_times ext self source receiver component s phi z tr r :
  query_point ext source receiver = (s, phi, z) ->
  get_seismogram ext self source receiver component = (tr, r) ->
  let a1 := deg2rad ext (Source.longitude source) in
  let a2 := deg2rad ext (Source.colatitude source) in
  let b1 := deg2rad ext (Receiver.longitude receiver) in
  let b2 := deg2rad ext (Receiver.colatitude receiver) in
  let m0 := Source.tensor_voigt source in
  let m1 := rotate_symm_tensor_voigt_xyz_src_to_xyz_earth_1d ext m0 a1 a2 in
  let m2 := rotate_symm_tensor_voigt_xyz_earth_to_xyz_src_1d ext m1 b1 b2 in
  let m3 := rotate_symm_tensor_voigt_xyz_to_src_1d ext m2 phi in
  (List.filter is_rotation tr = [] /\ forall final, r <> Ok (Some final)) \/
  (List.filter is_rotation tr
   = [Call_rotate xyz_src_to_xyz_earth m0 [a1; a2];
      Call_rotate xyz_earth_to_xyz_src m1 [b1; b2];
      Call_rotate xyz_to_src m2 [phi]] /\
   exists final final_strain,
     r = Ok (Some final) /\
     interpolated_strain ext self s z final_strain /\
     final = voigt_contraction final_strain
               (vmap (fun m => m / amplitude (meshes_px self))%float m3)
               (azim_factor_bw ext phi [0; 1; 0]%float 2 1)
               (azim_factor_bw ext phi [0; 1; 0]%float 2 2)).
Proof.
  intros Hq Hrun. cbn zeta.
  destruct r as [[final|]|e].
  - right.
    destruct (get_seismogram_Some _ _ _ _ _ _ _ _ _ _ Hq Hrun) as (_ & _ & Hrot & fs & Hfs & ->).
    split; [exact Hrot|]. eexists _, fs. by repeat split.
  - left. split; [|done].
    apply (get_seismogram_trace ext self source receiver s phi z Hq) in Hrun
      as (tf & rest & Htf & -> & Hrest).
    pose proof (find_element_emits ext (files_px_Mesh self) s z
                  (kdtree (meshes_px self) s z 6)) as Hsearch.
    unfold emits in Hsearch. rewrite Htf in Hsearch.
    destruct Hrest as [[-> _]|(? & ? & ? & ? & ? & ? & ? & _ & _ & _ & _ & Hn)].
    + rewrite app_nil_r. apply (filter_none is_rotation (_ :: tf)).
      constructor; [done|]. eapply Forall_impl; [exact Hsearch|]. by intros [].
    + apply component_N_trace in Hn as (tl & rest' & _ & _ & [[_ [? ?]]|[(? & _ & _ & ? & ?)|[_ [? ?]]]]);
        done.
  - left. split; [|done].
    apply (get_seismogram_trace ext self source receiver s phi z Hq) in Hrun
      as (tf & rest & Htf & -> & Hrest).
    pose proof (find_element_emits ext (files_px_Mesh self) s z
                  (kdtree (meshes_px self) s z 6)) as Hsearch.
    unfold emits in Hsearch. rewrite Htf in Hsearch.
    assert (Forall (fun ev => is_rotation ev = false) (Call_kdtree_query 6 :: tf)) as Hhead.
    { constructor; [done|]. eapply Forall_impl; [exact Hsearch|]. by intros []. }
    destruct Hrest as [[-> _]|(? & ? & ? & ? & ? & ? & ? & _ & _ & _ & _ & Hn)].
    + rewrite app_nil_r. by apply filter_none.
    + apply component_N_trace in Hn as (tl & rest' & -> & Htl & Hrest).
      apply (filter_none is_rotation (_ :: _ ++ _ ++ _)).
      apply Forall_cons in Hhead as [Hkd Htf']. constructor; [done|].
      rewrite !Forall_app. split; [done|]. split.
      { eapply Forall_impl; [exact Htl|]. by intros []. }
      destruct Hrest as [[-> _]|[(k & _ & -> & _)|[_ [? ?]]]]; [constructor| |done].
      constructor; [done|]. by apply Forall_interpolation_calls.
Qed.

(** Source A of the demonstration database: three rotations. *)
Lemma moment_rotated_three_times_witness :
  List.filter is_rotation Demo.trace_A
  = [Call_rotate xyz_src_to_xyz_earth (Voigt 1 2 3 4 5 6)
       [Demo.radians 0.5; Demo.radians 0.25];
     Call_rotate xyz_earth_to_xyz_src
       (Demo.src_to_earth (Voigt 1 2 3 4 5 6) (Demo.radians 0.5) (Demo.radians 0.25))
       [Demo.radians 0.5; Demo.radians 0.75];
     Call_rotate xyz_to_src
       (Demo.earth_to_src
          (Demo.src_to_earth (Voigt 1 2 3 4 5 6) (Demo.radians 0.5) (Demo.radians 0.25))
          (Demo.radians 0.5) (Demo.radians 0.75))
       [0.5%float]].
Proof.
  assert (query_point Demo.modules Demo.source_A Demo.receiver
          = (10062.5, 0.5, 9562.5)%float) as Hq by (vm_compute; reflexivity).
  assert (get_seismogram Demo.modules Demo.db Demo.source_A Demo.receiver "N"
          = (Demo.trace_A, Ok (Some Demo.seismogram_A))) as Hrun
    by (vm_compute; reflexivity).
  destruct (moment_rotated_three_times Demo.modules Demo.db Demo.source_A
              Demo.receiver "N" _ _ _ _ _ Hq Hrun) as [[_ Hno]|[Hrot _]].
  - exfalso. by eapply Hno.
  - exact Hrot.
Defined.

Lemma no_strain_events l :
  Forall (fun ev => is_strain_or_interpolation ev = false) l ->
  Exists (fun ev => is_strain_or_interpolation ev = true) l -> False.
Proof.
  intros Hall Hex. apply Exists_exists in Hex as (ev & Hin & Hev).
  rewrite Forall_forall in Hall. specialize (Hall ev Hin). congruence.
Qed.

(** C6: the point sets and the differentiation matrices that a query passes
    to the strain derivation and to the interpolation are those of the axis
    flag of the located element: G2, G1T, the GLJ points along xi and the
    GLL points along eta when the element touches the axis; G2, G2T and the
    GLL points along both directions otherwise.  Every call of the strain
    derivation and of the interpolation in the trace carries them, and a
    query that returns a seismogram has called the strain derivation once
    and the interpolation six times.  Whenever the strain is derived, it is
    the strain function of the excitation type applied to the displacement
    that was loaded, to these matrices and to these point sets; the
    interpolation runs on this strain with these point sets, its error is
    the error of the query, and otherwise each component of the
    interpolated strain is the interpolation function applied to these
    point sets and to this component of the strain, and the seismogram is
    the contraction of the interpolated strain. *)
Theorem basis_selected_by_axis_flag ext self source receiver component s phi z
    tf id_elem cp et xi eta flag tr r :
  query_point ext source receiver = (s, phi, z) ->
  find_element ext (files_px_Mesh self) s z (kdtree (meshes_px self) s z 6)
  = (tf, Ok (id_elem, cp, et, xi, eta)) ->
  var_axis (files_px_Mesh self) !! id_elem = Some flag ->
  get_seismogram ext self source receiver component = (tr, r) ->
  let mesh := meshes_px self in
  let axis := negb (flag =? 0)%Z in
  let G := G2 mesh in
  let GT := if axis then G1T mesh else G2T mesh in
  let col_points_xi := if axis then glj_points mesh else gll_points mesh in
  let col_points_eta := gll_points mesh in
  Forall (fun ev =>
    match ev with
    | Call_strain _ G' GT' xi' eta' axis' =>
        G' = G /\ GT' = GT /\ xi' = col_points_xi /\ eta' = col_points_eta /\ axis' = axis
    | Call_lagrange_interpol xi' eta' _ => xi' = col_points_xi /\ eta' = col_points_eta
    | _ => True
    end) tr /\
  (forall final, r = Ok (Some final) ->
    List.filter is_strain_or_interpolation tr
    = Call_strain (excitation_type mesh) G GT col_points_xi col_points_eta axis
      :: (Call_lagrange_interpol col_points_xi col_points_eta <$> seq 0 6)) /\
  (Exists (fun ev => is_strain_or_interpolation ev = true) tr \/
   (exists final, r = Ok (Some final)) ->
   exists gll tl utemp strain_fct ti ri,
     var_sem_mesh (files_px_Mesh self) !! id_elem = Some gll /\
     load_displacement mesh gll = (tl, Ok utemp) /\
     strain_fct_map ext !! excitation_type mesh = Some strain_fct /\
     let strain :=
       strain_fct utemp G GT col_points_xi col_points_eta (npol mesh) (ndumps mesh)
         cp et axis in
     interpolate_strain ext col_points_xi col_points_eta strain xi eta = (ti, ri) /\
     match ri with
     | Raise e =>
         r = Raise e /\
         tr = Call_kdtree_query 6 :: tf ++ tl
                ++ Call_strain (excitation_type mesh) G GT col_points_xi col_points_eta axis
                :: ti
     | Ok final_strain =>
         (forall i, i < 6 ->
            broadcast_to (length strain)
              (lagrange_interpol_2D_td ext col_points_xi col_points_eta
                 (component_slice i strain) xi eta)
            = ([], Ok (vget i <$> final_strain))) /\
         r = Ok (Some (voigt_contraction final_strain
                         (moment_in_mesh_frame ext mesh source receiver phi)
                         (fac_1 ext phi) (fac_2 ext phi)))
     end).
Proof.
  intros Hq Hf Ha Hrun. cbn zeta.
  apply (get_seismogram_trace ext self source receiver s phi z Hq) in Hrun
    as (tf' & rest & Htf & -> & Hrest).
  rewrite Hf in Htf. cbn in Htf. subst tf'.
  pose proof (find_element_emits ext (files_px_Mesh self) s z
                (kdtree (meshes_px self) s z 6)) as Hsearch.
  unfold emits in Hsearch. rewrite Hf in Hsearch. cbn [fst] in Hsearch.
  assert (Forall (fun ev => is_strain_or_interpolation ev = false)
            (Call_kdtree_query 6 :: tf)) as Hquiet.
  { constructor; [done|]. eapply Forall_impl; [exact Hsearch|]. by intros []. }
  destruct Hrest as [[-> Hr]|(id' & cp' & et' & xi' & eta' & gll & flag'
                               & Hf' & Hg & Ha' & -> & Hn)].
  { split; [|split].
    - rewrite app_nil_r. constructor; [done|].
      eapply Forall_impl; [exact Hsearch|]. by intros [].
    - intros final ->. by destruct Hr as [?|[? ?]].
    - rewrite app_nil_r. intros [Hex|[final ->]].
      + by destruct (no_strain_events _ Hquiet Hex).
      + by destruct Hr as [?|[? ?]]. }
  rewrite Hf in Hf'. injection Hf' as <- <- <- <- <-.
  rewrite Ha in Ha'. injection Ha' as <-.
  split; [|split].
  - constructor; [done|]. apply Forall_app. split.
    { eapply Forall_impl; [exact Hsearch|]. by intros []. }
    revert Hn. apply component_N_Forall.
    + by intros [].
    + unfold strain_call, basis_G, basis_GT, basis_xi, basis_eta. done.
    + done.
    + unfold rotation_calls. by repeat constructor.
    + done.
  - intros final ->.
    apply component_N_trace in Hn as (tl & rest' & -> & Htl & Hrest).
    destruct Hrest as [[_ [? ?]]|[(? & _ & _ & ? & ?)|[-> _]]]; [done..|].
    cbn [List.filter is_strain_or_interpolation]. rewrite !List.filter_app.
    rewrite (filter_none _ tf), (filter_none _ tl).
    + cbn [List.filter is_strain_or_interpolation strain_call app].
      rewrite List.filter_app, filter_all; [done|].
      by apply Forall_interpolation_calls.
    + eapply Forall_impl; [exact Htl|]. by intros [].
    + eapply Forall_impl; [exact Hsearch|]. by intros [].
  - intros Hpremise.
    assert (forall tl o, load_displacement (meshes_px self) gll = (tl, o) ->
              Forall (fun ev => is_strain_or_interpolation ev = false)
                (Call_kdtree_query 6 :: tf ++ tl)) as Hreads.
    { intros tl o Hl. rewrite app_comm_cons. apply Forall_app. split; [done|].
      pose proof (load_displacement_emits (meshes_px self) gll) as He.
      unfold emits in He. rewrite Hl in He. eapply Forall_impl; [exact He|].
      by intros ev (? & ? & ? & ? & ? & -> & _). }
    apply component_N_runs in Hn.
    inversion Hn as [Hd|tl e Hd Hl|tl utemp Hd Hl Hm|tl utemp f ti e Hd Hl Hm Hi
                    |tl utemp f ti fs Hd Hl Hm Hi]; subst.
    + exfalso. destruct Hpremise as [Hex|[? ?]]; [|done].
      rewrite app_nil_r in Hex. by destruct (no_strain_events _ Hquiet Hex).
    + exfalso. destruct Hpremise as [Hex|[? ?]]; [|done].
      by destruct (no_strain_events _ (Hreads _ _ Hl) Hex).
    + exfalso. destruct Hpremise as [Hex|[? ?]]; [|done].
      by destruct (no_strain_events _ (Hreads _ _ Hl) Hex).
    + exists gll, tl, utemp, f, ti, (Raise e).
      split; [done|]. split; [done|]. split; [done|]. cbn zeta.
      split; [exact Hi|]. by split.
    + exists gll, tl, utemp, f, ti, (Ok fs).
      split; [done|]. split; [done|]. split; [done|]. cbn zeta.
      split; [exact Hi|]. split; [|done].
      exact (interpolate_strain_columns _ _ _ _ _ _ _ _ Hi).
Qed.

(** Source E lies in element 0 of the demonstration mesh, which touches the
    axis: GLJ points along xi and the matrix G1T, in the calls and in the
    strain from which the seismogram is computed.  Source A lies in element
    1, which does not: GLL points and G2T. *)
Lemma basis_selected_by_axis_flag_witness :
  List.filter is_strain_or_interpolation Demo.trace_E
  = Call_strain "monopole" (G2 (meshes_px Demo.db)) (G1T (meshes_px Demo.db))
      (glj_points (meshes_px Demo.db)) (gll_points (meshes_px Demo.db)) true
    :: (Call_lagrange_interpol (glj_points (meshes_px Demo.db))
          (gll_points (meshes_px Demo.db)) <$> seq 0 6) /\
  (exists gll utemp strain_fct final_strain,
     var_sem_mesh (files_px_Mesh Demo.db) !! 0 = Some gll /\
     (load_displacement (meshes_px Demo.db) gll).2 = Ok utemp /\
     strain_fct_map Demo.modules !! "monopole" = Some strain_fct /\
     (interpolate_strain Demo.modules (glj_points (meshes_px Demo.db))
        (gll_points (meshes_px Demo.db))
        (strain_fct utemp (G2 (meshes_px Demo.db)) (G1T (meshes_px Demo.db))
           (glj_points (meshes_px Demo.db)) (gll_points (meshes_px Demo.db)) 2 2
           (Demo.rectangle 0 0 10000 10000) 0%Z true) (-0.5) 0).2
     = Ok final_strain /\
     Demo.seismogram_E
     = voigt_contraction final_strain
         (moment_in_mesh_frame Demo.modules (meshes_px Demo.db) Demo.source_E
            Demo.receiver 0.5)
         (fac_1 Demo.modules 0.5) (fac_2 Demo.modules 0.5)) /\
  List.filter is_strain_or_interpolation Demo.trace_A
  = Call_strain "monopole" (G2 (meshes_px Demo.db)) (G2T (meshes_px Demo.db))
      (gll_points (meshes_px Demo.db)) (gll_points (meshes_px Demo.db)) false
    :: (Call_lagrange_interpol (gll_points (meshes_px Demo.db))
          (gll_points (meshes_px Demo.db)) <$> seq 0 6).
Proof.
  split; [|split].
  - assert (query_point Demo.modules Demo.source_E Demo.receiver
            = (2500, 0.5, 5000)%float) as Hq by (vm_compute; reflexivity).
    assert (find_element Demo.modules (files_px_Mesh Demo.db) 2500 5000
              (kdtree (meshes_px Demo.db) 2500 5000 6)
            = ([Call_inside_element 0],
               Ok (0, Demo.rectangle 0 0 10000 10000, 0%Z, (-0.5)%float, 0%float))) as Hf
      by (vm_compute; reflexivity).
    assert (var_axis (files_px_Mesh Demo.db) !! 0 = Some 1%Z) as Ha by reflexivity.
    assert (get_seismogram Demo.modules Demo.db Demo.source_E Demo.receiver "N"
            = (Demo.trace_E, Ok (Some Demo.seismogram_E))) as Hrun
      by (vm_compute; reflexivity).
    destruct (basis_selected_by_axis_flag Demo.modules Demo.db Demo.source_E Demo.receiver
                "N" _ _ _ _ _ _ _ _ _ _ _ _ Hq Hf Ha Hrun) as [_ [H _]].
    exact (H _ eq_refl).
  - assert (query_point Demo.modules Demo.source_E Demo.receiver
            = (2500, 0.5, 5000)%float) as Hq by (vm_compute; reflexivity).
    assert (find_element Demo.modules (files_px_Mesh Demo.db) 2500 5000
              (kdtree (meshes_px Demo.db) 2500 5000 6)
            = ([Call_inside_element 0],
               Ok (0, Demo.rectangle 0 0 10000 10000, 0%Z, (-0.5)%float, 0%float))) as Hf
      by (vm_compute; reflexivity).
    assert (var_axis (files_px_Mesh Demo.db) !! 0 = Some 1%Z) as Ha by reflexivity.
    assert (get_seismogram Demo.modules Demo.db Demo.source_E Demo.receiver "N"
            = (Demo.trace_E, Ok (Some Demo.seismogram_E))) as Hrun
      by (vm_compute; reflexivity).
    destruct (basis_selected_by_axis_flag Demo.modules Demo.db Demo.source_E Demo.receiver
                "N" _ _ _ _ _ _ _ _ _ _ _ _ Hq Hf Ha Hrun) as [_ [_ H]].
    destruct H as (gll & tl & utemp & f & ti & ri & Hg & Hl & Hm & Hi & Hri);
      [right; by eexists|].
    exists gll, utemp, f. cbn zeta in Hi, Hri.
    destruct ri as [fs|e]; [|by destruct Hri as [? _]].
    destruct Hri as [_ [= Hfinal]].
    exists fs. split; [exact Hg|]. split; [by rewrite Hl|]. split; [exact Hm|].
    split; [|exact Hfinal].
    exact (f_equal snd Hi).
  - assert (query_point Demo.modules Demo.source_A Demo.receiver
            = (10062.5, 0.5, 9562.5)%float) as Hq by (vm_compute; reflexivity).
    assert (find_element Demo.modules (files_px_Mesh Demo.db) 10062.5 9562.5
              (kdtree (meshes_px Demo.db) 10062.5 9562.5 6)
            = ([Call_inside_element 1],
               Ok (1, Demo.rectangle 10000 9500 10250 9750, 0%Z, (-0.5)%float,
                   (-0.5)%float))) as Hf
      by (vm_compute; reflexivity).
    assert (var_axis (files_px_Mesh Demo.db) !! 1 = Some 0%Z) as Ha by reflexivity.
    assert (get_seismogram Demo.modules Demo.db Demo.source_A Demo.receiver "N"
            = (Demo.trace_A, Ok (Some Demo.seismogram_A))) as Hrun
      by (vm_compute; reflexivity).
    destruct (basis_selected_by_axis_flag Demo.modules Demo.db Demo.source_A Demo.receiver
                "N" _ _ _ _ _ _ _ _ _ _ _ _ Hq Hf Ha Hrun) as [_ [H _]].
    exact (H _ eq_refl).
Defined.

(** ** The claims about the displacement buffer *)

(** C7: a displacement variable that the field store does not hold is
    skipped.  On a located element whose grid and stored variables are well
    formed, the loader does not fail and does not read the variable; the
    buffer has its full shape, the component of the variable is zero at
    every time sample and node, and the other components hold the values of
    their variables at the nodes of the grid; the strain is derived from
    this buffer, and when its interpolation succeeds the query returns the
    seismogram. *)
Theorem absent_displacement_skipped ext self source receiver s phi z
    tf id_elem cp et xi eta gll flag c var :
  query_point ext source receiver = (s, phi, z) ->
  find_element ext (files_px_Mesh self) s z (kdtree (meshes_px self) s z 6)
  = (tf, Ok (id_elem, cp, et, xi, eta)) ->
  var_sem_mesh (files_px_Mesh self) !! id_elem = Some gll ->
  var_axis (files_px_Mesh self) !! id_elem = Some flag ->
  strip (dump_type (meshes_px self)) = "displ_only" ->
  ["disp_s"; "disp_p"; "disp_z"] !! c = Some var ->
  Snapshots (meshes_px self) !! var = None ->
  grid_ok (meshes_px self) gll = true ->
  let mesh := meshes_px self in
  let axis := negb (flag =? 0)%Z in
  exists utemp,
    load_displacement mesh gll = (snapshot_reads mesh gll, Ok utemp) /\
    (forall node, Read_snapshot var node ∉ snapshot_reads mesh gll) /\
    has_shape (ndumps mesh) (npol mesh + 1) (npol mesh + 1) 3 utemp /\
    component_zero c utemp /\
    (forall t ipol jpol c',
        t < ndumps mesh -> ipol < npol mesh + 1 -> jpol < npol mesh + 1 -> c' < 3 ->
        lookup4 utemp t jpol ipol c' = displacement_value mesh gll t ipol jpol c') /\
    forall strain_fct ti final_strain,
      strain_fct_map ext !! excitation_type mesh = Some strain_fct ->
      interpolate_strain ext (basis_xi mesh axis) (basis_eta mesh axis)
        (strain_of mesh cp et axis strain_fct utemp) xi eta = (ti, Ok final_strain) ->
      get_seismogram ext self source receiver "N"
      = (Call_kdtree_query 6 :: tf ++ snapshot_reads mesh gll ++ strain_call mesh axis
           :: ti ++ rotation_calls ext source receiver phi
           ++ [Call_azim_factor phi 2 1; Call_azim_factor phi 2 2],
         Ok (Some (voigt_contraction final_strain
                     (moment_in_mesh_frame ext mesh source receiver phi)
                     (fac_1 ext phi) (fac_2 ext phi)))).
Proof.
  intros Hq Hf Hg Ha Hd Hc Hnone Hgrid. cbn zeta.
  destruct (load_displacement_total (meshes_px self) gll Hgrid)
    as (utemp & Hload & [Hshape Hzero] & Hvalues).
  exists utemp. split; [done|]. split.
  { intros node Hin. apply snapshot_reads_stored in Hin as [[v Hv] _]. congruence. }
  split; [done|]. split; [by eapply Hzero|]. split; [done|].
  intros f ti fs Hm Hi. unfold get_seismogram.
  rewrite (get_seismogram_found_N _ _ _ _ _ _ _ _ Hq _ _ _ _ _ _ Hf _ _ Hg Ha). cbn zeta.
  by rewrite (runs_component_N _ _ _ _ _ _ _ _ _ _ _ _ _ _
                (run_seismogram ext load_displacement (meshes_px self) source receiver phi
                   cp et xi eta gll (negb (flag =? 0)%Z) _ utemp f ti fs Hd Hload Hm Hi)).
Qed.

(** The demonstration database stores "disp_s" and "disp_z" but not
    "disp_p": component 1 of the buffer of source A is zero, "disp_p" is not
    read, and the query returns its seismogram.  At time sample 1 and grid
    position (0, 2), node 11, the buffer holds disp_s = 12 and disp_z = 21. *)
Lemma absent_displacement_skipped_witness :
  exists utemp,
    load_displacement (meshes_px Demo.db) [[9; 10; 11]; [12; 13; 14]; [15; 16; 17]]
    = (snapshot_reads (meshes_px Demo.db) [[9; 10; 11]; [12; 13; 14]; [15; 16; 17]],
       Ok utemp) /\
    (forall node,
        Read_snapshot "disp_p" node
        ∉ snapshot_reads (meshes_px Demo.db) [[9; 10; 11]; [12; 13; 14]; [15; 16; 17]]) /\
    has_shape 2 3 3 3 utemp /\
    component_zero 1 utemp /\
    lookup4 utemp 1 2 0 0 = Some 12%float /\
    lookup4 utemp 1 2 0 1 = Some 0%float /\
    lookup4 utemp 1 2 0 2 = Some 21%float /\
    get_seismogram Demo.modules Demo.db Demo.source_A Demo.receiver "N"
    = (Demo.trace_A, Ok (Some Demo.seismogram_A)).
Proof.
  assert (query_point Demo.modules Demo.source_A Demo.receiver
          = (10062.5, 0.5, 9562.5)%float) as Hq by (vm_compute; reflexivity).
  assert (find_element Demo.modules (files_px_Mesh Demo.db) 10062.5 9562.5
            (kdtree (meshes_px Demo.db) 10062.5 9562.5 6)
          = ([Call_inside_element 1],
             Ok (1, Demo.rectangle 10000 9500 10250 9750, 0%Z, (-0.5)%float,
                 (-0.5)%float))) as Hf
    by (vm_compute; reflexivity).
  destruct (absent_displacement_skipped Demo.modules Demo.db Demo.source_A Demo.receiver
              _ _ _ _ _ _ _ _ _ [[9; 10; 11]; [12; 13; 14]; [15; 16; 17]] 0%Z 1 "disp_p"
              Hq Hf) as (utemp & Hload & Hreads & Hshape & Hzero & Hvalues & _).
  - reflexivity.
  - reflexivity.
  - vm_compute. reflexivity.
  - reflexivity.
  - vm_compute. reflexivity.
  - vm_compute. reflexivity.
  - exists utemp. split; [exact Hload|]. split; [exact Hreads|].
    split; [exact Hshape|]. split; [exact Hzero|].
    split; [rewrite Hvalues by (cbn; lia); vm_compute; reflexivity|].
    split; [rewrite Hvalues by (cbn; lia); vm_compute; reflexivity|].
    split; [rewrite Hvalues by (cbn; lia); vm_compute; reflexivity|].
    vm_compute. reflexivity.
Defined.

(** C9: the chunk-aligned value of [start_chunk] is overwritten before it is
    used.  The loader is equal, on every mesh and grid, to the loader
    without the first assignment, and so is the query; every read of the
    field store, in every run of the loader, is at a node id
    [gll_point_ids[ipol, jpol]] of the grid. *)
Theorem start_chunk_alignment_is_dead_code ext self source receiver component :
  get_seismogram ext self source receiver component
  = get_seismogram_with ext load_displacement_node_id self source receiver component /\
  (forall mesh gll_point_ids,
      load_displacement mesh gll_point_ids = load_displacement_node_id mesh gll_point_ids) /\
  (forall mesh gll_point_ids,
      Forall (fun ev => exists var node ipol jpol row,
                ev = Read_snapshot var node /\
                gll_point_ids !! ipol = Some row /\ row !! jpol = Some node)
        (load_displacement mesh gll_point_ids).1).
Proof.
  split; [|split].
  - unfold get_seismogram. apply get_seismogram_with_ext.
    apply load_displacement_node_id_eq.
  - apply load_displacement_node_id_eq.
  - intros mesh gll. eapply Forall_impl; [apply load_displacement_emits|].
    intros ev (var & node & ipol & jpol & row & -> & _ & Hrow & Hnode).
    by exists var, node, ipol, jpol, row.
Qed.

(** ** The cached [info] property *)

Lemma mangled_cached_info :
  BaseInstaseisDB.mangle "BaseInstaseisDB" "__cached_info" = "_BaseInstaseisDB__cached_info".
Proof. reflexivity. Qed.

(** The test of line 136 looks for the attribute "__cached_info"; the
    assignment of line 137 sets "_BaseInstaseisDB__cached_info".  An access
    on an instance without the former calls [get_info()], returns what this
    call returned, and leaves the instance without the former. *)
Lemma info_uncached {Info} (get_info : nat -> Info) (self : BaseInstaseisDB.instance) :
  BaseInstaseisDB.attributes self !! "__cached_info" = None ->
  BaseInstaseisDB.info get_info self
  = ({| BaseInstaseisDB.attributes :=
          <["_BaseInstaseisDB__cached_info" :=
              get_info (BaseInstaseisDB.get_info_calls self)]>
            (BaseInstaseisDB.attributes self);
        BaseInstaseisDB.get_info_calls := S (BaseInstaseisDB.get_info_calls self) |},
     Ok (get_info (BaseInstaseisDB.get_info_calls self))).
Proof.
  intros Hnone. unfold BaseInstaseisDB.info, BaseInstaseisDB.hasattr.
  rewrite bool_decide_eq_false_2 by (rewrite Hnone; by intros [? ?]).
  cbn [negb BaseInstaseisDB.call_get_info BaseInstaseisDB.setattr
         BaseInstaseisDB.attributes].
  rewrite mangled_cached_info. by rewrite lookup_insert_eq.
Qed.

(** C8: the specification says that [get_info()] runs at most once per
    database object.  In the code the cache is never hit: [n] accesses of the
    property on an instance without an attribute "__cached_info" call
    [get_info()] [n] times, and access number [k] returns the result of call
    number [k], not the value of the first access. *)
Theorem info_recomputed_on_every_access {Info} (get_info : nat -> Info) n
    (self : BaseInstaseisDB.instance) :
  BaseInstaseisDB.attributes self !! "__cached_info" = None ->
  let calls := BaseInstaseisDB.get_info_calls self in
  BaseInstaseisDB.get_info_calls (BaseInstaseisDB.access get_info n self).1 = calls + n /\
  (BaseInstaseisDB.access get_info n self).2
  = (fun k => Ok (get_info (calls + k))) <$> seq 0 n.
Proof.
  cbn zeta. revert self. induction n as [|n IH]; intros self Hnone.
  - cbn. split; [lia|done].
  - cbn [BaseInstaseisDB.access]. rewrite (info_uncached _ _ Hnone).
    match goal with |- context [BaseInstaseisDB.access get_info n ?s] =>
      specialize (IH s) end.
    destruct IH as [IH1 IH2].
    { cbn. rewrite lookup_insert_ne; done. }
    destruct (BaseInstaseisDB.access get_info n _) as [self' rs]. cbn in IH1, IH2 |- *.
    split; [lia|]. rewrite Nat.add_0_r. f_equal.
    rewrite IH2, <- fmap_S_seq, <- list_fmap_compose.
    apply list_fmap_ext. intros _ k _. cbn. do 2 f_equal. lia.
Qed.

(** A new instance whose [get_info()] returns the number of the call: three
    accesses call it three times and return 0, 1 and 2. *)
Lemma info_recomputed_on_every_access_witness :
  BaseInstaseisDB.get_info_calls
    (BaseInstaseisDB.access (fun k => k) 3 BaseInstaseisDB.new).1 = 3 /\
  (BaseInstaseisDB.access (fun k => k) 3 BaseInstaseisDB.new).2 = [Ok 0; Ok 1; Ok 2].
Proof.
  apply (info_recomputed_on_every_access (fun k => k) 3 BaseInstaseisDB.new).
  reflexivity.
Defined.


(** * Further properties of the code *)

(** ** The outcomes of the element search *)

(** A candidate that is not an element of the mesh ends the search. *)
Lemma find_element_invalid ext mesh s z idx rest :
  element_geometry mesh idx = None ->
  find_element ext mesh s z (idx :: rest) = ([], Raise IndexError).
Proof.
  intros Hg. cbn [find_element]. unfold element_geometry in Hg. unfold index at 1.
  destruct (var_fem_mesh mesh !! idx) as [row|]; [|done]. cbn in Hg |- *.
  unfold index at 1.
  destruct (var_eltype mesh !! idx) as [et'|]; [|done]. cbn in Hg |- *.
  rewrite traverse_corner_points.
  destruct (mapM _ (take 4 row)) as [cps|]; done.
Qed.

Lemma rejects_inside ext mesh s z idx cp et xi eta :
  element_geometry mesh idx = Some (cp, et) ->
  inside_element ext s z cp et tolerance = (false, xi, eta) ->
  rejects ext mesh s z idx = true.
Proof. intros Hg Hin. unfold rejects, locate. rewrite Hg. cbn. by rewrite Hin. Qed.

(** X1: whatever the candidates are, an element that the search of
    [get_seismogram] returns is one of them, it is an element of the mesh
    that the inverse mapping accepted with the reference coordinates that
    are returned, every candidate before it is an element of the mesh that
    the mapping rejected, and the mapping was called on these candidates, in
    their order, and on no candidate after it. *)
Theorem search_returns_first_accepted ext mesh s z nextpoints tr idx cp et xi eta :
  find_element ext mesh s z nextpoints = (tr, Ok (idx, cp, et, xi, eta)) ->
  exists before after,
    nextpoints = before ++ idx :: after /\
    Forall (fun c => rejects ext mesh s z c = true) before /\
    element_geometry mesh idx = Some (cp, et) /\
    inside_element ext s z cp et tolerance = (true, xi, eta) /\
    tr = Call_inside_element <$> (before ++ [idx]).
Proof.
  revert tr. induction nextpoints as [|c rest IH]; intros tr; [done|].
  destruct (element_geometry mesh c) as [[cp' et']|] eqn:Hg.
  - rewrite (find_element_cons _ _ _ _ _ _ _ _ Hg).
    destruct (inside_element ext s z cp' et' tolerance) as [[isin xi'] eta'] eqn:Hin.
    destruct isin.
    + intros [= <- <- <- <- <- <-]. by exists [], rest.
    + destruct (find_element ext mesh s z rest) as [t r] eqn:Hf. cbn.
      intros [= <- ->].
      destruct (IH _ eq_refl) as (before & after & -> & Hb & Hg' & Hin' & ->).
      exists (c :: before), after. repeat split; try done.
      constructor; [by eapply rejects_inside|done].
  - by rewrite find_element_invalid.
Qed.

(** In the demonstration mesh, the search at the point of source B returns
    element 2 after elements 1 and 5. *)
Lemma search_returns_first_accepted_witness :
  exists before after,
    Demo.nearest Demo.mesh_group 10062.5 9437.5 6 = before ++ 2 :: after /\
    Forall (fun c => rejects Demo.modules Demo.mesh_group 10062.5 9437.5 c = true) before /\
    element_geometry Demo.mesh_group 2 = Some (Demo.rectangle 10000 9250 10250 9500, 0%Z) /\
    inside_element Demo.modules 10062.5 9437.5 (Demo.rectangle 10000 9250 10250 9500) 0
      tolerance = (true, (-0.5)%float, 0.5%float) /\
    [Call_inside_element 1; Call_inside_element 5; Call_inside_element 2]
    = Call_inside_element <$> (before ++ [2]).
Proof.
  apply (search_returns_first_accepted Demo.modules Demo.mesh_group 10062.5 9437.5
           (Demo.nearest Demo.mesh_group 10062.5 9437.5 6)).
  vm_compute. reflexivity.
Defined.

(** X2: the element search fails in two ways only.  It raises the
    ValueError "Element not found" when every candidate is an element of the
    mesh that the inverse mapping rejected, after the mapping was called on
    all of them.  It raises IndexError at the first candidate that is not an
    element of the mesh (an index past the connectivity, the element types
    or the coordinates), when the candidates before it were rejected: the
    candidates after it are not tested. *)
Theorem search_fails_not_found_or_index ext mesh s z nextpoints tr e :
  find_element ext mesh s z nextpoints = (tr, Raise e) ->
  (e = ValueError "Element not found" /\
   Forall (fun c => rejects ext mesh s z c = true) nextpoints /\
   tr = Call_inside_element <$> nextpoints) \/
  (e = IndexError /\
   exists before idx after,
     nextpoints = before ++ idx :: after /\
     Forall (fun c => rejects ext mesh s z c = true) before /\
     element_geometry mesh idx = None /\
     tr = Call_inside_element <$> before).
Proof.
  revert tr. induction nextpoints as [|c rest IH]; intros tr.
  { intros [= <- <-]. left. by repeat split. }
  destruct (element_geometry mesh c) as [[cp' et']|] eqn:Hg.
  - rewrite (find_element_cons _ _ _ _ _ _ _ _ Hg).
    destruct (inside_element ext s z cp' et' tolerance) as [[isin xi'] eta'] eqn:Hin.
    destruct isin; [done|].
    destruct (find_element ext mesh s z rest) as [t r] eqn:Hf. cbn.
    intros [= <- ->].
    assert (rejects ext mesh s z c = true) as Hc by (by eapply rejects_inside).
    destruct (IH _ eq_refl) as [(-> & Hall & ->)|(-> & before & idx & after & -> & Hb & Hn & ->)].
    + left. split; [done|]. split; [by constructor|done].
    + right. split; [done|]. exists (c :: before), idx, after.
      split; [done|]. split; [by constructor|done].
  - rewrite find_element_invalid by done. intros [= <- <-].
    right. split; [done|]. by exists [], c, rest.
Qed.

(** The demonstration mesh has the elements 0 to 6.  With the candidates 1,
    7 and 2 at the point of source B, which lies in element 2, the search
    tests element 1 and raises IndexError at the candidate 7. *)
Lemma search_fails_not_found_or_index_witness :
  find_element Demo.modules Demo.mesh_group 10062.5 9437.5 [1; 7; 2]
  = ([Call_inside_element 1], Raise IndexError) /\
  rejects Demo.modules Demo.mesh_group 10062.5 9437.5 2 = false /\
  exists before idx after,
    [1; 7; 2] = before ++ idx :: after /\
    Forall (fun c => rejects Demo.modules Demo.mesh_group 10062.5 9437.5 c = true) before /\
    element_geometry Demo.mesh_group idx = None /\
    [Call_inside_element 1] = Call_inside_element <$> before.
Proof.
  assert (find_element Demo.modules Demo.mesh_group 10062.5 9437.5 [1; 7; 2]
          = ([Call_inside_element 1], Raise IndexError)) as Hf by (vm_compute; reflexivity).
  split; [exact Hf|]. split; [vm_compute; reflexivity|].
  destruct (search_fails_not_found_or_index _ _ _ _ _ _ _ Hf) as [[He _]|[_ H]].
  - discriminate He.
  - exact H.
Defined.

(** ** The excitation type and the reads of the field store *)

(** The strain functions are those of "monopole", "dipole" and "quadpole". *)
Lemma strain_fct_map_Some ext exc :
  is_Some (strain_fct_map ext !! exc) <-> exc ∈ ["monopole"; "dipole"; "quadpole"].
Proof.
  unfold strain_fct_map. rewrite !elem_of_cons, elem_of_nil.
  destruct (decide (exc = "monopole")) as [->|H1].
  { rewrite lookup_insert_eq. split; [by left|by eexists]. }
  rewrite lookup_insert_ne by done.
  destruct (decide (exc = "dipole")) as [->|H2].
  { rewrite lookup_insert_eq. split; [by right; left|by eexists]. }
  rewrite lookup_insert_ne by done.
  destruct (decide (exc = "quadpole")) as [->|H3].
  { rewrite lookup_singleton_eq. split; [by right; right; left|by eexists]. }
  rewrite lookup_singleton_ne by done.
  split; [by intros [? ?]|]. by intros [?|[?|[?|[]]]].
Qed.

Lemma length_bind_const {A B} (f : A -> list B) (l : list A) k :
  (forall x, x ∈ l -> length (f x) = k) -> length (l ≫= f) = length l * k.
Proof.
  induction l as [|x l IH]; intros H; [done|].
  cbn. rewrite length_app, IH, H; [lia|apply elem_of_cons; by left|].
  intros y Hy. apply H, elem_of_cons. by right.
Qed.

Lemma reads_of_node_length mesh node :
  length (reads_of_node mesh node) = length (stored_variables mesh).
Proof.
  unfold reads_of_node, stored_variables. cbn.
  by destruct (Snapshots mesh !! "disp_s"), (Snapshots mesh !! "disp_p"),
    (Snapshots mesh !! "disp_z").
Qed.

(** On a well-formed grid the loader reads every stored variable once for
    every node of the grid. *)
Lemma snapshot_reads_length mesh gll :
  grid_ok mesh gll = true ->
  length (snapshot_reads mesh gll)
  = (npol mesh + 1) * (npol mesh + 1) * length (stored_variables mesh).
Proof.
  intros Hgrid. unfold grid_ok in Hgrid. rewrite forallb_forall in Hgrid.
  unfold snapshot_reads.
  rewrite (length_bind_const _ _ ((npol mesh + 1) * length (stored_variables mesh))).
  { unfold xrange. rewrite length_seq. lia. }
  intros ipol Hipol. apply list_elem_of_In, Hgrid in Hipol.
  rewrite forallb_forall in Hipol.
  rewrite (length_bind_const _ _ (length (stored_variables mesh))).
  { unfold xrange. by rewrite length_seq. }
  intros jpol Hjpol. apply list_elem_of_In, Hipol in Hjpol.
  destruct (gll !! ipol ≫= (.!! jpol)) as [node|]; [|done].
  apply reads_of_node_length.
Qed.

Lemma snapshot_reads_are_reads mesh gll tl o :
  load_displacement mesh gll = (tl, o) -> Forall (fun ev => is_read ev = true) tl.
Proof.
  intros Hl. pose proof (load_displacement_emits mesh gll) as He.
  unfold emits in He. rewrite Hl in He. eapply Forall_impl; [exact He|].
  by intros ev (? & ? & ? & ? & ? & -> & _).
Qed.

(** X3: a database whose excitation type is none of "monopole", "dipole"
    and "quadpole" is rejected late.  When the element is located, the dump
    type is supported and the grid of the element is well formed, the query
    for component "N" first reads the displacement of all nodes of the grid
    from the field store and then raises KeyError with the excitation type;
    it derives no strain, interpolates and rotates nothing. *)
Theorem unknown_excitation_type_after_loading ext self source receiver s phi z
    tf id_elem cp et xi eta gll flag :
  query_point ext source receiver = (s, phi, z) ->
  find_element ext (files_px_Mesh self) s z (kdtree (meshes_px self) s z 6)
  = (tf, Ok (id_elem, cp, et, xi, eta)) ->
  var_sem_mesh (files_px_Mesh self) !! id_elem = Some gll ->
  var_axis (files_px_Mesh self) !! id_elem = Some flag ->
  strip (dump_type (meshes_px self)) = "displ_only" ->
  grid_ok (meshes_px self) gll = true ->
  excitation_type (meshes_px self) ∉ ["monopole"; "dipole"; "quadpole"] ->
  get_seismogram ext self source receiver "N"
  = (Call_kdtree_query 6 :: tf ++ snapshot_reads (meshes_px self) gll,
     Raise (KeyError (excitation_type (meshes_px self)))).
Proof.
  intros Hq Hf Hg Ha Hd Hgrid Hexc. unfold get_seismogram.
  rewrite (get_seismogram_found_N _ _ _ _ _ _ _ _ Hq _ _ _ _ _ _ Hf _ _ Hg Ha). cbn zeta.
  destruct (load_displacement_total (meshes_px self) gll Hgrid) as (utemp & Hload & _).
  assert (strain_fct_map ext !! excitation_type (meshes_px self) = None) as Hm.
  { apply eq_None_not_Some. by rewrite strain_fct_map_Some. }
  by rewrite (runs_component_N _ _ _ _ _ _ _ _ _ _ _ _ _ _
                (run_unknown_excitation ext load_displacement (meshes_px self) source
                   receiver phi cp et xi eta gll (negb (flag =? 0)%Z) _ utemp Hd Hload Hm)).
Qed.

(** The demonstration database with the excitation type "octopole": the
    query at source A reads the two stored variables at the nine nodes of
    element 1 and raises KeyError. *)
Lemma unknown_excitation_type_after_loading_witness :
  get_seismogram Demo.modules (Demo.db_with "displ_only" "octopole") Demo.source_A
    Demo.receiver "N"
  = (Call_kdtree_query 6 :: [Call_inside_element 1]
       ++ snapshot_reads (Demo.mesh_with "displ_only" "octopole")
            [[9; 10; 11]; [12; 13; 14]; [15; 16; 17]],
     Raise (KeyError "octopole")).
Proof.
  apply (unknown_excitation_type_after_loading Demo.modules
           (Demo.db_with "displ_only" "octopole") Demo.source_A Demo.receiver
           10062.5 0.5 9562.5 [Call_inside_element 1] 1
           (Demo.rectangle 10000 9500 10250 9750) 0%Z (-0.5) (-0.5)
           [[9; 10; 11]; [12; 13; 14]; [15; 16; 17]] 0%Z).
  - vm_compute. reflexivity.
  - vm_compute. reflexivity.
  - reflexivity.
  - reflexivity.
  - vm_compute. reflexivity.
  - vm_compute. reflexivity.
  - intros H. rewrite !elem_of_cons, elem_of_nil in H.
    destruct H as [H|[H|[H|[]]]]; discriminate H.
Defined.

(** X4: the reads of a query.  When the element is located, the dump type
    is supported and the grid of the element is well formed, a query for
    component "N" reads the field store at the nodes of the grid of this
    element and nowhere else, whether it goes on to return a seismogram or
    fails later: (npol+1)^2 times the number of displacement variables that
    are stored. *)
Theorem reads_of_a_query ext self source receiver s phi z
    tf id_elem cp et xi eta gll flag tr r :
  query_point ext source receiver = (s, phi, z) ->
  find_element ext (files_px_Mesh self) s z (kdtree (meshes_px self) s z 6)
  = (tf, Ok (id_elem, cp, et, xi, eta)) ->
  var_sem_mesh (files_px_Mesh self) !! id_elem = Some gll ->
  var_axis (files_px_Mesh self) !! id_elem = Some flag ->
  strip (dump_type (meshes_px self)) = "displ_only" ->
  grid_ok (meshes_px self) gll = true ->
  get_seismogram ext self source receiver "N" = (tr, r) ->
  List.filter is_read tr = snapshot_reads (meshes_px self) gll /\
  length (List.filter is_read tr)
  = (npol (meshes_px self) + 1) * (npol (meshes_px self) + 1)
    * length (stored_variables (meshes_px self)).
Proof.
  intros Hq Hf Hg Ha Hd Hgrid Hrun.
  cut (List.filter is_read tr = snapshot_reads (meshes_px self) gll).
  { intros ->. split; [done|]. by apply snapshot_reads_length. }
  unfold get_seismogram in Hrun.
  rewrite (get_seismogram_found_N _ _ _ _ _ _ _ _ Hq _ _ _ _ _ _ Hf _ _ Hg Ha) in Hrun.
  cbn zeta in Hrun.
  destruct (component_N ext load_displacement (meshes_px self) source receiver phi cp et
              xi eta gll (negb (flag =? 0)%Z)) as [tn rn] eqn:Hn.
  cbn [fst snd] in Hrun. injection Hrun as <- <-.
  destruct (load_displacement_total (meshes_px self) gll Hgrid) as (utemp & Hload & _).
  pose proof (snapshot_reads_are_reads _ _ _ _ Hload) as Hreads.
  pose proof (find_element_emits ext (files_px_Mesh self) s z
                (kdtree (meshes_px self) s z 6)) as Hsearch.
  unfold emits in Hsearch. rewrite Hf in Hsearch. cbn [fst] in Hsearch.
  assert (List.filter is_read tf = []) as Htf.
  { apply filter_none. eapply Forall_impl; [exact Hsearch|]. by intros []. }
  cbn [List.filter is_read]. rewrite List.filter_app, Htf. cbn [app].
  apply component_N_runs in Hn.
  inversion Hn as [Hd'|tl e _ Hl|tl u _ Hl Hm|tl u f ti e _ Hl Hm Hi
                  |tl u f ti fs _ Hl Hm Hi]; subst.
  - done.
  - rewrite Hload in Hl. discriminate Hl.
  - rewrite Hload in Hl. injection Hl as <- <-. by apply filter_all.
  - rewrite Hload in Hl. injection Hl as <- <-.
    apply interpolate_strain_trace in Hi as (k & _ & -> & _).
    rewrite List.filter_app, (filter_all _ _ Hreads). cbn [List.filter is_read strain_call].
    rewrite filter_none, app_nil_r; [done|].
    apply Forall_fmap, Forall_forall. by intros.
  - rewrite Hload in Hl. injection Hl as <- <-.
    apply interpolate_strain_trace in Hi as (k & _ & -> & _).
    rewrite List.filter_app, (filter_all _ _ Hreads). cbn [List.filter is_read strain_call].
    rewrite !List.filter_app, (filter_none _ (_ <$> _)).
    + cbn. by rewrite app_nil_r.
    + apply Forall_fmap, Forall_forall. by intros.
Qed.

(** The query at source A of the demonstration database, whose elements
    have 3 x 3 nodes and whose field store holds two variables: 18 reads. *)
Lemma reads_of_a_query_witness :
  List.filter is_read Demo.trace_A
  = snapshot_reads (meshes_px Demo.db) [[9; 10; 11]; [12; 13; 14]; [15; 16; 17]] /\
  length (List.filter is_read Demo.trace_A) = 18.
Proof.
  apply (reads_of_a_query Demo.modules Demo.db Demo.source_A Demo.receiver
           10062.5 0.5 9562.5 [Call_inside_element 1] 1
           (Demo.rectangle 10000 9500 10250 9750) 0%Z (-0.5) (-0.5)
           [[9; 10; 11]; [12; 13; 14]; [15; 16; 17]] 0%Z Demo.trace_A
           (Ok (Some Demo.seismogram_A))).
  - vm_compute. reflexivity.
  - vm_compute. reflexivity.
  - reflexivity.
  - reflexivity.
  - vm_compute. reflexivity.
  - vm_compute. reflexivity.
  - vm_compute. reflexivity.
Defined.

(** ** The interpolated strain and the outcomes of a query *)



(** X6: the outcomes of a query.  [get_seismogram] raises, or it returns
    [None], and then the component is not "N", or it returns a seismogram,
    and then the component is "N", the dump type is "displ_only" up to
    surrounding white space, the excitation type is one of "monopole",
    "dipole" and "quadpole", and the seismogram has one value for each row
    of the strain that was interpolated at the point of the query. *)
Theorem outcomes_of_a_query ext self source receiver component s phi z tr r :
  query_point ext source receiver = (s, phi, z) ->
  get_seismogram ext self source receiver component = (tr, r) ->
  (exists e, r = Raise e) \/
  (r = Ok None /\ component <> "N") \/
  (exists final final_strain,
     r = Ok (Some final) /\ component = "N" /\
     strip (dump_type (meshes_px self)) = "displ_only" /\
     excitation_type (meshes_px self) ∈ ["monopole"; "dipole"; "quadpole"] /\
     interpolated_strain ext self s z final_strain /\
     length final = length final_strain).
Proof.
  intros Hq Hrun. destruct r as [[final|]|e]; [| |left; eauto].
  - right. right.
    destruct (get_seismogram_Some _ _ _ _ _ _ _ _ _ _ Hq Hrun) as (-> & Hd & _ & fs & Hfs & ->).
    eexists _, fs. repeat (split; [done|]). split; [|split; [done|]].
    + destruct Hfs as (? & ? & ? & ? & ? & ? & ? & ? & ? & ? & f & ? & _ & _ & _ & _ & Hm & _).
      apply (strain_fct_map_Some ext). by exists f.
    + apply voigt_contraction_length.
  - right. left. split; [done|]. intros ->.
    by destruct (get_seismogram_N_outcome _ _ _ _ _ _ _ _ _ Hq Hrun) as [[? ?]|[? ?]].
Qed.

(** The query for component "N" at source A of the demonstration database:
    the two values of the seismogram stand for the two rows of the
    interpolated strain. *)
Lemma outcomes_of_a_query_witness :
  exists final_strain,
    interpolated_strain Demo.modules Demo.db 10062.5 9562.5 final_strain /\
    length Demo.seismogram_A = length final_strain /\ length final_strain = 2.
Proof.
  assert (get_seismogram Demo.modules Demo.db Demo.source_A Demo.receiver "N"
          = (Demo.trace_A, Ok (Some Demo.seismogram_A))) as Hrun
    by (vm_compute; reflexivity).
  destruct (outcomes_of_a_query Demo.modules Demo.db Demo.source_A Demo.receiver "N"
              10062.5 0.5 9562.5 _ _ ltac:(vm_compute; reflexivity) Hrun)
    as [[e He]|[[He _]|(final & fs & He & _ & _ & _ & Hfs & Hlen)]];
    [discriminate He|discriminate He|].
  injection He as <-. exists fs. split; [exact Hfs|]. split; [exact Hlen|].
  rewrite <- Hlen. reflexivity.
Defined.

(** ** Opening and closing the files *)

Lemma insert_px_pz {V} (a b : V) :
  <["pz" := b]> (<["px" := a]> (∅ : gmap string V)) = {[ "px" := a; "pz" := b ]}.
Proof. rewrite insert_insert_ne by done. by rewrite insert_empty. Qed.

Section files_properties.
Context {Dataset MeshT : Type}.
Context (exists_ : string -> bool).
Context (netCDF4_Dataset : string -> outcome Dataset).
Context (mesh_Mesh : Dataset -> outcome MeshT).

Local Abbreviation init := (Files.__init__ exists_ netCDF4_Dataset mesh_Mesh).
Local Abbreviation new_object folder :=
  {| Files.folder := folder; Files.files := ∅; Files.meshes := (∅ : gmap string MeshT) |}.

(** The loop of [__del__] over items: every [close()] raises, and the
    error is dropped. *)
Lemma io_for_items (l : list (string * Dataset)) (self : @Files.object Dataset MeshT) :
  Files.io_for ((fun kv => Files.Item kv.1 kv.2) <$> l)
    (fun file_object => Files.try_pass (Files.close file_object)) self
  = (self, [], Ok tt).
Proof.
  induction l as [|kv l IH]; [done|].
  cbn [fmap list_fmap Files.io_for]. unfold Files.io_bind at 1.
  cbn [Files.close Files.try_pass Files.io_raise]. by rewrite IH.
Qed.

(** X7: the constructor checks the layout of the folder before it opens
    anything.  When one of the subfolders "PX" and "PZ" or one of the two
    files "Data/ordered_output.nc4" does not exist, [AxiSEMDB(folder)]
    raises ValueError, about the subfolders when one of them is missing and
    about the files otherwise; it has opened no file and built no mesh, and
    the dictionaries of the instance are empty. *)
Theorem layout_checked_before_opening folder :
  let px := Files.join folder ["PX"] in
  let pz := Files.join folder ["PZ"] in
  let px_file := Files.join px ["Data"; "ordered_output.nc4"] in
  let pz_file := Files.join pz ["Data"; "ordered_output.nc4"] in
  exists_ px && exists_ pz && exists_ px_file && exists_ pz_file = false ->
  init folder
  = (new_object folder, [],
     Raise (ValueError
       (if exists_ px && exists_ pz
        then "ordered_output.nc4 files must exist in the PZ/Data and PX/Data subfolders"
        else "Expecting the 'PX' and 'PZ' subfolders to be present."))).
Proof.
  cbv zeta. intros H. unfold Files.__init__, Files._find_and_open_files.
  cbn [Files.folder].
  destruct (exists_ (Files.join folder ["PX"])); [|done].
  destruct (exists_ (Files.join folder ["PZ"])); [|done].
  cbn [negb orb andb] in H |- *.
  destruct (exists_ (Files.join (Files.join folder ["PX"]) _)); [|done].
  destruct (exists_ (Files.join (Files.join folder ["PZ"]) _)); done.
Qed.

(** X8: on a folder with the two subfolders and the two files, the
    constructor opens the file of "PX" and then the file of "PZ", and then
    builds the mesh of the first and the mesh of the second.  When the four
    calls return, the instance holds the two datasets and the two meshes
    under the keys "px" and "pz", and nothing else. *)
Theorem constructor_opens_px_then_pz folder d_px d_pz m_px m_pz :
  let px_file := Files.join (Files.join folder ["PX"]) ["Data"; "ordered_output.nc4"] in
  let pz_file := Files.join (Files.join folder ["PZ"]) ["Data"; "ordered_output.nc4"] in
  exists_ (Files.join folder ["PX"]) = true ->
  exists_ (Files.join folder ["PZ"]) = true ->
  exists_ px_file = true ->
  exists_ pz_file = true ->
  netCDF4_Dataset px_file = Ok d_px ->
  netCDF4_Dataset pz_file = Ok d_pz ->
  mesh_Mesh d_px = Ok m_px ->
  mesh_Mesh d_pz = Ok m_pz ->
  init folder
  = ({| Files.folder := folder;
        Files.files := {[ "px" := d_px; "pz" := d_pz ]};
        Files.meshes := {[ "px" := m_px; "pz" := m_pz ]} |},
     [Files.Open_dataset px_file; Files.Open_dataset pz_file;
      Files.Build_mesh d_px; Files.Build_mesh d_pz],
     Ok tt).
Proof.
  cbv zeta. intros Hpx Hpz Hpxf Hpzf Hdx Hdz Hmx Hmz.
  unfold Files.__init__, Files._find_and_open_files. cbn [Files.folder].
  rewrite Hpx, Hpz, Hpxf, Hpzf. cbn [negb orb].
  unfold Files.io_bind, Files.open_dataset, Files.set_file, Files.get_file,
    Files.build_mesh, Files.set_mesh.
  rewrite Hdx, Hdz. cbn [Files.files Files.meshes Files.folder].
  rewrite lookup_insert_ne by done. rewrite lookup_insert_eq, Hmx.
  cbn [Files.files Files.meshes Files.folder].
  rewrite lookup_insert_eq, Hmz. cbn [Files.files Files.meshes Files.folder app].
  by rewrite !insert_px_pz.
Qed.

(** X9: [__del__] closes no file.  The loop binds [file_object] to the
    items of the dictionary, which are tuples of a key and a file object; on
    each of them [close()] raises AttributeError, which the bare [except]
    drops.  On every instance, whatever its files, [__del__] returns
    normally, changes no attribute and makes no call: the datasets that the
    constructor opened are not closed by it. *)
Theorem del_closes_no_file (self : @Files.object Dataset MeshT) :
  Files.__del__ self = (self, [], Ok tt).
Proof. unfold Files.__del__, Files.items. apply io_for_items. Qed.

(** The runs of the constructor on a folder with the expected layout. *)
Lemma init_good_layout folder :
  let px_file := Files.join (Files.join folder ["PX"]) ["Data"; "ordered_output.nc4"] in
  let pz_file := Files.join (Files.join folder ["PZ"]) ["Data"; "ordered_output.nc4"] in
  exists_ (Files.join folder ["PX"]) = true ->
  exists_ (Files.join folder ["PZ"]) = true ->
  exists_ px_file = true ->
  exists_ pz_file = true ->
  init folder
  = match netCDF4_Dataset px_file with
    | Raise e => (new_object folder, [Files.Open_dataset px_file], Raise e)
    | Ok d_px =>
        let files1 := <["px" := d_px]> (∅ : gmap string Dataset) in
        match netCDF4_Dataset pz_file with
        | Raise e =>
            ({| Files.folder := folder; Files.files := files1; Files.meshes := ∅ |},
             [Files.Open_dataset px_file; Files.Open_dataset pz_file], Raise e)
        | Ok d_pz =>
            let files2 := <["pz" := d_pz]> files1 in
            match mesh_Mesh d_px with
            | Raise e =>
                ({| Files.folder := folder; Files.files := files2; Files.meshes := ∅ |},
                 [Files.Open_dataset px_file; Files.Open_dataset pz_file;
                  Files.Build_mesh d_px], Raise e)
            | Ok m_px =>
                let meshes1 := <["px" := m_px]> (∅ : gmap string MeshT) in
                match mesh_Mesh d_pz with
                | Raise e =>
                    ({| Files.folder := folder; Files.files := files2;
                        Files.meshes := meshes1 |},
                     [Files.Open_dataset px_file; Files.Open_dataset pz_file;
                      Files.Build_mesh d_px; Files.Build_mesh d_pz], Raise e)
                | Ok m_pz =>
                    ({| Files.folder := folder; Files.files := files2;
                        Files.meshes := <["pz" := m_pz]> meshes1 |},
                     [Files.Open_dataset px_file; Files.Open_dataset pz_file;
                      Files.Build_mesh d_px; Files.Build_mesh d_pz], Ok tt)
                end
            end
        end
    end.
Proof.
  cbv zeta. intros Hpx Hpz Hpxf Hpzf.
  unfold Files.__init__, Files._find_and_open_files. cbn [Files.folder].
  rewrite Hpx, Hpz, Hpxf, Hpzf. cbn [negb orb].
  unfold Files.io_bind, Files.open_dataset, Files.set_file, Files.get_file,
    Files.build_mesh, Files.set_mesh.
  destruct (netCDF4_Dataset (Files.join (Files.join folder ["PX"]) _)) as [d_px|?]; [|done].
  destruct (netCDF4_Dataset (Files.join (Files.join folder ["PZ"]) _)) as [d_pz|?]; [|done].
  cbn [Files.files Files.meshes Files.folder].
  rewrite !(lookup_insert_ne _ "pz" "px") by done. rewrite !lookup_insert_eq.
  destruct (mesh_Mesh d_px) as [m_px|?]; [|done].
  cbn [Files.files Files.meshes Files.folder]. rewrite !lookup_insert_eq.
  by destruct (mesh_Mesh d_pz) as [m_pz|?].
Qed.

(** X10: a constructor that fails after it opened the file of "PX" leaves
    it open.  On a folder with the expected layout whose "PX" file opens,
    when the constructor raises (because the "PZ" file does not open, or
    because a mesh cannot be built), the dataset of "PX" is in the
    dictionary of the instance, no call of the constructor closes a file,
    and neither does [__del__] on this instance. *)
Theorem failed_constructor_leaves_px_open folder d_px self t e :
  let px_file := Files.join (Files.join folder ["PX"]) ["Data"; "ordered_output.nc4"] in
  let pz_file := Files.join (Files.join folder ["PZ"]) ["Data"; "ordered_output.nc4"] in
  exists_ (Files.join folder ["PX"]) = true ->
  exists_ (Files.join folder ["PZ"]) = true ->
  exists_ px_file = true ->
  exists_ pz_file = true ->
  netCDF4_Dataset px_file = Ok d_px ->
  init folder = (self, t, Raise e) ->
  Files.files self !! "px" = Some d_px /\
  (exists t', t = Files.Open_dataset px_file :: Files.Open_dataset pz_file :: t') /\
  Forall (fun c => Files.is_close c = false) t /\
  Files.__del__ self = (self, [], Ok tt).
Proof.
  cbv zeta. intros Hpx Hpz Hpxf Hpzf Hdx Hrun.
  rewrite (init_good_layout folder Hpx Hpz Hpxf Hpzf), Hdx in Hrun. cbv zeta in Hrun.
  split; [|split; [|split; [|unfold Files.__del__, Files.items; apply io_for_items]]].
  - destruct (netCDF4_Dataset (Files.join (Files.join folder ["PZ"]) _)) as [d_pz|?].
    2:{ injection Hrun as <- _ _. apply lookup_insert_eq. }
    assert (Files.files self = <["pz" := d_pz]> (<["px" := d_px]> ∅)) as ->.
    { destruct (mesh_Mesh d_px); [destruct (mesh_Mesh d_pz)|]; by injection Hrun as <- _ _. }
    rewrite lookup_insert_ne by done. apply lookup_insert_eq.
  - destruct (netCDF4_Dataset (Files.join (Files.join folder ["PZ"]) _)) as [d_pz|?];
      [destruct (mesh_Mesh d_px); [destruct (mesh_Mesh d_pz)|]|];
      injection Hrun as _ <- _; by eexists.
  - destruct (netCDF4_Dataset (Files.join (Files.join folder ["PZ"]) _)) as [d_pz|?];
      [destruct (mesh_Mesh d_px); [destruct (mesh_Mesh d_pz)|]|];
      injection Hrun as _ <- _; by repeat constructor.
Qed.

Lemma endswith_sep_app folder : Files.endswith_sep (folder +:+ "/") = true.
Proof.
  induction folder as [|c [|c' folder] IH]; [done|done|].
  exact IH.
Qed.

Lemma append_sep_assoc folder b : (folder +:+ "/") +:+ b = folder +:+ "/" +:+ b.
Proof. induction folder as [|c folder IH]; [done|]. exact (f_equal (String c) IH). Qed.

Lemma join2_trailing_sep folder b :
  folder <> EmptyString -> Files.endswith_sep folder = false ->
  Files.join2 (folder +:+ "/") b = Files.join2 folder b.
Proof.
  intros Hne Hend. unfold Files.join2. destruct (String.prefix "/" b); [done|].
  rewrite endswith_sep_app, Hend, orb_true_r.
  rewrite bool_decide_eq_false_2 by done. cbn [orb]. apply append_sep_assoc.
Qed.

(** X11: a separator at the end of the folder makes no difference.  For a
    folder name that is not empty and does not end with "/",
    [AxiSEMDB(folder + "/")] checks and opens the same paths as
    [AxiSEMDB(folder)], makes the same calls, ends in the same way and
    leaves the same files and meshes in the instance. *)
Theorem trailing_separator_is_immaterial folder :
  folder <> EmptyString -> Files.endswith_sep folder = false ->
  init (folder +:+ "/")
  = ({| Files.folder := folder +:+ "/";
        Files.files := Files.files (init folder).1.1;
        Files.meshes := Files.meshes (init folder).1.1 |},
     (init folder).1.2, (init folder).2).
Proof.
  intros Hne Hend.
  unfold Files.__init__, Files._find_and_open_files, Files.join. cbn [Files.folder foldl].
  rewrite !(join2_trailing_sep folder _ Hne Hend).
  destruct (exists_ (Files.join2 folder "PX")); [|done].
  destruct (exists_ (Files.join2 folder "PZ")); [|done]. cbn [negb orb].
  destruct (exists_ (Files.join2 (Files.join2 (Files.join2 folder "PX") _) _)); [|done].
  destruct (exists_ (Files.join2 (Files.join2 (Files.join2 folder "PZ") _) _)); [|done].
  cbn [negb orb].
  unfold Files.io_bind, Files.open_dataset, Files.set_file, Files.get_file,
    Files.build_mesh, Files.set_mesh.
  destruct (netCDF4_Dataset (Files.join2 (Files.join2 (Files.join2 folder "PX") _) _))
    as [d_px|?]; [|done].
  destruct (netCDF4_Dataset (Files.join2 (Files.join2 (Files.join2 folder "PZ") _) _))
    as [d_pz|?]; [|done].
  cbn [Files.files Files.meshes Files.folder].
  rewrite !(lookup_insert_ne _ "pz" "px") by done. rewrite !lookup_insert_eq.
  destruct (mesh_Mesh d_px) as [m_px|?]; [|done].
  cbn [Files.files Files.meshes Files.folder]. rewrite !lookup_insert_eq.
  by destruct (mesh_Mesh d_pz) as [m_pz|?].
Qed.
End files_properties.

(** The folder "db" with the two subfolders and the file of "PX" only. *)
Lemma layout_checked_before_opening_witness :
  Files.__init__
    (Files.demo_exists ["db/PX"; "db/PZ"; "db/PX/Data/ordered_output.nc4"])
    Files.demo_Dataset Files.demo_Mesh "db"
  = ({| Files.folder := "db"; Files.files := ∅; Files.meshes := ∅ |}, [],
     Raise (ValueError
       "ordered_output.nc4 files must exist in the PZ/Data and PX/Data subfolders")).
Proof.
  apply (layout_checked_before_opening
           (Files.demo_exists ["db/PX"; "db/PZ"; "db/PX/Data/ordered_output.nc4"])
           Files.demo_Dataset Files.demo_Mesh "db").
  vm_compute. reflexivity.
Defined.

(** The folder "db" with the two subfolders and the two files. *)
Lemma constructor_opens_px_then_pz_witness :
  Files.__init__ (Files.demo_exists Files.demo_paths) Files.demo_Dataset Files.demo_Mesh
    "db"
  = ({| Files.folder := "db";
        Files.files := {[ "px" := "db/PX/Data/ordered_output.nc4";
                          "pz" := "db/PZ/Data/ordered_output.nc4" ]};
        Files.meshes := {[ "px" := "Mesh of db/PX/Data/ordered_output.nc4";
                           "pz" := "Mesh of db/PZ/Data/ordered_output.nc4" ]} |},
     [Files.Open_dataset "db/PX/Data/ordered_output.nc4";
      Files.Open_dataset "db/PZ/Data/ordered_output.nc4";
      Files.Build_mesh "db/PX/Data/ordered_output.nc4";
      Files.Build_mesh "db/PZ/Data/ordered_output.nc4"],
     Ok tt).
Proof.
  apply (constructor_opens_px_then_pz (Files.demo_exists Files.demo_paths)
           Files.demo_Dataset Files.demo_Mesh "db");
    vm_compute; reflexivity.
Defined.

(** The folder "db" whose "PZ" file is not a dataset: the constructor raises
    after it opened the "PX" file. *)
Lemma failed_constructor_leaves_px_open_witness :
  exists self t,
    Files.__init__ (Files.demo_exists Files.demo_paths)
      (fun path => if String.prefix "db/PX" path then Ok path else Raise (KeyError path))
      Files.demo_Mesh "db"
    = (self, t, Raise (KeyError "db/PZ/Data/ordered_output.nc4")) /\
    Files.files self !! "px" = Some "db/PX/Data/ordered_output.nc4" /\
    Forall (fun c => Files.is_close c = false) t /\
    Files.__del__ self = (self, [], Ok tt).
Proof.
  destruct (Files.__init__ (Files.demo_exists Files.demo_paths)
              (fun path => if String.prefix "db/PX" path then Ok path
                           else Raise (KeyError path))
              Files.demo_Mesh "db") as [[self t] r] eqn:Hrun.
  assert (r = Raise (KeyError "db/PZ/Data/ordered_output.nc4")) as ->
    by (vm_compute in Hrun; by injection Hrun as _ _ <-).
  exists self, t. split; [reflexivity|].
  destruct (failed_constructor_leaves_px_open (Files.demo_exists Files.demo_paths)
              (fun path => if String.prefix "db/PX" path then Ok path
                           else Raise (KeyError path))
              Files.demo_Mesh "db" "db/PX/Data/ordered_output.nc4" self t _
              ltac:(vm_compute; reflexivity) ltac:(vm_compute; reflexivity)
              ltac:(vm_compute; reflexivity) ltac:(vm_compute; reflexivity)
              ltac:(vm_compute; reflexivity) Hrun) as (Hpx & _ & Hclose & Hdel).
  split; [exact Hpx|]. split; [exact Hclose|exact Hdel].
Defined.

(** The folders "db" and "db/". *)
Lemma trailing_separator_is_immaterial_witness :
  (Files.__init__ (Files.demo_exists Files.demo_paths) Files.demo_Dataset Files.demo_Mesh
     "db/").1.2
  = [Files.Open_dataset "db/PX/Data/ordered_output.nc4";
     Files.Open_dataset "db/PZ/Data/ordered_output.nc4";
     Files.Build_mesh "db/PX/Data/ordered_output.nc4";
     Files.Build_mesh "db/PZ/Data/ordered_output.nc4"].
Proof.
  change "db/"%string with ("db" +:+ "/").
  rewrite (trailing_separator_is_immaterial (Files.demo_exists Files.demo_paths)
             Files.demo_Dataset Files.demo_Mesh "db");
    [|discriminate|reflexivity].
  vm_compute. reflexivity.
Defined.


(** ** The sanity checks *)

Section sanity_checks_properties.
Context {Src Frc Rcv Raw Info : Type}.
Context (Source_parse : Raw -> outcome Src).
Context (Receiver_parse : Raw -> outcome (list Rcv)).
Context (source_depth_in_m : Src -> option float).
Context (force_depth_in_m : Frc -> option float).
Context (receiver_depth_in_m : Rcv -> option float).
Context (is_reciprocal : Info -> bool).
Context (get_info : nat -> Info).

Local Abbreviation checks :=
  (Checks._get_seismograms_sanity_checks Source_parse Receiver_parse source_depth_in_m
     force_depth_in_m receiver_depth_in_m is_reciprocal get_info).
Local Abbreviation parse_source := (Checks.parse_source (Frc := Frc) Source_parse).
Local Abbreviation parse_receiver := (Checks.parse_receiver Receiver_parse).

(** X12: a kind other than "displacement", "velocity" and "acceleration"
    never passes the checks.  Whatever the source and the receiver, the
    checks raise, without a warning and without evaluating [self.info], so
    that [get_info()] is not called; when source and receiver are accepted,
    the error is the ValueError "unknown kind" followed by the kind.  The
    comparison is exact: no case folding, no stripping. *)
Theorem unknown_kind_is_rejected self source receiver kind :
  kind ∉ Checks.kinds ->
  exists e,
    checks self source receiver kind = (self, [], Raise e) /\
    (forall s r,
        parse_source source = Ok s -> parse_receiver receiver = Ok r ->
        e = ValueError ("unknown kind " +:+ kind)).
Proof.
  intros Hkind. unfold Checks._get_seismograms_sanity_checks.
  destruct (parse_source source) as [s|e1]; [|by exists e1].
  destruct (parse_receiver receiver) as [r|e2]; [|by exists e2].
  rewrite bool_decide_eq_true_2 by done.
  eexists. split; [done|]. by intros ?? _ _.
Qed.

(** X13: a receiver argument that is not a [Receiver] must parse to exactly
    one station.  When [Receiver.parse] returns a list whose length is not
    1, the empty list included, the checks raise the ValueError about
    multiple stations, whatever the kind, valid or not, without a warning
    and without calling [get_info()]. *)
Theorem receiver_must_parse_to_one_station self source x rec kind s :
  parse_source source = Ok s ->
  Receiver_parse x = Ok rec ->
  length rec <> 1 ->
  checks self source (Checks.Other_receiver x) kind
  = (self, [], Raise (ValueError Checks.multiple_stations)).
Proof.
  intros Hs Hrec Hlen. unfold Checks._get_seismograms_sanity_checks.
  rewrite Hs. cbn [Checks.parse_receiver]. rewrite Hrec.
  by rewrite bool_decide_eq_true_2.
Qed.

(** X14: the depth warnings.  When source and receiver are accepted and
    the kind is valid, the checks return them, after one more call of
    [get_info()] whose result decides the warnings: on a reciprocal database
    the receiver depth warning, when the receiver has a depth, and never the
    source depth warning; on a forward database the source depth warning,
    when the source has a depth, and never the receiver depth warning; so at
    most one warning. *)
Theorem depth_warning_follows_database self source receiver kind s r :
  parse_source source = Ok s ->
  parse_receiver receiver = Ok r ->
  kind ∈ Checks.kinds ->
  BaseInstaseisDB.attributes self !! "__cached_info" = None ->
  let info := get_info (BaseInstaseisDB.get_info_calls self) in
  exists self' warnings,
    checks self source receiver kind = (self', warnings, Ok (s, r)) /\
    BaseInstaseisDB.get_info_calls self' = S (BaseInstaseisDB.get_info_calls self) /\
    (Checks.receiver_depth_warning ∈ warnings <->
     is_reciprocal info = true /\ is_Some (receiver_depth_in_m r)) /\
    (Checks.source_depth_warning ∈ warnings <->
     is_reciprocal info = false /\
     is_Some (Checks.depth_in_m source_depth_in_m force_depth_in_m s)) /\
    length warnings <= 1.
Proof.
  intros Hs Hr Hkind Hnone. cbv zeta.
  unfold Checks._get_seismograms_sanity_checks. rewrite Hs, Hr.
  rewrite bool_decide_eq_false_2 by (by intros ?).
  rewrite (info_uncached _ _ Hnone).
  eexists _, _. split; [done|]. split; [done|].
  destruct (is_reciprocal (get_info (BaseInstaseisDB.get_info_calls self)));
    [destruct (receiver_depth_in_m r) as [d|]
    |destruct (Checks.depth_in_m source_depth_in_m force_depth_in_m s) as [d|]];
    cbn [length]; rewrite ?list_elem_of_singleton, ?elem_of_nil;
    (split; [|split; [|lia]]); split; try done;
    try (by intros [? ?]); try (by intros [_ [? ?]]); try (by intros [? [? ?]]).
Qed.
End sanity_checks_properties.

(** The kind "Displacement", with a capital letter. *)
Lemma unknown_kind_is_rejected_witness :
  Checks.demo_checks true BaseInstaseisDB.new (Checks.Is_Source (Some 1%float))
    (Checks.Is_Receiver None) "Displacement"
  = (BaseInstaseisDB.new, [], Raise (ValueError "unknown kind Displacement")).
Proof.
  destruct (unknown_kind_is_rejected Checks.demo_Source_parse Checks.demo_Receiver_parse
              (fun d => d) (fun d => d) (fun d => d) (fun info : bool => info)
              (fun _ => true) BaseInstaseisDB.new (Checks.Is_Source (Some 1%float))
              (Checks.Is_Receiver None) "Displacement"
              ltac:(intros H; unfold Checks.kinds in H; rewrite !elem_of_cons, elem_of_nil in H;
                    destruct H as [H|[H|[H|[]]]]; discriminate H))
    as (e & Hrun & He).
  rewrite (He _ _ eq_refl eq_refl) in Hrun. exact Hrun.
Defined.

(** A receiver file without a station, and a source that is parsed. *)
Lemma receiver_must_parse_to_one_station_witness :
  Checks.demo_checks true BaseInstaseisDB.new (Checks.Other_source [Some 1%float])
    (Checks.Other_receiver []) "velocity"
  = (BaseInstaseisDB.new, [], Raise (ValueError Checks.multiple_stations)).
Proof.
  apply (receiver_must_parse_to_one_station Checks.demo_Source_parse
           Checks.demo_Receiver_parse (fun d => d) (fun d => d) (fun d => d)
           (fun info : bool => info) (fun _ => true) BaseInstaseisDB.new
           (Checks.Other_source [Some 1%float]) [] [] "velocity" (inl (Some 1%float))).
  - reflexivity.
  - reflexivity.
  - cbn. lia.
Defined.

(** A source and a receiver that both have a depth, on a reciprocal
    database: the receiver depth warning only. *)
Lemma depth_warning_follows_database_witness :
  exists self' warnings,
    Checks.demo_checks true BaseInstaseisDB.new (Checks.Is_Source (Some 10%float))
      (Checks.Is_Receiver (Some 5%float)) "velocity"
    = (self', warnings, Ok (inl (Some 10%float), Some 5%float)) /\
    BaseInstaseisDB.get_info_calls self' = 1 /\
    (Checks.receiver_depth_warning ∈ warnings) /\
    (Checks.source_depth_warning ∉ warnings).
Proof.
  destruct (depth_warning_follows_database Checks.demo_Source_parse
              Checks.demo_Receiver_parse (fun d => d) (fun d => d) (fun d => d)
              (fun info : bool => info) (fun _ => true) BaseInstaseisDB.new
              (Checks.Is_Source (Some 10%float)) (Checks.Is_Receiver (Some 5%float))
              "velocity" (inl (Some 10%float)) (Some 5%float) eq_refl eq_refl
              ltac:(unfold Checks.kinds; apply elem_of_cons; right; apply elem_of_cons; by left)
              eq_refl)
    as (self' & warnings & Hrun & Hcalls & Hrw & Hsw & _).
  exists self', warnings. split; [exact Hrun|]. split; [exact Hcalls|]. split.
  - apply Hrw. split; [reflexivity|]. by eexists.
  - intros H. apply Hsw in H as [H _]. discriminate H.
Defined.


(** ** The band code *)

(** The order of binary64 values, as the comparison of their sign,
    exponent and mantissa, is transitive. *)
Ltac sf_compare :=
  repeat match goal with
  | |- context [Z.compare ?a ?b] => destruct (Z.compare_spec a b)
  | H : context [Z.compare ?a ?b] |- _ => destruct (Z.compare_spec a b)
  | |- context [Pos.compare ?a ?b] => destruct (Pos.compare_spec a b)
  | H : context [Pos.compare ?a ?b] |- _ => destruct (Pos.compare_spec a b)
  end.

Lemma SFleb_trans a b c : SFleb a b = true -> SFleb b c = true -> SFleb a c = true.
Proof.
  unfold SFleb, SFcompare.
  change (PosDef.Pos.compare_cont Eq) with Pos.compare.
  destruct a as [sa|sa| |sa ma ea], b as [sb|sb| |sb mb eb], c as [sc|sc| |sc mc ec];
    try done;
    repeat match goal with s : bool |- _ => destruct s end; try done;
    sf_compare; cbn; try done; try lia.
Qed.

Lemma SFleb_ltb_trans a b c : SFleb a b = true -> SFltb b c = true -> SFltb a c = true.
Proof.
  unfold SFleb, SFltb, SFcompare.
  change (PosDef.Pos.compare_cont Eq) with Pos.compare.
  destruct a as [sa|sa| |sa ma ea], b as [sb|sb| |sb mb eb], c as [sc|sc| |sc mc ec];
    try done;
    repeat match goal with s : bool |- _ => destruct s end; try done;
    sf_compare; cbn; try done; try lia.
Qed.

Lemma leb_trans (a b c : float) :
  (a <=? b)%float = true -> (b <=? c)%float = true -> (a <=? c)%float = true.
Proof. rewrite !leb_spec. apply SFleb_trans. Qed.

Lemma leb_ltb_trans (a b c : float) :
  (a <=? b)%float = true -> (b <? c)%float = true -> (a <? c)%float = true.
Proof. rewrite !leb_spec, !ltb_spec. apply SFleb_ltb_trans. Qed.

(** The band code of a sampling rate does not go back in the order F, C,
    H, B, M, L when the sampling rate grows. *)
Lemma of_sampling_rate_monotone (sr1 sr2 : float) :
  (sr1 <=? sr2)%float = true ->
  Band.rank (Band.of_sampling_rate sr1) <= Band.rank (Band.of_sampling_rate sr2).
Proof.
  intros H. unfold Band.of_sampling_rate.
  repeat match goal with
  | |- context [(sr2 <=? ?t)%float] =>
      let Hc := fresh in
      destruct (sr2 <=? t)%float eqn:Hc;
      [rewrite ?(leb_trans _ _ _ H Hc)|clear Hc]
  | |- context [(sr2 <? ?t)%float] =>
      let Hc := fresh in
      destruct (sr2 <? t)%float eqn:Hc;
      [rewrite ?(leb_ltb_trans _ _ _ H Hc)|clear Hc]
  end;
  repeat match goal with
  | |- context [(sr1 <=? ?t)%float] => destruct (sr1 <=? t)%float
  | |- context [(sr1 <? ?t)%float] => destruct (sr1 <? t)%float
  end; vm_compute; lia.
Qed.

Lemma of_sampling_rate_codes sr :
  Band.of_sampling_rate sr ∈ ["F"; "C"; "H"; "B"; "M"; "L"].
Proof.
  unfold Band.of_sampling_rate.
  repeat match goal with
  | |- context [(sr <=? ?t)%float] => destruct (sr <=? t)%float
  | |- context [(sr <? ?t)%float] => destruct (sr <? t)%float
  end; rewrite !elem_of_cons; tauto.
Qed.

(** X15: the band code is monotone in the sampling rate.  For two time
    steps that are not zero, when the sampling rate [1.0 / dt] of the first
    is at most that of the second, as binary64 values, the band code of the
    first does not come after the band code of the second in the order F, C,
    H, B, M, L of growing sampling rates; both codes are among these six. *)
Theorem band_code_monotone (dt1 dt2 : float) code1 code2 :
  Band._get_band_code dt1 = Band.Band_code code1 ->
  Band._get_band_code dt2 = Band.Band_code code2 ->
  (1 / dt1 <=? 1 / dt2)%float = true ->
  Band.rank code1 <= Band.rank code2 /\
  code1 ∈ ["F"; "C"; "H"; "B"; "M"; "L"] /\
  code2 ∈ ["F"; "C"; "H"; "B"; "M"; "L"].
Proof.
  unfold Band._get_band_code.
  destruct (dt1 =? 0)%float; [done|]. destruct (dt2 =? 0)%float; [done|].
  intros [= <-] [= <-] H.
  split; [by apply of_sampling_rate_monotone|].
  split; apply of_sampling_rate_codes.
Qed.

(** The time steps 20 s and 0.5 s: the codes B and L. *)
Lemma band_code_monotone_witness :
  Band._get_band_code 20 = Band.Band_code "B" /\
  Band._get_band_code 0.5 = Band.Band_code "L" /\
  Band.rank "B" <= Band.rank "L".
Proof.
  split; [vm_compute; reflexivity|]. split; [vm_compute; reflexivity|].
  apply (band_code_monotone 20 0.5 "B" "L"); vm_compute; reflexivity.
Defined.
